(** * CreateOverview: include/ignore filtering and the two traversal reports

    A shallow embedding of [create_overview.py].

    - Python strings are byte strings ([string]); every path is kept as the
      string the program builds.  On ASCII text [len] and the glob matcher
      agree with Python's.
    - The functions of [os.path] and [fnmatch] the program calls are
      transcribed from CPython 3.11 ([posixpath.py], [genericpath.py],
      [fnmatch.py]).
    - Exceptions are values of [exn]; a function that may raise returns a
      [result], and code that also logs, writes and appends runs in the
      monad [M] over the [state] of a report run.
    - Everything else the program obtains from outside is a field of [Env]:
      the file system, the network, the environment variables, the clock.
      The file system is the one the run starts with: it does not change
      while the program runs, the entries of a directory have distinct
      names, and writing to an output file that was opened does not fail. *)

From Stdlib Require Import String Ascii List Bool Arith ZArith Lia Permutation DecimalString.
Import ListNotations.
Open Scope list_scope.
Open Scope string_scope.

Set Implicit Arguments.
Set Warnings "-register-all,-abstract-large-number".

(** ** Exceptions *)

Inductive exn_kind : Type :=
| ValueError
| KeyError
| IndexError
| TypeError
| AttributeError
| UnicodeDecodeError
| FileNotFoundError
| PermissionError
| OSError
| HTTPError
| ConnectionError
| ConnectTimeout
| Timeout
| RequestException
| SystemExit.

(** An exception: its class and the text [str(e)] gives. *)
Record exn : Type := Exn { exn_kind_of : exn_kind; exn_text : string }.

Inductive result (A : Type) : Type :=
| Ok (a : A)
| Err (e : exn).
Arguments Ok {A} a.
Arguments Err {A} e.

(** ** Python [str] methods *)

Module Str.

Definition startswith (s p : string) : bool := String.prefix p s.

Fixpoint endswith (s p : string) : bool :=
  if String.eqb s p then true
  else match s with
       | EmptyString => false
       | String _ s' => endswith s' p
       end.

(** [s.split(c)]: always at least one piece. *)
Fixpoint split (c : ascii) (s : string) : list string :=
  match s with
  | EmptyString => [EmptyString]
  | String a s' =>
      if Ascii.eqb a c then EmptyString :: split c s'
      else match split c s' with
           | h :: t => String a h :: t
           | [] => [String a EmptyString]
           end
  end.

(** [sep.join(l)] *)
Definition join (sep : string) (l : list string) : string := String.concat sep l.

(** The pieces written one after the other. *)
Definition cat (l : list string) : string := fold_right String.append EmptyString l.

(** [s * n] *)
Fixpoint repeat (s : string) (n : nat) : string :=
  match n with
  | O => EmptyString
  | S k => s ++ repeat s k
  end.

(** [s.rfind(c) + 1]: the index just after the last [c], 0 when there is none. *)
Fixpoint rfind_succ (c : ascii) (s : string) : nat :=
  match s with
  | EmptyString => 0
  | String a s' =>
      match rfind_succ c s' with
      | O => if Ascii.eqb a c then 1 else 0
      | S k => S (S k)
      end
  end.

(** [s[i:]] *)
Fixpoint drop (i : nat) (s : string) : string :=
  match i, s with
  | O, _ => s
  | S k, EmptyString => EmptyString
  | S k, String _ s' => drop k s'
  end.

(** The ASCII characters [str.isspace] accepts: TAB..CR, FS..US and SPACE. *)
Definition isspace (a : ascii) : bool :=
  let n := nat_of_ascii a in
  (Nat.leb 9 n && Nat.leb n 13) || (Nat.leb 28 n && Nat.leb n 32).

Fixpoint lstrip (s : string) : string :=
  match s with
  | EmptyString => EmptyString
  | String a s' => if isspace a then lstrip s' else s
  end.

Fixpoint rstrip (s : string) : string :=
  match s with
  | EmptyString => EmptyString
  | String a s' =>
      match rstrip s' with
      | EmptyString => if isspace a then EmptyString else String a EmptyString
      | r => String a r
      end
  end.

(** [s.strip()] *)
Definition strip (s : string) : string := rstrip (lstrip s).

(** Truth value of a string: [bool(s)]. *)
Definition truthy (s : string) : bool := negb (String.eqb s EmptyString).

End Str.

(** ** [os.path] on POSIX *)

Module PosixPath.

Definition sep : ascii := "/"%char.

Definition isabs (s : string) : bool := Str.startswith s "/".

(** One step of the loop of [join]: [path] is the path built so far. *)
Definition join_step (path b : string) : string :=
  if Str.startswith b "/" then b
  else if negb (Str.truthy path) || Str.endswith path "/" then path ++ b
  else path ++ "/" ++ b.

(** [os.path.join(a, *p)] *)
Definition join (a : string) (p : list string) : string := fold_left join_step p a.

(** [os.path.join(a, b)] *)
Definition join2 (a b : string) : string := join a [b].

(** [os.path.basename(p)] *)
Definition basename (p : string) : string := Str.drop (Str.rfind_succ sep p) p.

(** The loop of [normpath] over the components; [new_comps] is kept reversed. *)
Fixpoint normpath_comps (initial_slashes : bool) (comps rev_new : list string) : list string :=
  match comps with
  | [] => rev rev_new
  | comp :: rest =>
      if String.eqb comp EmptyString || String.eqb comp "." then
        normpath_comps initial_slashes rest rev_new
      else if negb (String.eqb comp "..")
              || (negb initial_slashes && match rev_new with [] => true | _ => false end)
              || match rev_new with last :: _ => String.eqb last ".." | [] => false end
      then normpath_comps initial_slashes rest (comp :: rev_new)
      else match rev_new with
           | _ :: popped => normpath_comps initial_slashes rest popped
           | [] => normpath_comps initial_slashes rest rev_new
           end
  end.

(** [os.path.normpath(path)] *)
Definition normpath (path : string) : string :=
  if String.eqb path EmptyString then "."
  else
    let initial_slashes : nat :=
      if Str.startswith path "/" then
        if Str.startswith path "//" && negb (Str.startswith path "///") then 2 else 1
      else 0 in
    let comps := normpath_comps (negb (Nat.eqb initial_slashes 0)) (Str.split sep path) [] in
    let path' := Str.repeat "/" initial_slashes ++ Str.join "/" comps in
    if String.eqb path' EmptyString then "." else path'.

(** [os.path.abspath(path)]; [cwd] is what [os.getcwd()] returns. *)
Definition abspath (cwd path : string) : string :=
  normpath (if isabs path then path else join2 cwd path).

(** [genericpath.commonprefix] of two lists of components: the longest common
    leading part (the source compares the smaller with the larger of the two;
    the result does not depend on which is which). *)
Fixpoint commonprefix (s1 s2 : list string) : list string :=
  match s1, s2 with
  | c :: s1', d :: s2' => if String.eqb c d then c :: commonprefix s1' s2' else []
  | _, _ => []
  end.

Definition nonempty_comps (p : string) : list string :=
  filter Str.truthy (Str.split sep p).

(** [os.path.relpath(path, start)]; raises [ValueError] on an empty [path]. *)
Definition relpath (cwd path start : string) : result string :=
  if negb (Str.truthy path) then Err (Exn ValueError "no path specified")
  else
    let start_list := nonempty_comps (abspath cwd start) in
    let path_list := nonempty_comps (abspath cwd path) in
    let i := List.length (commonprefix start_list path_list) in
    let rel_list := (List.repeat ".." (List.length start_list - i) ++ skipn i path_list)%list in
    match rel_list with
    | [] => Ok "."
    | a :: p => Ok (join a p)
    end.

End PosixPath.

(** ** [fnmatch.fnmatch] on POSIX

    The program only calls [fnmatch.fnmatch(name, pattern)].  The matcher
    below follows CPython 3.11's [fnmatch.translate]: the pattern becomes a
    sequence of pieces, each matching one character, separated by stars, and
    the name has to match the whole sequence (the regular expression ends in
    [\Z] and is used with [match]).  On POSIX [os.path.normcase] is the
    identity, so [fnmatch] is [fnmatchcase].  A character class whose range
    is rejected by [re.compile] is outside this model. *)

Module Fnmatch.

Inductive piece : Type :=
| STAR                                   (* [*]: any run of characters *)
| ANY                                    (* [?], or a negated empty class *)
| NEVER                                  (* an empty class: [(?!)] *)
| LIT (c : ascii)                        (* [re.escape(c)] *)
| CLASS (negated : bool) (chars : list ascii) (ranges : list (ascii * ascii)).

Definition ascii_le (a b : ascii) : bool := Nat.leb (nat_of_ascii a) (nat_of_ascii b).

Definition piece_matches (p : piece) (c : ascii) : bool :=
  match p with
  | STAR => true
  | ANY => true
  | NEVER => false
  | LIT d => Ascii.eqb c d
  | CLASS negated chars ranges =>
      xorb negated
           (existsb (Ascii.eqb c) chars
            || existsb (fun r => ascii_le (fst r) c && ascii_le c (snd r)) ranges)
  end.

(** Does [name] match the whole sequence of pieces? *)
Fixpoint matches (ps : list piece) (name : string) : bool :=
  match ps with
  | [] => String.eqb name EmptyString
  | STAR :: ps' =>
      (fix star (s : string) : bool :=
         matches ps' s
         || match s with
            | EmptyString => false
            | String _ s' => star s'
            end) name
  | p :: ps' =>
      match name with
      | EmptyString => false
      | String c s' => piece_matches p c && matches ps' s'
      end
  end.

(** The text up to the next [']'], and what follows it. *)
Fixpoint scan_close (s : string) : option (string * string) :=
  match s with
  | EmptyString => None
  | String c s' =>
      if Ascii.eqb c "]" then Some (EmptyString, s')
      else match scan_close s' with
           | Some (stuff, rest) => Some (String c stuff, rest)
           | None => None
           end
  end.

(** [j = j+1] when [pat[j] == c]: the character skipped, and the rest. *)
Definition skip (c : ascii) (s : string) : string * string :=
  match s with
  | String a t => if Ascii.eqb a c then (String c EmptyString, t) else (EmptyString, s)
  | EmptyString => (EmptyString, s)
  end.

(** After a ['[']: [stuff = pat[i:j]] and the pattern after the closing [']'];
    a leading ['!'] and a [']'] right after it are part of [stuff]. *)
Definition bracket (s : string) : option (string * string) :=
  let '(bang, s1) := skip "!" s in
  let '(close, s2) := skip "]" s1 in
  match scan_close s2 with
  | Some (body, rest) => Some (bang ++ close ++ body, rest)
  | None => None
  end.

(** [s.find(c, off)] *)
Fixpoint find_from (c : ascii) (s : string) (off : nat) : option nat :=
  match s with
  | EmptyString => None
  | String a s' =>
      match off with
      | O => if Ascii.eqb a c then Some 0
             else option_map S (find_from c s' 0)
      | S off' => option_map S (find_from c s' off')
      end
  end.

Fixpoint take (k : nat) (s : string) : string :=
  match k, s with
  | S k', String a s' => String a (take k' s')
  | _, _ => EmptyString
  end.

(** The [while True] loop cutting [stuff] at the hyphens that make ranges;
    the last element is [pat[i:j]], possibly empty. *)
Fixpoint chunks_loop (fuel : nat) (s : string) (off : nat) : list string :=
  match fuel with
  | O => [s]
  | S fuel' =>
      match find_from "-" s off with
      | None => [s]
      | Some k => take k s :: chunks_loop fuel' (Str.drop (S k) s) 2
      end
  end.

(** [chunks[-1] += '-'] when the last piece is empty. *)
Fixpoint close_chunks (cs : list string) : list string :=
  match cs with
  | [c; EmptyString] => [c ++ "-"]
  | c :: cs' => c :: close_chunks cs'
  | [] => []
  end.

Definition first_char (s : string) : option ascii :=
  match s with String a _ => Some a | EmptyString => None end.

Fixpoint last_char (s : string) : option ascii :=
  match s with
  | EmptyString => None
  | String a EmptyString => Some a
  | String _ s' => last_char s'
  end.

Fixpoint init (s : string) : string :=
  match s with
  | EmptyString => EmptyString
  | String _ EmptyString => EmptyString
  | String a s' => String a (init s')
  end.

(** One round of "remove empty ranges", from the right. *)
Definition merge_step (c : string) (acc : list string) : list string :=
  match acc with
  | [] => [c]
  | d :: rest =>
      match last_char c, first_char d with
      | Some x, Some y =>
          if ascii_le x y then c :: d :: rest
          else (init c ++ Str.drop 1 d) :: rest
      | _, _ => c :: d :: rest
      end
  end.

Definition chunks (stuff : string) : list string :=
  match find_from "-" stuff 0 with
  | None => [stuff]
  | Some _ =>
      let off := match stuff with String "!" _ => 2 | _ => 1 end in
      fold_right merge_step []
                 (close_chunks (chunks_loop (String.length stuff) stuff off))
  end.

Fixpoint range_pairs (cs : list string) : list (ascii * ascii) :=
  match cs with
  | c :: ((d :: _) as cs') =>
      match last_char c, first_char d with
      | Some x, Some y => (x, y) :: range_pairs cs'
      | _, _ => range_pairs cs'
      end
  | _ => []
  end.

(** The piece for a bracket expression with the given [stuff]. *)
Definition class_piece (stuff : string) : piece :=
  let cs := chunks stuff in
  let all := String.concat EmptyString cs in
  if String.eqb all EmptyString then NEVER
  else if String.eqb all "!" then ANY
  else match all with
       | String "!" body => CLASS true (list_ascii_of_string body) (range_pairs cs)
       | _ => CLASS false (list_ascii_of_string all) (range_pairs cs)
       end.

(** The first loop of [translate]; consecutive stars are compressed. *)
Fixpoint pieces (fuel : nat) (pat : string) (last_star : bool) : list piece :=
  match fuel with
  | O => []
  | S fuel' =>
      match pat with
      | EmptyString => []
      | String c rest =>
          if Ascii.eqb c "*" then
            if last_star then pieces fuel' rest true
            else STAR :: pieces fuel' rest true
          else if Ascii.eqb c "?" then ANY :: pieces fuel' rest false
          else if Ascii.eqb c "[" then
            match bracket rest with
            | None => LIT "[" :: pieces fuel' rest false
            | Some (stuff, rest') => class_piece stuff :: pieces fuel' rest' false
            end
          else LIT c :: pieces fuel' rest false
      end
  end.

Definition translate (pat : string) : list piece :=
  pieces (String.length pat) pat false.

Definition fnmatchcase (name pat : string) : bool := matches (translate pat) name.

Definition fnmatch (name pat : string) : bool := fnmatchcase name pat.

End Fnmatch.


(** ** Decoded JSON values, used as Python values

    A Python [dict] with string keys is a [JObj] (an association list in
    insertion order, keys distinct), a [list] a [JArr]. *)

Inductive json : Type :=
| JNull
| JBool (b : bool)
| JInt (z : Z)
| JFloat (repr : string)
| JStr (s : string)
| JArr (items : list json)
| JObj (fields : list (string * json)).

Module Py.

Fixpoint assoc (key : string) (fields : list (string * json)) : option json :=
  match fields with
  | [] => None
  | (k, v) :: rest => if String.eqb k key then Some v else assoc key rest
  end.

Definition str_of_nat (n : nat) : string := NilEmpty.string_of_uint (Nat.to_uint n).

(** [x[key]] for a string [key] *)
Definition getitem (x : json) (key : string) : result json :=
  match x with
  | JObj fields =>
      match assoc key fields with
      | Some v => Ok v
      | None => Err (Exn KeyError ("'" ++ key ++ "'"))
      end
  | JArr _ => Err (Exn TypeError "list indices must be integers or slices, not str")
  | JStr _ => Err (Exn TypeError "string indices must be integers")
  | _ => Err (Exn TypeError "object is not subscriptable")
  end.

(** [x[i]] for an integer [i >= 0] *)
Definition getindex (x : json) (i : nat) : result json :=
  match x with
  | JArr items =>
      match nth_error items i with
      | Some v => Ok v
      | None => Err (Exn IndexError "list index out of range")
      end
  | JStr s =>
      match String.get i s with
      | Some c => Ok (JStr (String c EmptyString))
      | None => Err (Exn IndexError "string index out of range")
      end
  | JObj _ => Err (Exn KeyError (str_of_nat i))
  | _ => Err (Exn TypeError "object is not subscriptable")
  end.

(** [x.get(key, default)] *)
Definition get (x : json) (key : string) (default : json) : result json :=
  match x with
  | JObj fields =>
      match assoc key fields with
      | Some v => Ok v
      | None => Ok default
      end
  | _ => Err (Exn AttributeError "object has no attribute 'get'")
  end.

(** [x.strip()] *)
Definition strip (x : json) : result string :=
  match x with
  | JStr s => Ok (Str.strip s)
  | _ => Err (Exn AttributeError "object has no attribute 'strip'")
  end.

(** Truth value of a dict. *)
Definition nonempty (x : json) : bool :=
  match x with
  | JObj [] => false
  | _ => true
  end.

(** Truth value of an optional string ([None] or a [str]). *)
Definition truthy (x : option string) : bool :=
  match x with
  | Some s => Str.truthy s
  | None => false
  end.

(** Truth value of an optional list ([None] or a [list]). *)
Definition truthy_list (A : Type) (x : option (list A)) : bool :=
  match x with
  | Some (_ :: _) => true
  | _ => false
  end.

(** [isinstance(e, OSError)]; the exceptions of [requests] derive from
    [IOError], which is [OSError]. *)
Definition is_OSError (e : exn) : bool :=
  match exn_kind_of e with
  | FileNotFoundError | PermissionError | OSError
  | HTTPError | ConnectionError | ConnectTimeout | Timeout | RequestException => true
  | _ => false
  end.

End Py.

(** ** The machine the program runs on *)

(** The directory tree [os.walk] finds.  A [DirStub] is an entry
    [os.scandir] reports as a directory but [os.walk] does not enter: a
    symbolic link to a directory, or a directory that cannot be listed. *)
Inductive node : Type :=
| File (name : string)
| Dir (name : string) (children : list node)
| DirStub (name : string).

Definition node_name (n : node) : string :=
  match n with
  | File name => name
  | Dir name _ => name
  | DirStub name => name
  end.

Definition is_dir (n : node) : bool :=
  match n with
  | File _ => false
  | Dir _ _ => true
  | DirStub _ => true
  end.

Record stat_result : Type := { st_mode : nat; st_uid : nat }.

Record request : Type :=
  { req_url : string;
    req_headers : list (string * string);
    req_json : json;
    req_timeout : nat }.

Record response : Type :=
  { status_code : nat;
    reason : string;
    response_json : result json              (* [response.json()] *) }.

(** Everything the program obtains from outside itself: the answers of the
    operating system and of the network, and the library functions that are
    not spelled out here.  The matcher is a field too: what is proved holds
    for any [fnmatch], and [Fnmatch.fnmatch] is the one the examples run
    with. *)
Record Env : Type :=
  { fnmatch : string -> string -> bool;            (* [fnmatch.fnmatch] *)
    getcwd : string;                               (* [os.getcwd()] *)
    scandir_tree : string -> option (list node);   (* the tree under [top]; [None]: [top] cannot be listed *)
    read_text : string -> result string;           (* [open(p, 'r', encoding='utf-8').read()] *)
    read_plain : string -> result string;          (* [open(p, 'r')] and reading it through *)
    open_write : string -> result unit;            (* [open(p, 'w', encoding='utf-8')] *)
    os_stat : string -> result stat_result;        (* [os.stat] *)
    filemode : nat -> string;                      (* [stat.filemode] *)
    getpwuid : nat -> result string;               (* [pwd.getpwuid(uid).pw_name] *)
    isdir : string -> bool;                        (* [os.path.isdir] *)
    requests_post : request -> result response;    (* [requests.post] *)
    getenv : string -> option string;              (* [os.getenv] *)
    now_python : string;                           (* the timestamp of the content run *)
    now_tree : string;                             (* the timestamp of the tree run *)
    format_value : json -> string                  (* [str(v)] in an f-string *) }.

(** ** The pattern matcher: [should_process] *)

(** The test both generator expressions apply to one pattern. *)
Definition pattern_hits (E : Env) (rel_path base_name pattern : string) : bool :=
  fnmatch E rel_path pattern || fnmatch E base_name pattern.

Definition should_process (E : Env) (path root_dir : string)
           (include_patterns ignore_patterns : list string) : result bool :=
  match PosixPath.relpath (getcwd E) path root_dir with
  | Err e => Err e
  | Ok rel_path =>
      let base_name := PosixPath.basename path in
      (* Do not ignore the root directory *)
      if String.eqb rel_path "." then Ok true
      else
        let included := existsb (pattern_hits E rel_path base_name) include_patterns in
        if match include_patterns with [] => false | _ => true end && negb included
        then Ok false
        else
          let ignored := existsb (pattern_hits E rel_path base_name) ignore_patterns in
          if ignored then Ok false else Ok true
  end.

(** ** Logging and the state of a report run *)

Inductive level : Type := DEBUG | INFO | ERROR | CRITICAL.

Definition log_record : Type := (level * string)%type.

(** What a report run changes as it goes: the records passed to [logging],
    the text written to [output_txt] and the list the JSON document is made
    of ([overview_data], [tree_data]). *)
Record state : Type :=
  { log : list log_record;
    output_txt : string;
    data : list json }.

Definition M (A : Type) : Type := state -> result A * state.

Definition ret (A : Type) (a : A) : M A := fun s => (Ok a, s).

Definition bind (A B : Type) (c : M A) (k : A -> M B) : M B :=
  fun s => match c s with
           | (Ok a, s') => k a s'
           | (Err e, s') => (Err e, s')
           end.

Definition raise (A : Type) (e : exn) : M A := fun s => (Err e, s).
Arguments raise {A} e.

Definition lift (A : Type) (r : result A) : M A :=
  match r with
  | Ok a => ret a
  | Err e => raise e
  end.

Notation "'let!' x ':=' c 'in' k" := (bind c (fun x => k))
  (at level 10, x pattern, c at level 100, k at level 200).
Notation "c ';;' k" := (bind c (fun _ => k))
  (at level 100, k at level 200, right associativity).

Definition result_bind (A B : Type) (r : result A) (k : A -> result B) : result B :=
  match r with
  | Ok a => k a
  | Err e => Err e
  end.

Notation "'let?' x ':=' r 'in' k" := (result_bind r (fun x => k))
  (at level 10, x pattern, r at level 100, k at level 200).

Definition logging (lvl : level) (msg : string) : M unit :=
  fun s => (Ok tt, {| log := (log s ++ [(lvl, msg)])%list;
                      output_txt := output_txt s;
                      data := data s |}).

(** [output_txt.write(text)] *)
Definition write (text : string) : M unit :=
  fun s => (Ok tt, {| log := log s;
                      output_txt := output_txt s ++ text;
                      data := data s |}).

(** [overview_data.append(x)], [tree_data.append(x)] *)
Definition append_data (x : json) : M unit :=
  fun s => (Ok tt, {| log := log s;
                      output_txt := output_txt s;
                      data := (data s ++ [x])%list |}).

(** [for x in l: body(x)] *)
Definition for_each (A : Type) (body : A -> M unit) : list A -> M unit :=
  fix go (l : list A) : M unit :=
    match l with
    | [] => ret tt
    | x :: l' => body x ;; go l'
    end.

(** [[x for x in l if test(x)]] *)
Definition filterM (A : Type) (test : A -> M bool) : list A -> M (list A) :=
  fix go (l : list A) : M (list A) :=
    match l with
    | [] => ret []
    | x :: l' =>
        let! b := test x in
        let! kept := go l' in
        ret (if b then x :: kept else kept)
    end.

(** A loop that also builds a local list. *)
Definition fold_each (A B : Type) (body : list B -> A -> M (list B)) : list A -> list B -> M (list B) :=
  fix go (l : list A) (acc : list B) : M (list B) :=
    match l with
    | [] => ret acc
    | x :: l' => let! acc' := body acc x in go l' acc'
    end.

(** A computation that writes the beginning of [full] to [output_txt], and
    the whole of it when it ends without an exception. *)
Definition writes_within (A : Type) (c : M A) (full : string) : Prop :=
  forall s, exists t rest,
      output_txt (snd (c s)) = output_txt s ++ t
      /\ full = t ++ rest
      /\ (forall a, fst (c s) = Ok a -> rest = EmptyString).

Definition nl : string := String (ascii_of_nat 10) EmptyString.

(** ** [requests]: what [raise_for_status] does *)

Module Requests.

Definition raise_for_status (url : string) (r : response) : result unit :=
  let code := status_code r in
  if Nat.leb 400 code && Nat.ltb code 500 then
    Err (Exn HTTPError (Py.str_of_nat code ++ " Client Error: " ++ reason r ++ " for url: " ++ url))
  else if Nat.leb 500 code && Nat.ltb code 600 then
    Err (Exn HTTPError (Py.str_of_nat code ++ " Server Error: " ++ reason r ++ " for url: " ++ url))
  else Ok tt.

End Requests.

(** ** [get_file_description] *)

Definition fallback_description : string := "Description unavailable due to an API error.".

Definition api_url : string := "https://api.openai.com/v1/chat/completions".

Definition description_request (file_content api_key : string)
           (partial_prompt : option string) : request :=
  let headers := [("Authorization", "Bearer " ++ api_key);
                  ("Content-Type", "application/json")] in
  let main_prompt :=
    "Provide a concise description of the following Python file, focusing on the filename, its path, "
    ++ "its purpose, and key variables with their purposes. Do not include unnecessary explanations of open-source platforms or general concepts." in
  let main_prompt :=
    match partial_prompt with
    | Some p => if Str.truthy p then p ++ nl ++ main_prompt else main_prompt
    | None => main_prompt
    end in
  let system_message :=
    JObj [("role", JStr "system");
          ("content", JStr "You are ChatGPT, a large language model trained by OpenAI.")] in
  let user_message :=
    JObj [("role", JStr "user");
          ("content", JStr (main_prompt ++ nl ++ nl ++ "```python" ++ nl ++ file_content ++ nl ++ "```"))] in
  let payload :=
    JObj [("model", JStr "gpt-4");
          ("messages", JArr [system_message; user_message]);
          ("max_tokens", JInt 150);
          ("temperature", JFloat "0.3")] in
  {| req_url := api_url; req_headers := headers; req_json := payload; req_timeout := 30 |}.

(** The body of the [try] block. *)
Definition fetch_description (E : Env) (req : request) : result (string * json) :=
  let? response := requests_post E req in
  let? _ := Requests.raise_for_status (req_url req) response in
  let? data := response_json response in
  let? choices := Py.getitem data "choices" in
  let? choice := Py.getindex choices 0 in
  let? message := Py.getitem choice "message" in
  let? content := Py.getitem message "content" in
  let? description := Py.strip content in
  (* Extract token usage *)
  let? usage := Py.get data "usage" (JObj []) in
  let? prompt_tokens := Py.get usage "prompt_tokens" (JInt 0) in
  let? completion_tokens := Py.get usage "completion_tokens" (JInt 0) in
  let? total_tokens := Py.get usage "total_tokens" (JInt 0) in
  let usage_info := JObj [("prompt_tokens", prompt_tokens);
                          ("completion_tokens", completion_tokens);
                          ("total_tokens", total_tokens)] in
  Ok (description, usage_info).

Definition get_file_description (E : Env) (file_content api_key : string)
           (partial_prompt : option string) : M (string * json) :=
  match fetch_description E (description_request file_content api_key partial_prompt) with
  | Ok r => ret r
  | Err e =>
      match exn_kind_of e with
      | HTTPError =>
          logging ERROR ("HTTP error occurred while fetching description: " ++ exn_text e) ;;
          ret (fallback_description, JObj [])
      | ConnectionError | ConnectTimeout =>
          logging ERROR ("Connection error occurred while fetching description: " ++ exn_text e) ;;
          ret (fallback_description, JObj [])
      | Timeout =>
          logging ERROR ("Timeout error occurred while fetching description: " ++ exn_text e) ;;
          ret (fallback_description, JObj [])
      | RequestException =>
          logging ERROR ("An error occurred while fetching description: " ++ exn_text e) ;;
          ret (fallback_description, JObj [])
      | KeyError =>
          logging ERROR "Unexpected response structure from the API." ;;
          ret (fallback_description, JObj [])
      | _ => raise e
      end
  end.

(** The lookups of the tree report for one entry: its permission string and
    the name of its owner. *)
Definition stat_entry (E : Env) (full_path : string) : result (string * string) :=
  let? stats := os_stat E full_path in
  let permissions := filemode E (st_mode stats) in
  let? owner := getpwuid E (st_uid stats) in
  Ok (permissions, owner).

Definition entry_info (E : Env) (full_path name permissions owner : string) : json :=
  JObj [("name", JStr name);
        ("permissions", JStr permissions);
        ("owner", JStr owner);
        ("type", JStr (if isdir E full_path then "directory" else "file"))].

Definition directory_header (dirpath : string) : string :=
  (nl ++ "Directory: " ++ dirpath ++ nl)
  ++ (Str.repeat "=" (String.length dirpath + 11) ++ nl).

(** ** The traversal both reports share

    [os.walk(root_dir)] yields [(dirpath, dirnames, filenames)] for a
    directory, and after the loop body has run it enters the directories
    whose names are still in [dirnames].  Both loops start by replacing
    [dirnames] with the names that pass [should_process]. *)

Definition dirs_of (entries : list node) : list string :=
  map node_name (filter is_dir entries).

Definition nondirs_of (entries : list node) : list string :=
  map node_name (filter (fun n => negb (is_dir n)) entries).

Section Traversal.

Variable E : Env.
Variable root_dir : string.
Variables include_patterns ignore_patterns : list string.

Definition passes (path : string) : M bool :=
  lift (should_process E path root_dir include_patterns ignore_patterns).

(** [top] is the directory at [dirpath]; nothing is yielded for an entry
    that is not a directory [os.walk] can list.  After the body, [os.walk]
    enters [join(dirpath, name)] for each [name] left in [dirnames]: here,
    each entry whose name is in [dirnames], in the order of the entries. *)
Fixpoint walk (body : string -> list string -> list string -> M unit)
         (dirpath : string) (top : node) {struct top} : M unit :=
  match top with
  | Dir _ entries =>
      (* Modify dirnames in place to prevent os.walk from descending into ignored directories *)
      let! dirnames := filterM (fun d => passes (PosixPath.join2 dirpath d)) (dirs_of entries) in
      body dirpath dirnames (nondirs_of entries) ;;
      for_each (fun e =>
                  if existsb (String.eqb (node_name e)) dirnames
                  then walk body (PosixPath.join2 dirpath (node_name e)) e
                  else ret tt) entries
  | _ => ret tt
  end.

(** [for dirpath, dirnames, filenames in os.walk(root_dir)] *)
Definition os_walk (body : string -> list string -> list string -> M unit) : M unit :=
  match scandir_tree E root_dir with
  | Some entries => walk body root_dir (Dir root_dir entries)
  | None => ret tt
  end.

(** *** The content report *)

Variable api_key : option string.
Variable partial_prompt : option string.

Definition file_entry_with_description (filename filepath description file_content : string) : json :=
  JObj [("filename", JStr filename);
        ("filepath", JStr filepath);
        ("description", JStr description);
        ("content", JStr file_content)].

Definition file_entry_plain (filename filepath file_content : string) : json :=
  JObj [("filename", JStr filename);
        ("filepath", JStr filepath);
        ("content", JStr file_content)].

(** The body of [for filename in filenames]. *)
Definition process_file (dirpath filename : string) : M unit :=
  let filepath := PosixPath.join2 dirpath filename in
  let! ok := passes filepath in
  if negb ok then logging DEBUG ("Ignored file: " ++ filepath)
  else if Str.endswith filename ".py" then
    logging INFO ("Processing file: " ++ filepath) ;;
    match read_text E filepath with
    | Err e =>
        if Py.is_OSError e
        then logging ERROR ("Failed to read file " ++ filepath ++ ": " ++ exn_text e)
        else raise e
    | Ok file_content =>
        let without_description :=
          let file_entry := file_entry_plain filename filepath file_content in
          write ("'" ++ filename ++ "'" ++ nl ++ "``` File path = " ++ filepath ++ nl ++ nl) ;;
          write file_content ;;
          write (nl ++ "```" ++ nl ++ nl) ;;
          append_data file_entry in
        (* [if api_key:] holds for a key that is a non-empty string *)
        match api_key with
        | Some key =>
            if Str.truthy key then
              let! (description, usage) := get_file_description E file_content key partial_prompt in
              let file_entry := file_entry_with_description filename filepath description file_content in
              write ("'" ++ filename ++ "'" ++ nl ++ "**Description:** " ++ description ++ nl
                     ++ "``` File path = " ++ filepath ++ nl ++ nl) ;;
              write file_content ;;
              write (nl ++ "```" ++ nl ++ nl) ;;
              (* Log token usage *)
              (if Py.nonempty usage then
                 let! prompt := lift (Py.getitem usage "prompt_tokens") in
                 let! completion := lift (Py.getitem usage "completion_tokens") in
                 let! total := lift (Py.getitem usage "total_tokens") in
                 logging INFO ("Tokens used for " ++ filename ++ ": "
                               ++ "Prompt=" ++ format_value E prompt ++ ", "
                               ++ "Completion=" ++ format_value E completion ++ ", "
                               ++ "Total=" ++ format_value E total)
               else ret tt) ;;
              append_data file_entry
            else without_description
        | None => without_description
        end
    end
  else ret tt.

(** The loop body after the pruning assignment. *)
Definition python_body (dirpath : string) (dirnames filenames : list string) : M unit :=
  let! ok := passes dirpath in
  if negb ok then logging DEBUG ("Ignored directory: " ++ dirpath)
  else for_each (process_file dirpath) filenames.

(** *** The tree report *)

(** The body of [for name in dirnames + filenames]; [contents] is
    [directory_info["contents"]]. *)
Definition list_entry (dirpath : string) (contents : list json) (name : string) : M (list json) :=
  let full_path := PosixPath.join2 dirpath name in
  let! ok := passes full_path in
  if negb ok then logging DEBUG ("Ignored: " ++ full_path) ;; ret contents
  else
    match stat_entry E full_path with
    | Ok (permissions, owner) =>
        write (permissions ++ " " ++ owner ++ " " ++ name ++ nl) ;;
        ret (contents ++ [entry_info E full_path name permissions owner])%list
    | Err e =>
        match exn_kind_of e with
        | FileNotFoundError | PermissionError =>
            logging ERROR ("Failed to access " ++ full_path ++ ": " ++ exn_text e) ;;
            ret contents
        | _ => raise e
        end
    end.

Definition tree_body (dirpath : string) (dirnames filenames : list string) : M unit :=
  let! ok := passes dirpath in
  if negb ok then logging DEBUG ("Ignored directory: " ++ dirpath)
  else
    write (nl ++ "Directory: " ++ dirpath ++ nl) ;;
    write (Str.repeat "=" (String.length dirpath + 11) ++ nl) ;;
    let! contents := fold_each (list_entry dirpath) (dirnames ++ filenames)%list [] in
    append_data (JObj [("directory", JStr dirpath); ("contents", JArr contents)]).

End Traversal.

(** ** The two reports *)

(** What a report run leaves behind: the text file (absent when it could not
    be opened), the JSON document (absent when the run did not get to
    [json.dump]), the log records, and the exception that left the function,
    [SystemExit] included. *)
Record report : Type :=
  { rep_text : option string;
    rep_json : option json;
    rep_log : list log_record;
    rep_raised : option exn }.

Definition sys_exit_1 : exn := Exn SystemExit "1".

Definition initial_state : state := {| log := []; output_txt := EmptyString; data := [] |}.

(** The two [try] blocks around a traversal [loop]. *)
Definition run_report (E : Env) (output_file_txt output_file_json : string)
           (txt_failure : string) (loop : M unit) : report :=
  match open_write E output_file_txt with
  | Err e =>
      if Py.is_OSError e then
        {| rep_text := None; rep_json := None;
           rep_log := [(CRITICAL, txt_failure ++ output_file_txt ++ ": " ++ exn_text e)];
           rep_raised := Some sys_exit_1 |}
      else {| rep_text := None; rep_json := None; rep_log := []; rep_raised := Some e |}
  | Ok _ =>
      match loop initial_state with
      | (Err e, s) =>
          if Py.is_OSError e then
            let msg := txt_failure ++ output_file_txt ++ ": " ++ exn_text e in
            {| rep_text := Some (output_txt s); rep_json := None;
               rep_log := (log s ++ [(CRITICAL, msg)])%list;
               rep_raised := Some sys_exit_1 |}
          else
            {| rep_text := Some (output_txt s); rep_json := None;
               rep_log := log s; rep_raised := Some e |}
      | (Ok _, s) =>
          match open_write E output_file_json with
          | Err e =>
              if Py.is_OSError e then
                let msg := "Failed to write to JSON output file "
                           ++ output_file_json ++ ": " ++ exn_text e in
                {| rep_text := Some (output_txt s); rep_json := None;
                   rep_log := (log s ++ [(CRITICAL, msg)])%list;
                   rep_raised := Some sys_exit_1 |}
              else
                {| rep_text := Some (output_txt s); rep_json := None;
                   rep_log := log s; rep_raised := Some e |}
          | Ok _ =>
              {| rep_text := Some (output_txt s); rep_json := Some (JArr (data s));
                 rep_log := log s; rep_raised := None |}
          end
      end
  end.

Definition process_all_python_files (E : Env) (root_dir : string)
           (include_patterns ignore_patterns : list string)
           (api_key partial_prompt : option string) : report :=
  let timestamp := now_python E in
  let output_file_txt := "all_python_files_" ++ timestamp ++ ".txt" in
  let output_file_json := "all_python_files_" ++ timestamp ++ ".json" in
  run_report E output_file_txt output_file_json "Failed to write to output file "
             (os_walk E root_dir include_patterns ignore_patterns
                      (python_body E root_dir include_patterns ignore_patterns
                                   api_key partial_prompt)).

Definition generate_tree_view (E : Env) (root_dir : string)
           (include_patterns ignore_patterns : list string) : report :=
  let timestamp := now_tree E in
  let output_file_tree := "directory_tree_" ++ timestamp ++ ".txt" in
  let output_file_json := "directory_tree_" ++ timestamp ++ ".json" in
  run_report E output_file_tree output_file_json "Failed to write to tree output file "
             (os_walk E root_dir include_patterns ignore_patterns
                      (tree_body E root_dir include_patterns ignore_patterns)).

(** ** [main] *)

(** The namespace [parser.parse_args()] returns; an option that was not given
    is [None], and [root_dir] already holds its default. *)
Record args : Type :=
  { arg_root_dir : string;
    arg_python : bool;
    arg_tree : bool;
    arg_description : bool;
    arg_api : option string;
    arg_d : option string;
    arg_ignore_dirs : option (list string);
    arg_ignore_files : option (list string);
    arg_ignore_patterns : option (list string);
    arg_ignore_file : option string;
    arg_include_dirs : option (list string);
    arg_include_files : option (list string);
    arg_include_patterns : option (list string) }.

(** [x or y] on optional strings *)
Definition py_or (x y : option string) : option string :=
  if Py.truthy x then x else y.

Definition env_api_key (E : Env) : option string :=
  py_or (py_or (getenv E "OPENAI_API_KEY") (getenv E "API_KEY")) (getenv E "api_key").

Definition missing_key_message : string :=
  "An API key is required when using '-description'. Provide it via the '-api' argument or set it in one of the environment variables: 'OPENAI_API_KEY', 'API_KEY', 'api_key'.".

(** "Determine the API key to use": the key, or [sys.exit(1)], with the
    records logged on the way. *)
Definition determine_api_key (E : Env) (a : args) : result (option string) * list log_record :=
  if arg_description a then
    if Py.truthy (arg_api a) then
      (Ok (arg_api a), [(INFO, "Using OpenAI API key provided via '-api' argument.")])
    else if Py.truthy (env_api_key E) then
      (Ok (env_api_key E), [(INFO, "Using OpenAI API key from environment variables.")])
    else (Err sys_exit_1, [(CRITICAL, missing_key_message)])
  else (Ok None, []).

(** [ignore_patterns.extend(x)] under [if x:] *)
Definition extend_if (patterns : list string) (x : option (list string)) : list string :=
  if Py.truthy_list x
  then match x with Some l => (patterns ++ l)%list | None => patterns end
  else patterns.

(** The lines a text file yields when iterated, line ends translated to
    a single newline character and kept. *)
Fixpoint readlines (s : string) : list string :=
  match s with
  | EmptyString => []
  | String c s' =>
      if Ascii.eqb c (ascii_of_nat 10) then nl :: readlines s'
      else if Ascii.eqb c (ascii_of_nat 13) then
        match s' with
        | String c' s'' => if Ascii.eqb c' (ascii_of_nat 10) then nl :: readlines s''
                           else nl :: readlines s'
        | EmptyString => [nl]
        end
      else match readlines s' with
           | [] => [String c EmptyString]
           | line :: rest => String c line :: rest
           end
  end.

(** The loop over the lines of the ignore file. *)
Fixpoint add_ignore_lines (ignore_patterns lines : list string) : list string :=
  match lines with
  | [] => ignore_patterns
  | line :: rest =>
      let line := Str.strip line in
      if Str.truthy line && negb (Str.startswith line "#")
      then add_ignore_lines (ignore_patterns ++ [line])%list rest
      else add_ignore_lines ignore_patterns rest
  end.

Definition default_ignore_patterns : list string :=
  [".*"; "__*__"; "venv"; "env"; "__pycache__"].

(** "Collect ignore patterns" *)
Definition collect_ignore_patterns (E : Env) (a : args) : result (list string) * list log_record :=
  let ignore_patterns := default_ignore_patterns in
  let ignore_patterns := extend_if ignore_patterns (arg_ignore_patterns a) in
  let ignore_patterns := extend_if ignore_patterns (arg_ignore_dirs a) in
  let ignore_patterns := extend_if ignore_patterns (arg_ignore_files a) in
  match arg_ignore_file a with
  | Some path =>
      if Str.truthy path then
        match read_plain E path with
        | Ok text => (Ok (add_ignore_lines ignore_patterns (readlines text)), [])
        | Err e =>
            (Err sys_exit_1,
             [(ERROR, "Failed to read ignore file " ++ path ++ ": " ++ exn_text e)])
        end
      else (Ok ignore_patterns, [])
  | None => (Ok ignore_patterns, [])
  end.

(** "Collect include patterns" *)
Definition collect_include_patterns (a : args) : list string :=
  let include_patterns := [] in
  let include_patterns := extend_if include_patterns (arg_include_patterns a) in
  let include_patterns := extend_if include_patterns (arg_include_dirs a) in
  extend_if include_patterns (arg_include_files a).

(** How the process ends: its exit status, everything logged, and the
    reports that were started. *)
Record run : Type :=
  { exit_code : nat;
    run_log : list log_record;
    python_report : option report;
    tree_report : option report }.

Definition main (E : Env) (a : args) : run :=
  match determine_api_key E a with
  | (Err _, l1) =>
      {| exit_code := 1; run_log := l1; python_report := None; tree_report := None |}
  | (Ok api_key, l1) =>
      let root_msg := "Root directory to scan: " ++ arg_root_dir a in
      let l2 := ((if arg_description a then [(INFO, "Description generation enabled.")] else [])
                 ++ [(INFO, root_msg)])%list in
      match collect_ignore_patterns E a with
      | (Err _, l3) =>
          {| exit_code := 1; run_log := (l1 ++ l2 ++ l3)%list;
             python_report := None; tree_report := None |}
      | (Ok ignore_patterns, l3) =>
          let include_patterns := collect_include_patterns a in
          let l4 := [(DEBUG, "Include patterns: "
                                 ++ format_value E (JArr (map JStr include_patterns)));
                     (DEBUG, "Ignore patterns: "
                                 ++ format_value E (JArr (map JStr ignore_patterns)))] in
          let p := if arg_python a
                   then Some (process_all_python_files E (arg_root_dir a) include_patterns
                                                       ignore_patterns api_key (arg_d a))
                   else None in
          match p with
          | Some {| rep_log := lp; rep_raised := Some _ |} =>
              {| exit_code := 1; run_log := (l1 ++ l2 ++ l3 ++ l4 ++ lp)%list;
                 python_report := p; tree_report := None |}
          | _ =>
              let lp := match p with Some r => rep_log r | None => [] end in
              let t := if arg_tree a
                       then Some (generate_tree_view E (arg_root_dir a) include_patterns
                                                     ignore_patterns)
                       else None in
              {| exit_code := match t with
                              | Some {| rep_raised := Some _ |} => 1
                              | _ => 0
                              end;
                 run_log := (l1 ++ l2 ++ l3 ++ l4
                             ++ lp ++ match t with Some r => rep_log r | None => [] end)%list;
                 python_report := p; tree_report := t |}
          end
      end
  end.

(** What [parser.parse_args()] does with the command line: it returns the
    namespace, or it ends the process itself, with status 0 once the help is
    printed for [-h], with status 2 after the usage message for a command
    line it rejects. *)
Inductive parse_outcome : Type :=
| Namespace (a : args)
| HelpShown
| UsageError.

(** [main] from its first line, for what [parse_args] does.  When
    [parse_args] ends the process nothing has been logged and no report is
    started. *)
Definition main_on (E : Env) (parsed : parse_outcome) : run :=
  match parsed with
  | Namespace a => main E a
  | HelpShown =>
      {| exit_code := 0; run_log := []; python_report := None; tree_report := None |}
  | UsageError =>
      {| exit_code := 2; run_log := []; python_report := None; tree_report := None |}
  end.

(** ** What the specification says, in its own words *)

(** "The path glob-matches a pattern of the set, tested against its path
    relative to the root or against its base name." *)
Definition glob_matches_any (E : Env) (rel_path base_name : string) (patterns : list string) : Prop :=
  exists pattern, In pattern patterns /\
    (fnmatch E rel_path pattern = true \/ fnmatch E base_name pattern = true).

(** The matcher as a test: the path passes. *)
Definition passes_b (E : Env) (root_dir : string) (include_patterns ignore_patterns : list string)
           (path : string) : bool :=
  match should_process E path root_dir include_patterns ignore_patterns with
  | Ok true => true
  | _ => false
  end.

(** The directories a traversal visits, in order, each with the names of the
    child directories that pass the matcher and the names of its files:
    a child directory is entered only when it passes. *)
Fixpoint visited (E : Env) (root_dir : string) (include_patterns ignore_patterns : list string)
         (dirpath : string) (top : node) {struct top} : list (string * list string * list string) :=
  match top with
  | Dir _ entries =>
      let dirnames :=
        filter (fun d => passes_b E root_dir include_patterns ignore_patterns
                                  (PosixPath.join2 dirpath d))
               (dirs_of entries) in
      (dirpath, dirnames, nondirs_of entries)
        :: flat_map (fun e =>
                       if existsb (String.eqb (node_name e)) dirnames
                       then visited E root_dir include_patterns ignore_patterns
                                    (PosixPath.join2 dirpath (node_name e)) e
                       else []) entries
  | _ => []
  end.

(** The visits of a whole run. *)
Definition visits (E : Env) (root_dir : string) (include_patterns ignore_patterns : list string)
  : list (string * list string * list string) :=
  match scandir_tree E root_dir with
  | Some entries =>
      visited E root_dir include_patterns ignore_patterns root_dir (Dir root_dir entries)
  | None => []
  end.

(** The directories the loop body runs for. *)
Definition visited_dirs (E : Env) (root_dir : string) (include_patterns ignore_patterns : list string)
  : list string :=
  map (fun t => fst (fst t)) (visits E root_dir include_patterns ignore_patterns).

(** "A readable file that passes the matcher and has the source suffix." *)
Definition is_source_file (E : Env) (root_dir : string) (include_patterns ignore_patterns : list string)
           (dirpath filename : string) : bool :=
  passes_b E root_dir include_patterns ignore_patterns (PosixPath.join2 dirpath filename)
  && Str.endswith filename ".py"
  && match read_text E (PosixPath.join2 dirpath filename) with
     | Ok _ => true
     | Err _ => false
     end.

(** "The readable source files under the root, within directories that are
    not pruned": those of the directory itself, then those of each child
    directory that passes the matcher. *)
Fixpoint source_files (E : Env) (root_dir : string) (include_patterns ignore_patterns : list string)
         (dirpath : string) (top : node) {struct top} : list string :=
  match top with
  | Dir _ entries =>
      (map (PosixPath.join2 dirpath)
           (filter (is_source_file E root_dir include_patterns ignore_patterns dirpath)
                   (nondirs_of entries))
       ++ flat_map (fun e =>
                      if is_dir e
                         && passes_b E root_dir include_patterns ignore_patterns
                                     (PosixPath.join2 dirpath (node_name e))
                      then source_files E root_dir include_patterns ignore_patterns
                                        (PosixPath.join2 dirpath (node_name e)) e
                      else []) entries)%list
  | _ => []
  end.

Definition source_files_under (E : Env) (root_dir : string)
           (include_patterns ignore_patterns : list string) : list string :=
  match scandir_tree E root_dir with
  | Some entries =>
      source_files E root_dir include_patterns ignore_patterns root_dir (Dir root_dir entries)
  | None => []
  end.

(** The description a record gets: the one the service returns, or the
    fallback. *)
Definition description_of (E : Env) (file_content key : string) (partial_prompt : option string) : string :=
  match fetch_description E (description_request file_content key partial_prompt) with
  | Ok (description, _) => description
  | Err _ => fallback_description
  end.

(** The record of one file, when it gets one. *)
Definition file_records (E : Env) (root_dir : string) (include_patterns ignore_patterns : list string)
           (api_key partial_prompt : option string) (dirpath filename : string) : list json :=
  let filepath := PosixPath.join2 dirpath filename in
  if passes_b E root_dir include_patterns ignore_patterns filepath
     && Str.endswith filename ".py"
  then match read_text E filepath with
       | Ok file_content =>
           match api_key with
           | Some key =>
               if Str.truthy key
               then [file_entry_with_description
                       filename filepath
                       (description_of E file_content key partial_prompt) file_content]
               else [file_entry_plain filename filepath file_content]
           | None => [file_entry_plain filename filepath file_content]
           end
       | Err _ => []
       end
  else [].

(** The list comprehension over a test that does not touch the state. *)
Fixpoint filter_pure (A : Type) (test : A -> result bool) (l : list A) : result (list A) :=
  match l with
  | [] => Ok []
  | x :: l' =>
      let? b := test x in
      let? kept := filter_pure test l' in
      Ok (if b then x :: kept else kept)
  end.

(** The records of all visits, in order. *)
Definition all_file_records (E : Env) (root_dir : string) (include_patterns ignore_patterns : list string)
           (api_key partial_prompt : option string) : list json :=
  flat_map (fun t => flat_map (file_records E root_dir include_patterns ignore_patterns
                                            api_key partial_prompt (fst (fst t))) (snd t))
           (visits E root_dir include_patterns ignore_patterns).

(** A child the tree report lists: it passes the matcher and its status
    and owner can be looked up. *)
Definition listed (E : Env) (root_dir : string) (include_patterns ignore_patterns : list string)
           (dirpath name : string) : bool :=
  passes_b E root_dir include_patterns ignore_patterns (PosixPath.join2 dirpath name)
  && match stat_entry E (PosixPath.join2 dirpath name) with
     | Ok _ => true
     | Err _ => false
     end.

(** The line of a listed child. *)
Definition entry_line (E : Env) (dirpath name : string) : string :=
  match stat_entry E (PosixPath.join2 dirpath name) with
  | Ok (permissions, owner) => permissions ++ " " ++ owner ++ " " ++ name ++ nl
  | Err _ => EmptyString
  end.

Definition entry_record (E : Env) (dirpath name : string) : json :=
  match stat_entry E (PosixPath.join2 dirpath name) with
  | Ok (permissions, owner) => entry_info E (PosixPath.join2 dirpath name) name permissions owner
  | Err _ => JNull
  end.

(** The section of a directory whose children are listed in the order
    [names]: the header with the path, then one line per listed child. *)
Definition section_text (E : Env) (root_dir : string) (include_patterns ignore_patterns : list string)
           (dirpath : string) (names : list string) : string :=
  directory_header dirpath
  ++ Str.cat (map (entry_line E dirpath)
                  (filter (listed E root_dir include_patterns ignore_patterns dirpath) names)).

Definition directory_record (E : Env) (root_dir : string) (include_patterns ignore_patterns : list string)
           (dirpath : string) (names : list string) : json :=
  JObj [("directory", JStr dirpath);
        ("contents",
         JArr (map (entry_record E dirpath)
                   (filter (listed E root_dir include_patterns ignore_patterns dirpath) names)))].

(** The text of the tree report when the children of each directory come
    in the order [order] gives: the section of the directory, then the text
    for each child directory that passes the matcher. *)
Fixpoint tree_text_with (order : list node -> list string)
         (E : Env) (root_dir : string) (include_patterns ignore_patterns : list string)
         (dirpath : string) (top : node) {struct top} : string :=
  match top with
  | Dir _ entries =>
      section_text E root_dir include_patterns ignore_patterns dirpath (order entries)
      ++ Str.cat (map (fun e =>
                         if is_dir e
                            && passes_b E root_dir include_patterns ignore_patterns
                                        (PosixPath.join2 dirpath (node_name e))
                         then tree_text_with order E root_dir include_patterns ignore_patterns
                                             (PosixPath.join2 dirpath (node_name e)) e
                         else EmptyString) entries)
  | _ => EmptyString
  end.

(** "Directories and files interleaved in the order the underlying
    filesystem enumeration yields them." *)
Definition enumeration_order (entries : list node) : list string := map node_name entries.

(** The child directories first, then the files, each group in the order of
    the enumeration. *)
Definition directories_first (entries : list node) : list string :=
  (dirs_of entries ++ nondirs_of entries)%list.

Definition tree_text_under (order : list node -> list string)
           (E : Env) (root_dir : string) (include_patterns ignore_patterns : list string) : string :=
  match scandir_tree E root_dir with
  | Some entries =>
      tree_text_with order E root_dir include_patterns ignore_patterns root_dir
                     (Dir root_dir entries)
  | None => EmptyString
  end.

(** The records of the tree report, one per visit. *)
Definition all_directory_records (E : Env) (root_dir : string)
           (include_patterns ignore_patterns : list string) : list json :=
  map (fun t => directory_record E root_dir include_patterns ignore_patterns
                                 (fst (fst t)) (snd (fst t) ++ snd t)%list)
      (visits E root_dir include_patterns ignore_patterns).

(** The fields of a record of the content report. *)
Definition expected_keys (api_key : option string) : list string :=
  if Py.truthy api_key
  then ["filename"; "filepath"; "description"; "content"]
  else ["filename"; "filepath"; "content"].

(** The field of a record, when it is a string. *)
Definition field (key : string) (record : json) : option string :=
  match record with
  | JObj fields =>
      match Py.assoc key fields with
      | Some (JStr s) => Some s
      | _ => None
      end
  | _ => None
  end.

Definition keys (record : json) : list string :=
  match record with
  | JObj fields => map fst fields
  | _ => []
  end.

(** The block of the transcript that goes with a record. *)
Definition file_block (record : json) : string :=
  match field "filename" record, field "filepath" record, field "content" record with
  | Some filename, Some filepath, Some file_content =>
      match field "description" record with
      | Some description =>
          ("'" ++ filename ++ "'" ++ nl ++ "**Description:** " ++ description ++ nl
           ++ "``` File path = " ++ filepath ++ nl ++ nl)
          ++ file_content ++ (nl ++ "```" ++ nl ++ nl)
      | None =>
          ("'" ++ filename ++ "'" ++ nl ++ "``` File path = " ++ filepath ++ nl ++ nl)
          ++ file_content ++ (nl ++ "```" ++ nl ++ nl)
      end
  | _, _, _ => EmptyString
  end.

(** The records of the JSON document of a report, none when there is no
    document. *)
Definition records (r : report) : list json :=
  match rep_json r with
  | Some (JArr items) => items
  | _ => []
  end.

(** A name a directory enumeration can yield: not empty, without a
    separator. *)
Fixpoint has_sep (s : string) : bool :=
  match s with
  | EmptyString => false
  | String c s' => Ascii.eqb c PosixPath.sep || has_sep s'
  end.

Definition valid_name (name : string) : bool := Str.truthy name && negb (has_sep name).

(** What follows a name in a joined path: nothing, or a separator. *)
Definition starts_with_sep_or_empty (x : string) : Prop :=
  x = EmptyString \/ exists x', x = String "/" x'.

(** Every entry below [top] has such a name. *)
Fixpoint valid_names (top : node) : bool :=
  match top with
  | Dir _ children => forallb (fun c => valid_name (node_name c) && valid_names c) children
  | _ => true
  end.

Definition valid (names : list string) : Prop :=
  Forall (fun n => valid_name n = true) names.

(** Every directory named on the way from [dirpath] passes the matcher. *)
Definition all_pass (E : Env) (root_dir : string) (include_patterns ignore_patterns : list string)
           (dirpath : string) (ns : list string) : Prop :=
  forall pre suf, ns = (pre ++ suf)%list -> pre <> [] ->
                  should_process E (PosixPath.join dirpath pre) root_dir
                                 include_patterns ignore_patterns = Ok true.

(** The directories below [top], each with its path; [top] is at [dirpath]. *)
Fixpoint subdirs (dirpath : string) (top : node) {struct top} : list (string * node) :=
  match top with
  | Dir _ children =>
      flat_map (fun c =>
                  if is_dir c
                  then (PosixPath.join2 dirpath (node_name c), c)
                         :: subdirs (PosixPath.join2 dirpath (node_name c)) c
                  else []) children
  | _ => []
  end.

(** The paths of the descendants of [top], which is at [dirpath]. *)
Fixpoint paths_below (dirpath : string) (top : node) {struct top} : list string :=
  match top with
  | Dir _ children =>
      flat_map (fun c =>
                  PosixPath.join2 dirpath (node_name c)
                    :: paths_below (PosixPath.join2 dirpath (node_name c)) c) children
  | _ => []
  end.

(** "Explicit [-api] flag > environment variable, checked in a fixed
    preference order": the first candidate that holds a key. *)
Fixpoint first_key (candidates : list (option string)) : option string :=
  match candidates with
  | [] => None
  | Some k :: rest => if Str.truthy k then Some k else first_key rest
  | None :: rest => first_key rest
  end.

Definition key_by_precedence (E : Env) (a : args) : option string :=
  first_key [arg_api a; getenv E "OPENAI_API_KEY"; getenv E "API_KEY"; getenv E "api_key"].

(** "Blank lines and [#]-prefixed comment lines skipped": what a line of the
    ignore file contributes, once the white space around it is removed. *)
Definition is_pattern_line (line : string) : bool :=
  Str.truthy (Str.strip line) && negb (Str.startswith (Str.strip line) "#").

Definition has_level (lvl : level) (r : log_record) : bool :=
  match fst r, lvl with
  | DEBUG, DEBUG | INFO, INFO | ERROR, ERROR | CRITICAL, CRITICAL => true
  | _, _ => false
  end.

(** The paths that appear in the JSON document of the content report. *)
Definition content_paths (r : report) : list string :=
  flat_map (fun record => match field "filepath" record with
                          | Some p => [p]
                          | None => []
                          end) (records r).

(** The paths a record of the tree report stands for: its directory, and
    each listed child of that directory. *)
Definition tree_record_paths (record : json) : list string :=
  match record with
  | JObj fields =>
      match Py.assoc "directory" fields, Py.assoc "contents" fields with
      | Some (JStr dirpath), Some (JArr items) =>
          dirpath :: flat_map (fun item => match field "name" item with
                                           | Some name => [PosixPath.join2 dirpath name]
                                           | None => []
                                           end) items
      | _, _ => []
      end
  | _ => []
  end.

(** The paths that appear in the JSON document of the tree report. *)
Definition tree_paths (r : report) : list string :=
  flat_map tree_record_paths (records r).

(** ** What the code shows beyond the specification *)

(** The exceptions the [except] clauses of [get_file_description] name. *)
Definition handled_by_description (e : exn) : bool :=
  match exn_kind_of e with
  | HTTPError | ConnectionError | ConnectTimeout | Timeout | RequestException | KeyError => true
  | _ => false
  end.

Definition usage_keys : list string :=
  ["prompt_tokens"; "completion_tokens"; "total_tokens"].

(** [data['choices'][0]['message']['content'].strip()] *)
Definition extract_description (data : json) : result string :=
  let? choices := Py.getitem data "choices" in
  let? choice := Py.getindex choices 0 in
  let? message := Py.getitem choice "message" in
  let? content := Py.getitem message "content" in
  Py.strip content.

(** [usage.get(key, 0)] for a [usage] that is a dict. *)
Definition usage_count (usage_fields : list (string * json)) (key : string) : json :=
  match Py.assoc key usage_fields with
  | Some v => v
  | None => JInt 0
  end.

(** The exception that ends a loop: the first one an item gives. *)
Fixpoint first_failure (A : Type) (failure : A -> option exn) (l : list A) : option exn :=
  match l with
  | [] => None
  | x :: l' =>
      match failure x with
      | Some e => Some e
      | None => first_failure failure l'
      end
  end.

(** The exception that leaves the body of [for filename in filenames], if
    any: one of [should_process], one of reading the file that is no
    [OSError], or one of the description request that no [except] clause
    of [get_file_description] names. *)
Definition file_failure (E : Env) (root_dir : string) (include_patterns ignore_patterns : list string)
           (api_key partial_prompt : option string) (dirpath filename : string) : option exn :=
  let filepath := PosixPath.join2 dirpath filename in
  match should_process E filepath root_dir include_patterns ignore_patterns with
  | Err e => Some e
  | Ok false => None
  | Ok true =>
      if Str.endswith filename ".py" then
        match read_text E filepath with
        | Err e => if Py.is_OSError e then None else Some e
        | Ok file_content =>
            match api_key with
            | Some key =>
                if Str.truthy key then
                  match fetch_description E (description_request file_content key partial_prompt) with
                  | Err e => if handled_by_description e then None else Some e
                  | Ok _ => None
                  end
                else None
            | None => None
            end
        end
      else None
  end.

(** The exception that leaves the body of [for name in dirnames + filenames],
    if any. *)
Definition entry_failure (E : Env) (root_dir : string) (include_patterns ignore_patterns : list string)
           (dirpath name : string) : option exn :=
  let full_path := PosixPath.join2 dirpath name in
  match should_process E full_path root_dir include_patterns ignore_patterns with
  | Err e => Some e
  | Ok false => None
  | Ok true =>
      match stat_entry E full_path with
      | Ok _ => None
      | Err e =>
          match exn_kind_of e with
          | FileNotFoundError | PermissionError => None
          | _ => Some e
          end
      end
  end.

(** The files the content loop comes to, each with its directory, and the
    entries the tree loop comes to, in the order of the run. *)
Definition candidate_files (E : Env) (root_dir : string) (include_patterns ignore_patterns : list string)
  : list (string * string) :=
  flat_map (fun t => map (pair (fst (fst t))) (snd t))
           (visits E root_dir include_patterns ignore_patterns).

Definition candidate_entries (E : Env) (root_dir : string) (include_patterns ignore_patterns : list string)
  : list (string * string) :=
  flat_map (fun t => map (pair (fst (fst t))) (snd (fst t) ++ snd t)%list)
           (visits E root_dir include_patterns ignore_patterns).

(** The line of the tree text that goes with an entry record, and the
    section that goes with a directory record. *)
Definition entry_block (entry : json) : string :=
  match field "permissions" entry, field "owner" entry, field "name" entry with
  | Some permissions, Some owner, Some name => permissions ++ " " ++ owner ++ " " ++ name ++ nl
  | _, _, _ => EmptyString
  end.

Definition directory_block (record : json) : string :=
  match record with
  | JObj fields =>
      match Py.assoc "directory" fields, Py.assoc "contents" fields with
      | Some (JStr dirpath), Some (JArr entries) =>
          directory_header dirpath ++ Str.cat (map entry_block entries)
      | _, _ => EmptyString
      end
  | _ => EmptyString
  end.

(** The entries of a directory record. *)
Definition contents_of (record : json) : list json :=
  match record with
  | JObj fields =>
      match Py.assoc "contents" fields with
      | Some (JArr entries) => entries
      | _ => []
      end
  | _ => []
  end.

(** The list an option of the command line holds, empty when the option was
    not given. *)
Definition given (x : option (list string)) : list string :=
  match x with
  | Some l => l
  | None => []
  end.

(** The patterns the ignore file contributes: none when no file is named. *)
Definition patterns_of_ignore_file (E : Env) (a : args) : list string :=
  match arg_ignore_file a with
  | Some path =>
      if Str.truthy path then
        match read_plain E path with
        | Ok text => map Str.strip (filter is_pattern_line (readlines text))
        | Err _ => []
        end
      else []
  | None => []
  end.

(** The names the default ignore patterns stand for: hidden entries, names
    between two pairs of underscores, and three directory names. *)
Definition ignored_by_default (name : string) : Prop :=
  (exists rest, name = "." ++ rest)
  \/ (exists middle, name = "__" ++ middle ++ "__")
  \/ name = "venv" \/ name = "env" \/ name = "__pycache__".

(** A computation that logs nothing at level CRITICAL. *)
Definition quiet (A : Type) (c : M A) : Prop :=
  forall s, exists l,
      log (snd (c s)) = (log s ++ l)%list /\ existsb (has_level CRITICAL) l = false.

(** ** A small machine to run the program on

    The directory ["proj"] below the working directory ["/home/user"] holds
    the given entries; every file reads as ["x=1"], every entry belongs to
    user 1000, named ["user"], and output files can be written. *)

Definition demo_env (entries : list node) (post : request -> result response)
           (vars : string -> option string) : Env :=
  {| fnmatch := Fnmatch.fnmatch;
     getcwd := "/home/user";
     scandir_tree := fun top => if String.eqb top "proj" then Some entries else None;
     read_text := fun _ => Ok "x=1";
     read_plain := fun p =>
       if String.eqb p ".myignore" then Ok ("tmp" ++ nl ++ "# comment" ++ nl ++ "logs" ++ nl)
       else Err (Exn FileNotFoundError ("[Errno 2] No such file or directory: '" ++ p ++ "'"));
     open_write := fun _ => Ok tt;
     os_stat := fun _ => Ok {| st_mode := 33188; st_uid := 1000 |};
     filemode := fun _ => "-rw-r--r--";
     getpwuid := fun _ => Ok "user";
     isdir := fun p => String.eqb p "proj/b" || String.eqb p "proj/.hidden"
                       || String.eqb p "proj/venv";
     requests_post := post;
     getenv := vars;
     now_python := "20240101_120000";
     now_tree := "20240101_120001";
     format_value := fun _ => "?" |}.

(** The same machine, where reading the file at [path] as UTF-8 text fails. *)
Definition undecodable (E : Env) (path : string) : Env :=
  {| fnmatch := fnmatch E; getcwd := getcwd E; scandir_tree := scandir_tree E;
     read_text := fun p =>
       if String.eqb p path
       then Err (Exn UnicodeDecodeError "'utf-8' codec can't decode byte 0xff in position 0: invalid start byte")
       else read_text E p;
     read_plain := read_plain E; open_write := open_write E; os_stat := os_stat E;
     filemode := filemode E; getpwuid := getpwuid E; isdir := isdir E;
     requests_post := requests_post E; getenv := getenv E;
     now_python := now_python E; now_tree := now_tree E; format_value := format_value E |}.

(** The same machine, where no user id has an entry in the password database. *)
Definition unknown_owners (E : Env) : Env :=
  {| fnmatch := fnmatch E; getcwd := getcwd E; scandir_tree := scandir_tree E;
     read_text := read_text E; read_plain := read_plain E; open_write := open_write E;
     os_stat := os_stat E; filemode := filemode E;
     getpwuid := fun uid => Err (Exn KeyError ("'getpwuid(): uid not found: " ++ Py.str_of_nat uid ++ "'"));
     isdir := isdir E;
     requests_post := requests_post E; getenv := getenv E;
     now_python := now_python E; now_tree := now_tree E; format_value := format_value E |}.

(** The same machine, where the files whose names start with [prefix]
    cannot be opened for writing. *)
Definition unwritable (E : Env) (prefix : string) : Env :=
  {| fnmatch := fnmatch E; getcwd := getcwd E; scandir_tree := scandir_tree E;
     read_text := read_text E; read_plain := read_plain E;
     open_write := fun p =>
       if Str.startswith p prefix
       then Err (Exn PermissionError ("[Errno 13] Permission denied: '" ++ p ++ "'"))
       else open_write E p;
     os_stat := os_stat E; filemode := filemode E; getpwuid := getpwuid E; isdir := isdir E;
     requests_post := requests_post E; getenv := getenv E;
     now_python := now_python E; now_tree := now_tree E; format_value := format_value E |}.

Definition no_network : request -> result response :=
  fun _ => Err (Exn ConnectionError "Network is unreachable").

Definition no_vars : string -> option string := fun _ => None.

(** A service that answers 200 with the given body. *)
Definition answering (body : json) : request -> result response :=
  fun _ => Ok {| status_code := 200; reason := "OK"; response_json := Ok body |}.

(** A service that answers with the given status and body. *)
Definition answering_status (code : nat) (why : string) (body : json) : request -> result response :=
  fun _ => Ok {| status_code := code; reason := why; response_json := Ok body |}.

(** A well-formed answer without token usage. *)
Definition described_as (text : string) : json :=
  JObj [("choices", JArr [JObj [("message", JObj [("content", JStr text)])]])].

(** The command line [proj -p -t]. *)
Definition args_both : args :=
  {| arg_root_dir := "proj"; arg_python := true; arg_tree := true;
     arg_description := false; arg_api := None; arg_d := None;
     arg_ignore_dirs := None; arg_ignore_files := None; arg_ignore_patterns := None;
     arg_ignore_file := None;
     arg_include_dirs := None; arg_include_files := None; arg_include_patterns := None |}.

(** The command line [proj -p -api KEY], without [-description]. *)
Definition args_api_only (key : string) : args :=
  {| arg_root_dir := "proj"; arg_python := true; arg_tree := false;
     arg_description := false; arg_api := Some key; arg_d := None;
     arg_ignore_dirs := None; arg_ignore_files := None; arg_ignore_patterns := None;
     arg_ignore_file := None;
     arg_include_dirs := None; arg_include_files := None; arg_include_patterns := None |}.

Definition default_args : args :=
  {| arg_root_dir := "proj"; arg_python := false; arg_tree := false;
     arg_description := false; arg_api := None; arg_d := None;
     arg_ignore_dirs := None; arg_ignore_files := None; arg_ignore_patterns := None;
     arg_ignore_file := None;
     arg_include_dirs := None; arg_include_files := None; arg_include_patterns := None |}.

(** The command line [proj --ignore-file FILE], with or without [-p]. *)
Definition args_ignore_file (with_python : bool) (file : string) : args :=
  {| arg_root_dir := "proj"; arg_python := with_python; arg_tree := false;
     arg_description := false; arg_api := None; arg_d := None;
     arg_ignore_dirs := None; arg_ignore_files := None; arg_ignore_patterns := None;
     arg_ignore_file := Some file;
     arg_include_dirs := None; arg_include_files := None; arg_include_patterns := None |}.

(** The command line [proj -p -description], with or without [-api KEY]. *)
Definition args_description (key : option string) : args :=
  {| arg_root_dir := "proj"; arg_python := true; arg_tree := false;
     arg_description := true; arg_api := key; arg_d := None;
     arg_ignore_dirs := None; arg_ignore_files := None; arg_ignore_patterns := None;
     arg_ignore_file := None;
     arg_include_dirs := None; arg_include_files := None; arg_include_patterns := None |}.

(** An environment with [API_KEY] and [api_key] set, the first one empty. *)
Definition some_vars : string -> option string :=
  fun name => if String.eqb name "API_KEY" then Some EmptyString
              else if String.eqb name "api_key" then Some "sk-lower"
              else None.

(** A project with a source file, a hidden directory, a package and a
    virtual environment. *)
Definition demo_tree : list node :=
  [File "a.py";
   Dir ".hidden" [File "b.py"];
   Dir "b" [File "c.py"; File "d.txt"];
   Dir "venv" [File "lib.py"]].

(** A response whose [choices] list is empty. *)
Definition empty_choices : json := JObj [("choices", JArr [])].

(** * Properties *)

(** ** The glob matcher *)

Lemma scan_close_shorter (s stuff rest : string) :
  Fnmatch.scan_close s = Some (stuff, rest) -> String.length rest < String.length s.
Proof.
  revert stuff. induction s as [|c s IH]; intros stuff H; simpl in H.
  - discriminate H.
  - destruct (Ascii.eqb c "]").
    + injection H as _ <-. simpl. lia.
    + destruct (Fnmatch.scan_close s) as [[stuff' rest']|]; [|discriminate H].
      injection H as _ <-. specialize (IH _ eq_refl). simpl. lia.
Qed.

Lemma skip_shorter (c : ascii) (s : string) :
  String.length (snd (Fnmatch.skip c s)) <= String.length s.
Proof.
  destruct s as [|a t]; simpl; [lia|].
  destruct (Ascii.eqb a c); simpl; lia.
Qed.

Lemma bracket_shorter (s stuff rest : string) :
  Fnmatch.bracket s = Some (stuff, rest) -> String.length rest < String.length s.
Proof.
  unfold Fnmatch.bracket. intros H.
  pose proof (skip_shorter "!" s) as H1.
  destruct (Fnmatch.skip "!" s) as [bang s1]. simpl in H1.
  pose proof (skip_shorter "]" s1) as H2.
  destruct (Fnmatch.skip "]" s1) as [close s2]. simpl in H2.
  destruct (Fnmatch.scan_close s2) as [[body rest0]|] eqn:Hsc; [|discriminate H].
  injection H as _ <-. apply scan_close_shorter in Hsc. lia.
Qed.

(** The fuel of [translate], the length of the pattern, is enough: more
    fuel gives the same pieces. *)
Lemma pieces_fuel (f1 : nat) :
  forall f2 pat last_star,
    String.length pat <= f1 -> String.length pat <= f2 ->
    Fnmatch.pieces f1 pat last_star = Fnmatch.pieces f2 pat last_star.
Proof.
  induction f1 as [|f1 IH]; intros f2 pat last_star H1 H2.
  - destruct pat; [|simpl in H1; lia]. now destruct f2.
  - destruct f2 as [|f2].
    + destruct pat; [reflexivity|simpl in H2; lia].
    + destruct pat as [|c rest]; [reflexivity|]. simpl in H1, H2.
      assert (Hrest : forall b, Fnmatch.pieces f1 rest b = Fnmatch.pieces f2 rest b)
        by (intros b; apply IH; lia).
      cbn [Fnmatch.pieces]. rewrite !Hrest.
      destruct (Fnmatch.bracket rest) as [[stuff rest']|] eqn:Hb; [|reflexivity].
      apply bracket_shorter in Hb.
      now rewrite (IH f2 rest' false) by lia.
Qed.

Lemma find_from_bound (c : ascii) (s : string) :
  forall off k, Fnmatch.find_from c s off = Some k -> k < String.length s.
Proof.
  induction s as [|a s IH]; intros off k H; simpl in H.
  - discriminate H.
  - destruct off as [|off].
    + destruct (Ascii.eqb a c); [injection H as <-; simpl; lia|].
      destruct (Fnmatch.find_from c s 0) as [k'|] eqn:Hk; [|discriminate H].
      injection H as <-. apply IH in Hk. simpl. lia.
    + destruct (Fnmatch.find_from c s off) as [k'|] eqn:Hk; [|discriminate H].
      injection H as <-. apply IH in Hk. simpl. lia.
Qed.

Lemma length_drop (i : nat) :
  forall s, String.length (Str.drop i s) = String.length s - i.
Proof.
  induction i as [|i IH]; intros s; simpl.
  - lia.
  - destruct s as [|a s]; simpl; [reflexivity|apply IH].
Qed.

(** So is the fuel of the loop that cuts a character class at its hyphens. *)
Lemma chunks_loop_fuel (f1 : nat) :
  forall f2 s off,
    String.length s <= f1 -> String.length s <= f2 ->
    Fnmatch.chunks_loop f1 s off = Fnmatch.chunks_loop f2 s off.
Proof.
  induction f1 as [|f1 IH]; intros f2 s off H1 H2.
  - destruct s; [|simpl in H1; lia]. now destruct f2.
  - destruct f2 as [|f2].
    + destruct s; [reflexivity|simpl in H2; lia].
    + cbn [Fnmatch.chunks_loop].
      destruct (Fnmatch.find_from "-" s off) as [k|] eqn:Hk; [|reflexivity].
      apply find_from_bound in Hk. f_equal.
      apply IH; rewrite length_drop; lia.
Qed.

(** ** The pattern matcher *)

Lemma existsb_pattern_hits E rel_path base_name patterns :
  existsb (pattern_hits E rel_path base_name) patterns = true <->
  glob_matches_any E rel_path base_name patterns.
Proof.
  unfold glob_matches_any, pattern_hits. rewrite existsb_exists.
  split; intros [p [Hin Hp]]; exists p; split; auto.
  - now apply orb_true_iff.
  - now apply orb_true_iff in Hp.
Qed.

Lemma existsb_Permutation (A : Type) (f : A -> bool) (l l' : list A) :
  Permutation l l' -> existsb f l = existsb f l'.
Proof.
  induction 1; simpl.
  - reflexivity.
  - now rewrite IHPermutation.
  - now destruct (f x), (f y).
  - congruence.
Qed.

Lemma commonprefix_refl (l : list string) : PosixPath.commonprefix l l = l.
Proof.
  induction l as [|c l IH]; simpl.
  - reflexivity.
  - now rewrite String.eqb_refl, IH.
Qed.

(** Two paths with the same absolute form are "." relative to each other. *)
Lemma relpath_same_abspath (cwd path start : string) :
  path <> EmptyString ->
  PosixPath.abspath cwd path = PosixPath.abspath cwd start ->
  PosixPath.relpath cwd path start = Ok ".".
Proof.
  intros Hne Heq. unfold PosixPath.relpath, Str.truthy.
  destruct (String.eqb_spec path EmptyString) as [->|_]; [now elim Hne|]. simpl.
  rewrite Heq, commonprefix_refl, Nat.sub_diag, skipn_all. reflexivity.
Qed.

Lemma relpath_empty (cwd start : string) :
  exists e, PosixPath.relpath cwd EmptyString start = Err e.
Proof. eexists. reflexivity. Qed.

Lemma should_process_root E root_dir inc ign :
  root_dir <> EmptyString -> should_process E root_dir root_dir inc ign = Ok true.
Proof.
  intros Hne. unfold should_process.
  now rewrite (@relpath_same_abspath (getcwd E) _ _ Hne eq_refl).
Qed.

(** C1: a path other than the scan root that glob-matches an ignore pattern,
    by its path relative to the root or by its base name, is rejected,
    whatever the include patterns are (so also when it matches one). *)
Theorem should_process_ignore_wins :
  forall E path root_dir include_patterns ignore_patterns rel_path,
    PosixPath.relpath (getcwd E) path root_dir = Ok rel_path ->
    rel_path <> "." ->
    glob_matches_any E rel_path (PosixPath.basename path) ignore_patterns ->
    should_process E path root_dir include_patterns ignore_patterns = Ok false.
Proof.
  intros E path root_dir inc ign rel Hrel Hroot Hign.
  unfold should_process. rewrite Hrel.
  destruct (String.eqb_spec rel ".") as [Heq|_]; [contradiction|].
  apply existsb_pattern_hits in Hign. rewrite Hign.
  now destruct (_ && _).
Qed.

Lemma should_process_ignore_wins_witness :
  glob_matches_any (demo_env [] no_network no_vars) ".git" "proj/.git" ["*"]
  /\ should_process (demo_env [] no_network no_vars) "proj/.git" "proj" ["*"] [".*"] = Ok false.
Proof.
  split.
  - exists "*". split; [left; reflexivity | left; reflexivity].
  - apply (@should_process_ignore_wins (demo_env [] no_network no_vars)
             "proj/.git" "proj" ["*"] [".*"] ".git").
    + reflexivity.
    + discriminate.
    + exists ".*". split; [left; reflexivity | left; reflexivity].
Defined.

(** C3: a path that denotes the scan root (the same string, or any string
    with the same absolute form, so that the relative path is ".") passes
    for every include list and every ignore list; in particular with no
    include pattern and an ignore list containing the universal pattern. *)
Theorem should_process_root_always :
  forall E path root_dir,
    path <> EmptyString ->
    PosixPath.abspath (getcwd E) path = PosixPath.abspath (getcwd E) root_dir ->
    (forall include_patterns ignore_patterns,
        should_process E path root_dir include_patterns ignore_patterns = Ok true)
    /\ (forall ignore_patterns,
           In "*" ignore_patterns ->
           should_process E path root_dir [] ignore_patterns = Ok true).
Proof.
  intros E path root_dir Hne Habs.
  assert (H : forall inc ign, should_process E path root_dir inc ign = Ok true).
  { intros inc ign. unfold should_process.
    now rewrite (@relpath_same_abspath (getcwd E) _ _ Hne Habs). }
  split; [exact H | intros ign _; apply H].
Qed.

Lemma should_process_root_always_witness :
  Fnmatch.fnmatch "proj" "*" = true
  /\ should_process (demo_env [] no_network no_vars) "proj" "proj" [] ["*"] = Ok true
  /\ should_process (demo_env [] no_network no_vars) "./proj/" "proj" ["*.py"] ["*"] = Ok true.
Proof.
  split; [reflexivity|]. split.
  - apply (@should_process_root_always (demo_env [] no_network no_vars) "proj" "proj");
      [discriminate | reflexivity | left; reflexivity].
  - apply (@should_process_root_always (demo_env [] no_network no_vars) "./proj/" "proj");
      [discriminate | reflexivity].
Defined.

(** C10: permuting the include list and the ignore list does not change the
    answer of [should_process]. *)
Theorem should_process_Permutation :
  forall E path root_dir include_patterns ignore_patterns include' ignore',
    Permutation include_patterns include' ->
    Permutation ignore_patterns ignore' ->
    should_process E path root_dir include_patterns ignore_patterns =
    should_process E path root_dir include' ignore'.
Proof.
  intros E path root inc ign inc' ign' Hinc Hign. unfold should_process.
  destruct (PosixPath.relpath (getcwd E) path root) as [rel|e]; [|reflexivity].
  rewrite (existsb_Permutation _ Hinc), (existsb_Permutation _ Hign).
  replace (match inc with [] => false | _ => true end)
    with (match inc' with [] => false | _ => true end); [reflexivity|].
  destruct inc, inc'; try reflexivity.
  - now apply Permutation_nil_cons in Hinc.
  - symmetry in Hinc. now apply Permutation_nil_cons in Hinc.
Qed.

Lemma should_process_Permutation_witness :
  should_process (demo_env [] no_network no_vars) "proj/src/a.py" "proj" ["*.py"; "src"] ["venv"; "*.pyc"; ".*"]
  = should_process (demo_env [] no_network no_vars) "proj/src/a.py" "proj" ["src"; "*.py"] [".*"; "venv"; "*.pyc"].
Proof.
  apply (@should_process_Permutation (demo_env [] no_network no_vars) "proj/src/a.py" "proj").
  - apply perm_swap.
  - apply Permutation_sym, (Permutation_cons_append ["venv"; "*.pyc"] ".*").
Defined.

(** ** The command surface *)

Lemma determine_api_key_precedence E a :
  arg_description a = true ->
  determine_api_key E a =
  match key_by_precedence E a with
  | Some k =>
      (Ok (Some k),
       [(INFO, if Py.truthy (arg_api a)
               then "Using OpenAI API key provided via '-api' argument."
               else "Using OpenAI API key from environment variables.")])
  | None => (Err sys_exit_1, [(CRITICAL, missing_key_message)])
  end.
Proof.
  intros Hd. unfold determine_api_key, key_by_precedence, env_api_key, py_or, Py.truthy.
  rewrite Hd. simpl.
  destruct (arg_api a) as [k|]; destruct (getenv E "OPENAI_API_KEY") as [k1|];
    destruct (getenv E "API_KEY") as [k2|]; destruct (getenv E "api_key") as [k3|];
    simpl;
    repeat match goal with
           | |- context [Str.truthy ?x] => destruct (Str.truthy x) eqn:?; simpl
           end;
    first [reflexivity | congruence].
Qed.

Lemma main_python_report E a api_key l1 ignore_patterns l3 :
  determine_api_key E a = (Ok api_key, l1) ->
  collect_ignore_patterns E a = (Ok ignore_patterns, l3) ->
  arg_python a = true ->
  python_report (main E a) =
  Some (process_all_python_files E (arg_root_dir a) (collect_include_patterns a)
                                 ignore_patterns api_key (arg_d a)).
Proof.
  intros Hk Hi Hp. unfold main. rewrite Hk, Hi, Hp.
  destruct (process_all_python_files _ _ _ _ _ _) as [t j l [e|]]; reflexivity.
Qed.

(** C7: in description mode the key is the first one found among the [-api]
    flag, [OPENAI_API_KEY], [API_KEY] and [api_key], in this order, and it is
    the key the content report runs with; when none of them holds a key the
    program ends with status 1, having logged one critical record and
    started no report. *)
Theorem api_key_resolution :
  forall E a,
    arg_description a = true ->
    match key_by_precedence E a with
    | Some k =>
        fst (determine_api_key E a) = Ok (Some k)
        /\ (Py.truthy (arg_api a) = true -> arg_api a = Some k)
        /\ (forall ignore_patterns,
               fst (collect_ignore_patterns E a) = Ok ignore_patterns ->
               arg_python a = true ->
               python_report (main E a) =
               Some (process_all_python_files E (arg_root_dir a) (collect_include_patterns a)
                                              ignore_patterns (Some k) (arg_d a)))
    | None =>
        main E a = {| exit_code := 1;
                      run_log := [(CRITICAL, missing_key_message)];
                      python_report := None;
                      tree_report := None |}
    end.
Proof.
  intros E a Hd. pose proof (determine_api_key_precedence E a Hd) as Hk.
  destruct (key_by_precedence E a) as [k|] eqn:Hprec.
  - split; [now rewrite Hk|]. split.
    + intros Hapi. unfold key_by_precedence in Hprec. simpl in Hprec.
      destruct (arg_api a) as [k0|]; [|discriminate]. simpl in Hapi.
      rewrite Hapi in Hprec. exact Hprec.
    + intros ign Hign Hp.
      destruct (collect_ignore_patterns E a) as [r l3] eqn:Hc. simpl in Hign. subst r.
      exact (main_python_report E a Hk Hc Hp).
  - unfold main. now rewrite Hk.
Qed.

Lemma api_key_resolution_witness :
  (fst (determine_api_key (demo_env [] no_network some_vars) (args_description (Some "sk-flag")))
   = Ok (Some "sk-flag"))
  /\ (fst (determine_api_key (demo_env [] no_network some_vars) (args_description None))
      = Ok (Some "sk-lower"))
  /\ (main (demo_env [] no_network no_vars) (args_description None)
      = {| exit_code := 1;
           run_log := [(CRITICAL, missing_key_message)];
           python_report := None;
           tree_report := None |}).
Proof.
  split; [|split].
  - exact (proj1 (api_key_resolution (demo_env [] no_network some_vars)
                                     (args_description (Some "sk-flag")) eq_refl)).
  - exact (proj1 (api_key_resolution (demo_env [] no_network some_vars)
                                     (args_description None) eq_refl)).
  - exact (api_key_resolution (demo_env [] no_network no_vars)
                              (args_description None) eq_refl).
Defined.

(** What the loop over the ignore file adds: the stripped text of every line
    that is neither blank nor a comment, in the order of the file. *)
Lemma add_ignore_lines_spec (lines ignore_patterns : list string) :
  add_ignore_lines ignore_patterns lines =
  (ignore_patterns ++ map Str.strip (filter is_pattern_line lines))%list.
Proof.
  revert ignore_patterns.
  induction lines as [|line rest IH]; intros pats; simpl.
  - now rewrite app_nil_r.
  - unfold is_pattern_line at 1.
    destruct (Str.truthy (Str.strip line) && negb (Str.startswith (Str.strip line) "#")).
    + rewrite IH. simpl. now rewrite <- app_assoc.
    + apply IH.
Qed.

Lemma ignore_file_patterns E a path text :
  arg_ignore_file a = Some path ->
  Str.truthy path = true ->
  read_plain E path = Ok text ->
  exists before,
    collect_ignore_patterns E a =
    (Ok (before ++ map Str.strip (filter is_pattern_line (readlines text)))%list, []).
Proof.
  intros Hf Ht Hr. unfold collect_ignore_patterns. rewrite Hf, Ht, Hr.
  rewrite add_ignore_lines_spec. eexists. reflexivity.
Qed.

Example ignore_file_scenario :
  fst (collect_ignore_patterns (demo_env [] no_network no_vars)
                               (args_ignore_file false ".myignore"))
  = Ok (default_ignore_patterns ++ ["tmp"; "logs"])%list.
Proof. reflexivity. Qed.

(** Whatever the ignore file and the reason it cannot be read, the program
    ends with status 1 before any report, and the record of the failure is at
    level ERROR. *)
Lemma unreadable_ignore_file_exits E a path e api_key l1 :
  determine_api_key E a = (Ok api_key, l1) ->
  arg_ignore_file a = Some path ->
  Str.truthy path = true ->
  read_plain E path = Err e ->
  exit_code (main E a) = 1
  /\ python_report (main E a) = None
  /\ tree_report (main E a) = None
  /\ (exists before,
         run_log (main E a)
         = (before ++ [(ERROR, ("Failed to read ignore file " ++ path ++ ": " ++ exn_text e)%string)])%list)
  /\ existsb (has_level CRITICAL) (run_log (main E a)) = false.
Proof.
  intros Hk Hf Ht Hr. unfold main. rewrite Hk.
  unfold collect_ignore_patterns. rewrite Hf, Ht, Hr. cbn [exit_code python_report tree_report run_log].
  repeat split.
  - rewrite app_assoc. eexists. reflexivity.
  - unfold determine_api_key in Hk.
    destruct (arg_description a).
    + destruct (Py.truthy (arg_api a)); [injection Hk as _ <-; reflexivity|].
      destruct (Py.truthy (env_api_key E)); [injection Hk as _ <-; reflexivity|discriminate Hk].
    + injection Hk as _ <-. reflexivity.
Qed.

(** C8, at an ignore file that cannot be read: the program ends with status
    1 and starts no report, but the record it logs for the failure has level
    ERROR, and nothing is logged at level CRITICAL. *)
Theorem unreadable_ignore_file_logged_as_error :
  let r := main (demo_env [] no_network no_vars) (args_ignore_file true "missing.txt") in
  exit_code r = 1
  /\ python_report r = None
  /\ run_log r =
     [(INFO, "Root directory to scan: proj");
      (ERROR, "Failed to read ignore file missing.txt: [Errno 2] No such file or directory: 'missing.txt'")]
  /\ existsb (has_level CRITICAL) (run_log r) = false.
Proof. vm_compute. repeat split. Qed.

(** ** The traversal *)

Lemma node_ind' (P : node -> Prop) :
  (forall name, P (File name)) ->
  (forall name children, Forall P children -> P (Dir name children)) ->
  (forall name, P (DirStub name)) ->
  forall n, P n.
Proof.
  intros HF HD HS. fix IH 1. intros [name|name children|name].
  - apply HF.
  - apply HD. induction children as [|c cs IHcs]; constructor.
    + apply IH.
    + apply IHcs.
  - apply HS.
Qed.

Lemma bind_ret_l (A B : Type) (a : A) (k : A -> M B) s : bind (ret a) k s = k a s.
Proof. reflexivity. Qed.

Lemma for_each_app (A : Type) (body : A -> M unit) (l1 l2 : list A) s :
  for_each body (l1 ++ l2)%list s = (for_each body l1 ;; for_each body l2) s.
Proof.
  revert s. induction l1 as [|x l1 IH]; intros s; simpl.
  - reflexivity.
  - unfold bind. destruct (body x s) as [[[]|e] s1]; [|reflexivity].
    rewrite IH. reflexivity.
Qed.

Lemma for_each_ext (A : Type) (f g : A -> M unit) (l : list A) :
  (forall x, In x l -> forall s, f x s = g x s) ->
  forall s, for_each f l s = for_each g l s.
Proof.
  induction l as [|x l IH]; intros H s; simpl.
  - reflexivity.
  - unfold bind. rewrite (H x (or_introl eq_refl)).
    destruct (g x s) as [[[]|e] s1]; [|reflexivity].
    apply IH. intros y Hy. apply H. now right.
Qed.

Lemma for_each_flat_map (A B : Type) (body : B -> M unit) (g : A -> list B) (l : list A) s :
  for_each body (flat_map g l) s = for_each (fun x => for_each body (g x)) l s.
Proof.
  revert s. induction l as [|x l IH]; intros s; simpl.
  - reflexivity.
  - rewrite for_each_app. unfold bind.
    destruct (for_each body (g x) s) as [[[]|e] s1]; [|reflexivity].
    apply IH.
Qed.

Lemma filterM_lift (A : Type) (test : A -> result bool) (l : list A) s :
  filterM (fun x => lift (test x)) l s = lift (filter_pure test l) s.
Proof.
  revert s. induction l as [|x l IH]; intros s; simpl.
  - reflexivity.
  - unfold bind. destruct (test x) as [b|e]; simpl; [|reflexivity].
    rewrite IH. destruct (filter_pure test l) as [kept|e]; reflexivity.
Qed.

Lemma filter_pure_total (A : Type) (test : A -> result bool) (l : list A) :
  (forall x, In x l -> exists b, test x = Ok b) ->
  filter_pure test l =
  Ok (filter (fun x => match test x with Ok true => true | _ => false end) l).
Proof.
  induction l as [|x l IH]; intros H; simpl.
  - reflexivity.
  - destruct (H x (or_introl eq_refl)) as [b Hb]. rewrite Hb. simpl.
    rewrite IH by (intros y Hy; apply H; now right). simpl.
    now destruct b.
Qed.

Lemma join2_nonempty (a b : string) : a <> EmptyString -> PosixPath.join2 a b <> EmptyString.
Proof.
  intros Ha. unfold PosixPath.join2, PosixPath.join, PosixPath.join_step. simpl.
  destruct (Str.startswith b "/") eqn:Hb.
  - destruct b; [discriminate|discriminate].
  - destruct a as [|c a]; [now elim Ha|].
    destruct (_ || _); discriminate.
Qed.

Lemma should_process_total E path root_dir inc ign :
  path <> EmptyString -> exists b, should_process E path root_dir inc ign = Ok b.
Proof.
  intros Hne. unfold should_process, PosixPath.relpath, Str.truthy.
  destruct (String.eqb_spec path EmptyString) as [->|_]; [now elim Hne|]. simpl.
  destruct (_ ++ _)%list as [|c l]; simpl.
  - now exists true.
  - destruct (String.eqb _ "."); [now exists true|].
    destruct (_ && _); [now exists false|].
    destruct (existsb _ ign); eexists; reflexivity.
Qed.

Lemma should_process_empty E root_dir inc ign :
  exists e, should_process E EmptyString root_dir inc ign = Err e.
Proof. eexists. reflexivity. Qed.

Section WalkAsLoop.

Variable E : Env.
Variable root_dir : string.
Variables include_patterns ignore_patterns : list string.
Variable body : string -> list string -> list string -> M unit.

(** On a root that is a path, the loop over [os.walk] is the loop over the
    visits. *)
Lemma walk_as_loop (top : node) :
  forall dirpath s,
    dirpath <> EmptyString ->
    walk E root_dir include_patterns ignore_patterns body dirpath top s =
    for_each (fun t => body (fst (fst t)) (snd (fst t)) (snd t))
             (visited E root_dir include_patterns ignore_patterns dirpath top) s.
Proof.
  induction top as [name|name children IH|name] using node_ind'; intros dirpath s Hne;
    [reflexivity| |reflexivity].
  - simpl.
    unfold passes, bind at 1. rewrite filterM_lift, filter_pure_total.
    2:{ intros d _. apply should_process_total. now apply join2_nonempty. }
    simpl. fold (passes_b E root_dir include_patterns ignore_patterns).
    set (dirnames := filter _ (dirs_of children)).
    simpl. unfold bind.
    destruct (body dirpath dirnames (nondirs_of children) s) as [[[]|e] s1]; [|reflexivity].
    rewrite for_each_flat_map. apply for_each_ext.
    intros c Hc s2. rewrite Forall_forall in IH.
    destruct (existsb (String.eqb (node_name c)) dirnames); [|reflexivity].
    apply (IH c Hc). now apply join2_nonempty.
Qed.

End WalkAsLoop.

(** ** Lists, strings and loops *)

Lemma append_assoc (a b c : string) : (a ++ b) ++ c = a ++ (b ++ c).
Proof. induction a as [|x a IH]; simpl; [reflexivity|now rewrite IH]. Qed.

Lemma append_nil_r (a : string) : a ++ EmptyString = a.
Proof. induction a as [|x a IH]; simpl; [reflexivity|now rewrite IH]. Qed.

Lemma cat_app (l1 l2 : list string) : Str.cat (l1 ++ l2)%list = Str.cat l1 ++ Str.cat l2.
Proof.
  induction l1 as [|x l1 IH]; simpl; [reflexivity|].
  now rewrite IH, append_assoc.
Qed.

(** A loop whose rounds each add known records and known text adds them
    all. *)
Lemma for_each_both (A : Type) (body : A -> M unit) (f : A -> list json) (g : A -> string)
      (l : list A) :
  (forall x, In x l -> forall s s',
        body x s = (Ok tt, s') ->
        data s' = (data s ++ f x)%list /\ output_txt s' = output_txt s ++ g x) ->
  forall s s', for_each body l s = (Ok tt, s') ->
               data s' = (data s ++ flat_map f l)%list
               /\ output_txt s' = output_txt s ++ Str.cat (map g l).
Proof.
  induction l as [|x l IH]; intros H s s' Hrun; simpl in *.
  - injection Hrun as <-. now rewrite app_nil_r, append_nil_r.
  - unfold bind in Hrun. destruct (body x s) as [[[]|e] s1] eqn:Hx; [|discriminate].
    destruct (IH (fun y Hy => H y (or_intror Hy)) _ _ Hrun) as [Hd Ht].
    destruct (H x (or_introl eq_refl) _ _ Hx) as [Hd1 Ht1].
    rewrite Hd, Ht, Hd1, Ht1. now rewrite app_assoc, append_assoc.
Qed.

Lemma flat_map_single (A B : Type) (f : A -> B) (l : list A) :
  flat_map (fun x => [f x]) l = map f l.
Proof. induction l as [|x l IH]; simpl; [reflexivity|now rewrite IH]. Qed.

Lemma filter_filter_implies (A : Type) (p q : A -> bool) (l : list A) :
  (forall x, q x = true -> p x = true) -> filter q (filter p l) = filter q l.
Proof.
  intros H. induction l as [|x l IH]; simpl; [reflexivity|].
  destruct (p x) eqn:Hp; simpl.
  - now rewrite IH.
  - destruct (q x) eqn:Hq; [|exact IH]. apply H in Hq. congruence.
Qed.

Lemma cat_map_flat_map (A B : Type) (f : B -> string) (g : A -> list B) (l : list A) :
  Str.cat (map f (flat_map g l)) = Str.cat (map (fun x => Str.cat (map f (g x))) l).
Proof.
  induction l as [|x l IH]; simpl; [reflexivity|].
  now rewrite map_app, cat_app, IH.
Qed.

Lemma cat_map_ext (A : Type) (f g : A -> string) (l : list A) :
  (forall x, In x l -> f x = g x) -> Str.cat (map f l) = Str.cat (map g l).
Proof.
  intros H. f_equal. apply map_ext_in. exact H.
Qed.

(** ** The content report *)

Lemma visited_dirpaths_pass E root_dir inc ign (top : node) :
  forall dirpath,
    should_process E dirpath root_dir inc ign = Ok true ->
    forall t, In t (visited E root_dir inc ign dirpath top) ->
              should_process E (fst (fst t)) root_dir inc ign = Ok true.
Proof.
  induction top as [name|name children IH|name] using node_ind'; intros dirpath Hd t Ht;
    [destruct Ht| |destruct Ht].
  - simpl in Ht. destruct Ht as [<-|Ht]; [exact Hd|].
    apply in_flat_map in Ht. destruct Ht as [c [Hc Ht]].
    destruct (existsb _ _) eqn:Hex; [|destruct Ht].
    apply existsb_exists in Hex. destruct Hex as [d [Hin Heq]].
    apply String.eqb_eq in Heq. subst d.
    apply filter_In in Hin. destruct Hin as [_ Hp].
    rewrite Forall_forall in IH.
    apply (IH c Hc (PosixPath.join2 dirpath (node_name c))); [|exact Ht].
    unfold passes_b in Hp.
    destruct (should_process E (PosixPath.join2 dirpath (node_name c)) root_dir inc ign)
      as [[|]|e]; [reflexivity|discriminate|discriminate].
Qed.

Lemma get_file_description_ok E file_content key partial_prompt s d u s' :
  get_file_description E file_content key partial_prompt s = (Ok (d, u), s') ->
  data s' = data s /\ output_txt s' = output_txt s
  /\ d = description_of E file_content key partial_prompt.
Proof.
  unfold get_file_description, description_of.
  destruct (fetch_description E _) as [[d0 u0]|e].
  - intros H. injection H as <- <- <-. auto.
  - destruct (exn_kind_of e); simpl; intros H;
      try discriminate H; injection H as <- <- <-; auto.
Qed.

Section ContentReport.

Variable E : Env.
Variable root_dir : string.
Variables include_patterns ignore_patterns : list string.
Variables api_key partial_prompt : option string.

Lemma cat_map_single (A : Type) (f : A -> string) (x : A) : Str.cat (map f [x]) = f x.
Proof. simpl. apply append_nil_r. Qed.

Lemma three_writes (o a b c : string) : ((o ++ a) ++ b) ++ c = o ++ (a ++ b ++ c).
Proof. now rewrite !append_assoc. Qed.

Lemma file_block_plain filename filepath file_content :
  file_block (file_entry_plain filename filepath file_content)
  = ("'" ++ filename ++ "'" ++ nl ++ "``` File path = " ++ filepath ++ nl ++ nl)
      ++ file_content ++ (nl ++ "```" ++ nl ++ nl).
Proof. reflexivity. Qed.

Lemma file_block_described filename filepath description file_content :
  file_block (file_entry_with_description filename filepath description file_content)
  = ("'" ++ filename ++ "'" ++ nl ++ "**Description:** " ++ description ++ nl
     ++ "``` File path = " ++ filepath ++ nl ++ nl)
      ++ file_content ++ (nl ++ "```" ++ nl ++ nl).
Proof. reflexivity. Qed.

Lemma process_file_ok dirpath filename s s' :
  process_file E root_dir include_patterns ignore_patterns api_key partial_prompt
               dirpath filename s = (Ok tt, s') ->
  data s' = (data s ++ file_records E root_dir include_patterns ignore_patterns
                                    api_key partial_prompt dirpath filename)%list
  /\ output_txt s'
     = output_txt s
       ++ Str.cat (map file_block (file_records E root_dir include_patterns ignore_patterns
                                                api_key partial_prompt dirpath filename)).
Proof.
  unfold process_file, file_records, passes, passes_b. intros H.
  destruct (should_process E _ root_dir include_patterns ignore_patterns) as [[|]|e];
    cbv beta iota zeta delta [bind lift ret raise logging negb andb] in H |- *.
  2:{ injection H as <-. cbn [data output_txt map Str.cat fold_right].
      now rewrite app_nil_r, append_nil_r. }
  2:{ discriminate H. }
  destruct (Str.endswith filename ".py").
  2:{ injection H as <-. cbn [map Str.cat fold_right]. now rewrite app_nil_r, append_nil_r. }
  destruct (read_text E (PosixPath.join2 dirpath filename)) as [file_content|e].
  2:{ destruct (Py.is_OSError e); [|discriminate H].
      injection H as <-. cbn [data output_txt map Str.cat fold_right].
      now rewrite app_nil_r, append_nil_r. }
  match type of H with
  | _ ?st = _ => remember st as s0 eqn:Hs0;
                 assert (Hs : data s = data s0 /\ output_txt s = output_txt s0)
                   by (subst s0; split; reflexivity);
                 clear Hs0
  end.
  destruct Hs as [Hs1 Hs2]. rewrite Hs1, Hs2. clear Hs1 Hs2.
  assert (Hplain :
            (write ("'" ++ filename ++ "'" ++ nl ++ "``` File path = "
                    ++ PosixPath.join2 dirpath filename ++ nl ++ nl) ;;
             write file_content ;;
             write (nl ++ "```" ++ nl ++ nl) ;;
             append_data (file_entry_plain filename (PosixPath.join2 dirpath filename)
                                           file_content)) s0 = (Ok tt, s') ->
            data s' = (data s0 ++ [file_entry_plain filename (PosixPath.join2 dirpath filename)
                                                    file_content])%list
            /\ output_txt s'
               = output_txt s0
                 ++ Str.cat (map file_block
                                 [file_entry_plain filename (PosixPath.join2 dirpath filename)
                                                   file_content])).
  { clear H. intros H. cbv beta iota delta [bind write append_data] in H.
    injection H as <-. rewrite cat_map_single. split; [reflexivity|].
    apply three_writes. }
  destruct api_key as [key|]; [|exact (Hplain H)].
  destruct (Str.truthy key); [|exact (Hplain H)].
  clear Hplain.
  destruct (get_file_description E file_content key partial_prompt s0)
    as [[[description usage]|e] s1] eqn:Hg; [|discriminate H].
  apply get_file_description_ok in Hg. destruct Hg as (Hdata & Htxt & ->).
  cbv beta iota delta [write] in H. rewrite <- Hdata, <- Htxt.
  rewrite cat_map_single.
  destruct (Py.nonempty usage).
  - destruct (Py.getitem usage "prompt_tokens"); [|discriminate H].
    destruct (Py.getitem usage "completion_tokens"); [|discriminate H].
    destruct (Py.getitem usage "total_tokens"); [|discriminate H].
    cbv beta iota delta [logging append_data log output_txt data] in H.
    injection H as <-. split; [reflexivity|]. apply three_writes.
  - cbv beta iota delta [append_data log output_txt data] in H.
    injection H as <-. split; [reflexivity|]. apply three_writes.
Qed.

Lemma python_body_ok dirpath dirnames filenames s s' :
  should_process E dirpath root_dir include_patterns ignore_patterns = Ok true ->
  python_body E root_dir include_patterns ignore_patterns api_key partial_prompt
              dirpath dirnames filenames s = (Ok tt, s') ->
  data s' = (data s ++ flat_map (file_records E root_dir include_patterns ignore_patterns
                                              api_key partial_prompt dirpath) filenames)%list
  /\ output_txt s'
     = output_txt s
       ++ Str.cat (map file_block
                       (flat_map (file_records E root_dir include_patterns ignore_patterns
                                               api_key partial_prompt dirpath) filenames)).
Proof.
  intros Hd. unfold python_body, passes, bind. rewrite Hd. simpl.
  rewrite cat_map_flat_map.
  apply for_each_both. intros f _. apply process_file_ok.
Qed.

Lemma os_walk_python_ok s s' :
  os_walk E root_dir include_patterns ignore_patterns
          (python_body E root_dir include_patterns ignore_patterns api_key partial_prompt) s
  = (Ok tt, s') ->
  data s' = (data s ++ all_file_records E root_dir include_patterns ignore_patterns
                                        api_key partial_prompt)%list
  /\ output_txt s'
     = output_txt s
       ++ Str.cat (map file_block (all_file_records E root_dir include_patterns ignore_patterns
                                                    api_key partial_prompt)).
Proof.
  unfold os_walk, all_file_records, visits.
  destruct (scandir_tree E root_dir) as [entries|].
  2:{ intros H. injection H as <-. simpl. now rewrite app_nil_r, append_nil_r. }
  destruct (String.eqb_spec root_dir EmptyString) as [->|Hne].
  - (* an empty root: the first test of the root raises *)
    simpl. unfold bind, passes. rewrite filterM_lift.
    destruct (filter_pure _ _) as [dirnames|e]; simpl; [|discriminate].
    unfold python_body, passes, bind. discriminate.
  - rewrite walk_as_loop by exact Hne. rewrite cat_map_flat_map.
    apply for_each_both. intros t Ht s1 s2.
    apply python_body_ok.
    eapply visited_dirpaths_pass; [|exact Ht].
    now apply should_process_root.
Qed.

Lemma records_process_all_python_files :
  let r := process_all_python_files E root_dir include_patterns ignore_patterns
                                    api_key partial_prompt in
  rep_json r = None
  \/ (rep_json r = Some (JArr (all_file_records E root_dir include_patterns ignore_patterns
                                                 api_key partial_prompt))
      /\ rep_text r
         = Some (Str.cat (map file_block
                              (all_file_records E root_dir include_patterns ignore_patterns
                                                api_key partial_prompt)))).
Proof.
  unfold process_all_python_files, run_report.
  destruct (open_write E _) as [[]|e]; [|destruct (Py.is_OSError e); now left].
  destruct (os_walk E _ _ _ _ initial_state) as [[[]|e] s] eqn:Hw.
  2:{ destruct (Py.is_OSError e); now left. }
  destruct (open_write E _) as [[]|e]; [|destruct (Py.is_OSError e); now left].
  right. simpl. apply os_walk_python_ok in Hw. destruct Hw as [Hd Ht].
  now rewrite Hd, Ht.
Qed.

End ContentReport.

Lemma existsb_filter_dirs (P : string -> bool) (entries : list node) (e : node) :
  In e entries -> is_dir e = true ->
  existsb (String.eqb (node_name e)) (filter P (dirs_of entries)) = P (node_name e).
Proof.
  intros Hin Hdir. destruct (P (node_name e)) eqn:HP.
  - apply existsb_exists. exists (node_name e). split; [|apply String.eqb_refl].
    apply filter_In. split; [|exact HP].
    unfold dirs_of. apply in_map, filter_In. now split.
  - apply not_true_is_false. intros H. apply existsb_exists in H.
    destruct H as [d [Hd Heq]]. apply String.eqb_eq in Heq. subst d.
    apply filter_In in Hd. destruct Hd as [_ Hd]. congruence.
Qed.

Lemma map_flat_map_both (A B C D : Type) (g : B -> D) (g' : C -> D)
      (f1 : A -> list B) (f2 : A -> list C) (l : list A) :
  (forall x, In x l -> map g (f1 x) = map g' (f2 x)) ->
  map g (flat_map f1 l) = map g' (flat_map f2 l).
Proof.
  induction l as [|x l IH]; intros H; simpl.
  - reflexivity.
  - rewrite !map_app, (H x (or_introl eq_refl)), IH; [reflexivity|].
    intros y Hy. apply H. now right.
Qed.

Lemma flat_map_flat_map (A B C : Type) (f : B -> list C) (g : A -> list B) (l : list A) :
  flat_map f (flat_map g l) = flat_map (fun x => flat_map f (g x)) l.
Proof.
  induction l as [|x l IH]; simpl.
  - reflexivity.
  - now rewrite flat_map_app, IH.
Qed.

Section ContentRecords.

Variable E : Env.
Variable root_dir : string.
Variables include_patterns ignore_patterns : list string.
Variables api_key partial_prompt : option string.

Lemma file_records_shape dirpath filename record :
  In record (file_records E root_dir include_patterns ignore_patterns
                          api_key partial_prompt dirpath filename) ->
  keys record = expected_keys api_key
  /\ field "filepath" record = Some (PosixPath.join2 dirpath filename)
  /\ field "filename" record = Some filename
  /\ (Py.truthy api_key = true ->
      exists key file_content,
        api_key = Some key
        /\ read_text E (PosixPath.join2 dirpath filename) = Ok file_content
        /\ field "description" record = Some (description_of E file_content key partial_prompt)).
Proof.
  unfold file_records, expected_keys, Py.truthy.
  destruct (_ && _); [|intros []].
  destruct (read_text E _) as [file_content|e]; [|intros []].
  destruct api_key as [key|].
  - destruct (Str.truthy key) eqn:Hk; intros [<-|[]]; repeat split; try discriminate.
    intros _. exists key, file_content. repeat split.
  - intros [<-|[]]; repeat split. discriminate.
Qed.

Lemma file_records_paths dirpath filename :
  map (field "filepath") (file_records E root_dir include_patterns ignore_patterns
                                       api_key partial_prompt dirpath filename)
  = if is_source_file E root_dir include_patterns ignore_patterns dirpath filename
    then [Some (PosixPath.join2 dirpath filename)] else [].
Proof.
  unfold file_records, is_source_file.
  destruct (_ && _); [|reflexivity]. simpl.
  destruct (read_text E _) as [file_content|e]; [|reflexivity].
  destruct api_key as [key|]; [destruct (Str.truthy key)|]; reflexivity.
Qed.

Lemma dir_records_paths dirpath filenames :
  map (field "filepath") (flat_map (file_records E root_dir include_patterns ignore_patterns
                                                 api_key partial_prompt dirpath) filenames)
  = map Some (map (PosixPath.join2 dirpath)
                  (filter (is_source_file E root_dir include_patterns ignore_patterns dirpath)
                          filenames)).
Proof.
  induction filenames as [|f fs IH]; simpl.
  - reflexivity.
  - rewrite map_app, IH, file_records_paths.
    now destruct (is_source_file _ _ _ _ _ f).
Qed.

Lemma visited_records_paths (top : node) :
  forall dirpath,
    map (field "filepath")
        (flat_map (fun t => flat_map (file_records E root_dir include_patterns ignore_patterns
                                                   api_key partial_prompt (fst (fst t))) (snd t))
                  (visited E root_dir include_patterns ignore_patterns dirpath top))
    = map Some (source_files E root_dir include_patterns ignore_patterns dirpath top).
Proof.
  induction top as [name|name children IH|name] using node_ind'; intros dirpath;
    [reflexivity| |reflexivity].
  - simpl.
    rewrite !map_app, dir_records_paths. f_equal.
    rewrite flat_map_flat_map. apply map_flat_map_both.
    intros c Hc. rewrite Forall_forall in IH.
    destruct c as [f|d children'|d].
    + simpl. now destruct (existsb _ _).
    + rewrite (existsb_filter_dirs _ _ _ Hc eq_refl). cbn [is_dir andb].
      destruct (passes_b _ _ _ _ _); [|reflexivity].
      apply (IH _ Hc).
    + simpl. destruct (existsb _ _); destruct (passes_b _ _ _ _ _); reflexivity.
Qed.


Lemma all_file_records_paths :
  map (field "filepath") (all_file_records E root_dir include_patterns ignore_patterns
                                           api_key partial_prompt)
  = map Some (source_files_under E root_dir include_patterns ignore_patterns).
Proof.
  unfold all_file_records, visits, source_files_under.
  destruct (scandir_tree E root_dir) as [entries|]; [|reflexivity].
  apply visited_records_paths.
Qed.

Lemma all_file_records_shape record :
  In record (all_file_records E root_dir include_patterns ignore_patterns
                              api_key partial_prompt) ->
  keys record = expected_keys api_key
  /\ (Py.truthy api_key = true ->
      exists key file_content,
        api_key = Some key
        /\ field "description" record = Some (description_of E file_content key partial_prompt)).
Proof.
  unfold all_file_records. intros H.
  apply in_flat_map in H. destruct H as [t [_ H]].
  apply in_flat_map in H. destruct H as [f [_ H]].
  apply file_records_shape in H. destruct H as (Hk & _ & _ & Hd).
  split; [exact Hk|]. intros Ht. destruct (Hd Ht) as (key & c & -> & _ & Hf).
  now exists key, c.
Qed.

Lemma records_cases :
  let r := process_all_python_files E root_dir include_patterns ignore_patterns
                                    api_key partial_prompt in
  forall record,
    In record (records r) ->
    In record (all_file_records E root_dir include_patterns ignore_patterns
                                api_key partial_prompt).
Proof.
  intros r record. unfold records.
  destruct (records_process_all_python_files E root_dir include_patterns ignore_patterns
                                             api_key partial_prompt) as [H|[H _]];
    fold r in H; rewrite H; [intros []|trivial].
Qed.

End ContentRecords.

(** C6: when the content report writes its JSON document, the document has
    as many records as there are readable files with the suffix [.py] that
    pass the matcher in the directories that are not pruned; the records
    carry the paths of these files, in order. *)
Theorem json_record_count :
  forall E root_dir include_patterns ignore_patterns api_key partial_prompt items,
    rep_json (process_all_python_files E root_dir include_patterns ignore_patterns
                                       api_key partial_prompt) = Some (JArr items) ->
    List.length items
    = List.length (source_files_under E root_dir include_patterns ignore_patterns)
    /\ map (field "filepath") items
       = map Some (source_files_under E root_dir include_patterns ignore_patterns).
Proof.
  intros E root_dir inc ign api pp items H.
  destruct (records_process_all_python_files E root_dir inc ign api pp) as [H'|[H' _]];
    simpl in H'; rewrite H' in H; [discriminate|].
  injection H as <-.
  pose proof (all_file_records_paths E root_dir inc ign api pp) as Hp.
  split; [|exact Hp].
  apply (f_equal (@List.length _)) in Hp. now rewrite !length_map in Hp.
Qed.

(** The transcript goes with the JSON document: one block per record, in
    the same order. *)
Lemma transcript_follows_records E root_dir include_patterns ignore_patterns
      api_key partial_prompt items :
  rep_json (process_all_python_files E root_dir include_patterns ignore_patterns
                                     api_key partial_prompt) = Some (JArr items) ->
  rep_text (process_all_python_files E root_dir include_patterns ignore_patterns
                                     api_key partial_prompt)
  = Some (Str.cat (map file_block items)).
Proof.
  intros H.
  destruct (records_process_all_python_files E root_dir include_patterns ignore_patterns
                                             api_key partial_prompt) as [H'|[H' Ht]];
    simpl in H'; rewrite H' in H; [discriminate|].
  injection H as <-. exact Ht.
Qed.

Lemma json_record_count_witness :
  exists items,
    rep_json (process_all_python_files (demo_env demo_tree no_network no_vars) "proj" []
                                       default_ignore_patterns None None) = Some (JArr items)
    /\ List.length items = 2
    /\ source_files_under (demo_env demo_tree no_network no_vars) "proj" []
                          default_ignore_patterns = ["proj/a.py"; "proj/b/c.py"].
Proof.
  eexists. split; [reflexivity|]. split; [|reflexivity].
  exact (proj1 (@json_record_count (demo_env demo_tree no_network no_vars) "proj" []
                                   default_ignore_patterns None None _ eq_refl)).
Defined.

(** C9: every record of the content report has the fields filename,
    filepath and content, and a description field exactly when an API key is
    configured; with a key the description is the one the service returned
    or the fallback. *)
Theorem description_field_iff_api_key :
  forall E root_dir include_patterns ignore_patterns api_key partial_prompt record,
    In record (records (process_all_python_files E root_dir include_patterns ignore_patterns
                                                 api_key partial_prompt)) ->
    keys record = (if Py.truthy api_key
                   then ["filename"; "filepath"; "description"; "content"]
                   else ["filename"; "filepath"; "content"])
    /\ (In "description" (keys record) <-> Py.truthy api_key = true)
    /\ (Py.truthy api_key = true ->
        exists key file_content,
          api_key = Some key
          /\ field "description" record = Some (description_of E file_content key partial_prompt)).
Proof.
  intros E root_dir inc ign api pp record H.
  apply records_cases, all_file_records_shape in H. destruct H as [Hk Hd].
  unfold expected_keys in Hk.
  split; [exact Hk|]. split; [|exact Hd].
  rewrite Hk. destruct (Py.truthy api); simpl; split; intros H.
  - reflexivity.
  - right. right. left. reflexivity.
  - repeat (destruct H as [H|H]; [discriminate H|]). destruct H.
  - discriminate H.
Qed.

Lemma description_field_iff_api_key_witness :
  keys (file_entry_plain "a.py" "proj/a.py" "x=1") = ["filename"; "filepath"; "content"]
  /\ keys (file_entry_with_description "a.py" "proj/a.py" fallback_description "x=1")
     = ["filename"; "filepath"; "description"; "content"].
Proof.
  split.
  - apply (@description_field_iff_api_key (demo_env demo_tree no_network no_vars) "proj" []
             default_ignore_patterns None None).
    vm_compute. left. reflexivity.
  - apply (@description_field_iff_api_key (demo_env demo_tree no_network no_vars) "proj" []
             default_ignore_patterns (Some "sk-test") None).
    vm_compute. left. reflexivity.
Defined.

(** What [get_file_description] does by design on a failure it handles: it
    returns the fallback description and an empty usage, and only logs. *)
Lemma description_failure_fallback E file_content key partial_prompt e s :
  fetch_description E (description_request file_content key partial_prompt) = Err e ->
  In (exn_kind_of e) [HTTPError; ConnectionError; ConnectTimeout; Timeout;
                      RequestException; KeyError] ->
  exists s',
    get_file_description E file_content key partial_prompt s
    = (Ok (fallback_description, JObj []), s')
    /\ data s' = data s /\ output_txt s' = output_txt s.
Proof.
  intros Hf Hk. unfold get_file_description. rewrite Hf.
  simpl in Hk. decompose [or] Hk; clear Hk;
    match goal with
    | H : _ = exn_kind_of e |- _ => rewrite <- H
    | H : False |- _ => destruct H
    end; eexists; (split; [reflexivity|split; reflexivity]).
Qed.

(** Any other exception of the [try] block leaves [get_file_description]. *)
Lemma description_failure_uncaught E file_content key partial_prompt e s :
  fetch_description E (description_request file_content key partial_prompt) = Err e ->
  In (exn_kind_of e) [IndexError; TypeError; AttributeError; ValueError] ->
  get_file_description E file_content key partial_prompt s = (Err e, s).
Proof.
  intros Hf Hk. unfold get_file_description. rewrite Hf.
  simpl in Hk. decompose [or] Hk; clear Hk;
    match goal with
    | H : _ = exn_kind_of e |- _ => rewrite <- H
    | H : False |- _ => destruct H
    end; reflexivity.
Qed.

(** C5, at a response that is valid JSON but has an empty [choices] list:
    the [IndexError] is not among the exceptions [get_file_description]
    handles, so the run stops at the first file, no JSON document is written
    and the process ends with status 1. *)
Theorem malformed_response_aborts_run :
  let E := demo_env [File "a.py"; File "b.py"] (answering empty_choices) no_vars in
  let r := process_all_python_files E "proj" [] default_ignore_patterns (Some "sk-test") None in
  rep_raised r = Some (Exn IndexError "list index out of range")
  /\ rep_json r = None
  /\ records r = []
  /\ rep_log r = [(INFO, "Processing file: proj/a.py")]
  /\ exit_code (main E (args_description (Some "sk-test"))) = 1.
Proof. vm_compute. repeat split. Qed.

(** ** The tree report *)

Section TreeReport.

Variable E : Env.
Variable root_dir : string.
Variables include_patterns ignore_patterns : list string.

Lemma list_entry_ok dirpath contents name s contents' s' :
  list_entry E root_dir include_patterns ignore_patterns dirpath contents name s
  = (Ok contents', s') ->
  contents' = (contents ++ if listed E root_dir include_patterns ignore_patterns dirpath name then [entry_record E dirpath name] else [])%list
  /\ output_txt s' = output_txt s ++ (if listed E root_dir include_patterns ignore_patterns dirpath name then entry_line E dirpath name
                                      else EmptyString)
  /\ data s' = data s.
Proof.
  unfold list_entry, listed, entry_record, entry_line, passes, passes_b. intros H.
  destruct (should_process E _ root_dir include_patterns ignore_patterns) as [[|]|e];
    cbv beta iota delta [bind lift ret raise logging negb andb] in H |- *.
  2:{ injection H as <- <-. cbn. now rewrite app_nil_r, append_nil_r. }
  2:{ discriminate H. }
  destruct (stat_entry E (PosixPath.join2 dirpath name)) as [[permissions owner]|e].
  - cbv beta iota delta [write] in H. injection H as <- <-. cbn. auto.
  - destruct (exn_kind_of e); try discriminate H;
      injection H as <- <-; cbn; now rewrite app_nil_r, append_nil_r.
Qed.

Lemma fold_each_list_entry_ok dirpath names :
  forall contents s contents' s',
    fold_each (list_entry E root_dir include_patterns ignore_patterns dirpath) names contents s
    = (Ok contents', s') ->
    contents' = (contents ++ map (entry_record E dirpath) (filter (listed E root_dir include_patterns ignore_patterns dirpath) names))%list
    /\ output_txt s' = output_txt s
                       ++ Str.cat (map (entry_line E dirpath) (filter (listed E root_dir include_patterns ignore_patterns dirpath) names))
    /\ data s' = data s.
Proof.
  induction names as [|name names IH]; intros contents s contents' s' H; simpl in H.
  - injection H as <- <-. simpl. now rewrite app_nil_r, append_nil_r.
  - unfold bind in H.
    destruct (list_entry E root_dir include_patterns ignore_patterns dirpath contents name s)
      as [[c1|e] s1] eqn:H1; [|discriminate].
    apply list_entry_ok in H1. destruct H1 as (-> & Ht1 & Hd1).
    apply IH in H. destruct H as (-> & Ht & Hd).
    rewrite Ht, Ht1, Hd, Hd1. simpl.
    destruct (listed E root_dir include_patterns ignore_patterns dirpath name); simpl.
    + now rewrite <- app_assoc, !append_assoc.
    + now rewrite app_nil_r, append_nil_r.
Qed.

Lemma tree_body_ok dirpath dirnames filenames s s' :
  should_process E dirpath root_dir include_patterns ignore_patterns = Ok true ->
  tree_body E root_dir include_patterns ignore_patterns dirpath dirnames filenames s
  = (Ok tt, s') ->
  data s' = (data s ++ [directory_record E root_dir include_patterns ignore_patterns
                                         dirpath (dirnames ++ filenames)])%list
  /\ output_txt s' = output_txt s
                     ++ section_text E root_dir include_patterns ignore_patterns
                                     dirpath (dirnames ++ filenames)%list.
Proof.
  intros Hd. unfold tree_body, passes. rewrite Hd.
  cbv beta iota delta [bind lift ret negb write]. 
  destruct (fold_each _ _ _ _) as [[contents|e] s1] eqn:Hf; [|discriminate].
  apply fold_each_list_entry_ok in Hf. destruct Hf as (-> & Ht & Hdata).
  cbv beta iota delta [append_data]. intros H. injection H as <-.
  cbn [data output_txt] in *. rewrite Ht, Hdata. split; [reflexivity|].
  unfold section_text, directory_header. now rewrite !append_assoc.
Qed.

Lemma os_walk_tree_ok s s' :
  os_walk E root_dir include_patterns ignore_patterns
          (tree_body E root_dir include_patterns ignore_patterns) s = (Ok tt, s') ->
  data s' = (data s ++ all_directory_records E root_dir include_patterns ignore_patterns)%list
  /\ output_txt s'
     = output_txt s
       ++ Str.cat (map (fun t => section_text E root_dir include_patterns ignore_patterns
                                              (fst (fst t)) (snd (fst t) ++ snd t)%list)
                       (visits E root_dir include_patterns ignore_patterns)).
Proof.
  unfold os_walk, all_directory_records, visits.
  destruct (scandir_tree E root_dir) as [entries|].
  2:{ intros H. injection H as <-. simpl. now rewrite app_nil_r, append_nil_r. }
  destruct (String.eqb_spec root_dir EmptyString) as [->|Hne].
  - simpl. unfold bind, passes. rewrite filterM_lift.
    destruct (filter_pure _ _) as [dirnames|e]; simpl; [|discriminate].
    unfold tree_body, passes, bind. discriminate.
  - rewrite walk_as_loop by exact Hne. intros H.
    rewrite <- flat_map_single. revert H.
    apply for_each_both. intros t Ht s1 s2.
    apply tree_body_ok.
    eapply visited_dirpaths_pass; [|exact Ht].
    now apply should_process_root.
Qed.

Lemma cases_generate_tree_view :
  let r := generate_tree_view E root_dir include_patterns ignore_patterns in
  (rep_json r = None /\ rep_raised r <> None)
  \/ (rep_json r = Some (JArr (all_directory_records E root_dir include_patterns ignore_patterns))
      /\ rep_text r
         = Some (Str.cat (map (fun t => section_text E root_dir include_patterns ignore_patterns
                                                     (fst (fst t)) (snd (fst t) ++ snd t)%list)
                              (visits E root_dir include_patterns ignore_patterns)))).
Proof.
  unfold generate_tree_view, run_report.
  destruct (open_write E _) as [[]|e];
    [|destruct (Py.is_OSError e); left; split; [reflexivity|discriminate|reflexivity|discriminate]].
  destruct (os_walk E _ _ _ _ initial_state) as [[[]|e] s] eqn:Hw.
  2:{ destruct (Py.is_OSError e); left; split; try reflexivity; discriminate. }
  destruct (open_write E _) as [[]|e];
    [|destruct (Py.is_OSError e); left; split; try reflexivity; discriminate].
  right. simpl. apply os_walk_tree_ok in Hw. destruct Hw as [Hd Ht].
  now rewrite Hd, Ht.
Qed.


Lemma section_text_pruned dirpath dirs files :
  section_text E root_dir include_patterns ignore_patterns dirpath
               (filter (fun d => passes_b E root_dir include_patterns ignore_patterns
                                          (PosixPath.join2 dirpath d)) dirs ++ files)%list
  = section_text E root_dir include_patterns ignore_patterns dirpath (dirs ++ files)%list.
Proof.
  unfold section_text. rewrite !filter_app, filter_filter_implies; [reflexivity|].
  intros d Hd. unfold listed in Hd. now apply andb_true_iff in Hd.
Qed.

Lemma visited_text (top : node) :
  forall dirpath,
    Str.cat (map (fun t => section_text E root_dir include_patterns ignore_patterns
                                        (fst (fst t)) (snd (fst t) ++ snd t)%list)
                 (visited E root_dir include_patterns ignore_patterns dirpath top))
    = tree_text_with directories_first E root_dir include_patterns ignore_patterns dirpath top.
Proof.
  induction top as [name|name children IH|name] using node_ind'; intros dirpath;
    [reflexivity| |reflexivity].
  - cbn [visited tree_text_with map Str.cat fold_right fst snd].
    rewrite section_text_pruned. unfold directories_first at 1. f_equal.
    change (fold_right String.append EmptyString) with Str.cat.
    rewrite cat_map_flat_map. apply cat_map_ext.
    intros c Hc. rewrite Forall_forall in IH.
    destruct c as [f|d children'|d].
    + simpl. now destruct (existsb _ _).
    + rewrite (existsb_filter_dirs _ _ _ Hc eq_refl). cbn [is_dir andb].
      destruct (passes_b _ _ _ _ _); [|reflexivity].
      apply (IH _ Hc).
    + simpl. destruct (existsb _ _); destruct (passes_b _ _ _ _ _); reflexivity.
Qed.

End TreeReport.

(** *** The text of a run that an exception ends *)

Lemma writes_within_ret (A : Type) (a : A) : writes_within (ret a) EmptyString.
Proof.
  intros s. exists EmptyString, EmptyString. cbn [ret fst snd].
  split; [now rewrite append_nil_r|]. split; reflexivity.
Qed.

Lemma writes_within_write (text : string) : writes_within (write text) text.
Proof.
  intros s. exists text, EmptyString. cbn [write fst snd output_txt].
  split; [reflexivity|]. split; [now rewrite append_nil_r|reflexivity].
Qed.

Lemma writes_within_append_data (x : json) : writes_within (append_data x) EmptyString.
Proof.
  intros s. exists EmptyString, EmptyString. cbn [append_data fst snd output_txt].
  split; [now rewrite append_nil_r|]. split; reflexivity.
Qed.

Lemma writes_within_bind (A B : Type) (c : M A) (k : A -> M B) (f1 f2 : string) :
  writes_within c f1 -> (forall a, writes_within (k a) f2) ->
  writes_within (bind c k) (f1 ++ f2).
Proof.
  intros Hc Hk s. unfold bind. destruct (Hc s) as (t1 & r1 & H1 & Hf1 & Hok1).
  destruct (c s) as [[a|e] s1]; cbn [fst snd] in H1, Hok1 |- *.
  - rewrite (Hok1 a eq_refl), append_nil_r in Hf1. subst f1.
    destruct (Hk a s1) as (t2 & r2 & H2 & Hf2 & Hok2).
    exists (t1 ++ t2), r2. split; [now rewrite H2, H1, append_assoc|].
    split; [now rewrite Hf2, append_assoc|exact Hok2].
  - exists t1, (r1 ++ f2). split; [exact H1|].
    split; [now rewrite Hf1, append_assoc|]. intros b H. discriminate H.
Qed.

Lemma writes_within_bind_ok (A B : Type) (a : A) (k : A -> M B) (full : string) :
  writes_within (k a) full -> writes_within (bind (lift (Ok a)) k) full.
Proof. intros H s. exact (H s). Qed.

Lemma writes_within_ext (A : Type) (c c' : M A) (full full' : string) :
  (forall s, c s = c' s) -> full = full' -> writes_within c' full' -> writes_within c full.
Proof. intros Hc -> H s. rewrite Hc. exact (H s). Qed.

Lemma writes_within_for_each (A : Type) (body : A -> M unit) (g : A -> string) (l : list A) :
  (forall x, In x l -> writes_within (body x) (g x)) ->
  writes_within (for_each body l) (Str.cat (map g l)).
Proof.
  induction l as [|x l IH]; intros H.
  - apply writes_within_ret.
  - change (Str.cat (map g (x :: l))) with (g x ++ Str.cat (map g l)).
    change (for_each body (x :: l)) with (bind (body x) (fun _ => for_each body l)).
    apply writes_within_bind; [apply H; now left|].
    intros _. apply IH. intros y Hy. apply H. now right.
Qed.

Lemma writes_within_fold_each (A B : Type) (body : list B -> A -> M (list B))
      (g : A -> string) (l : list A) :
  (forall acc x, writes_within (body acc x) (g x)) ->
  forall acc, writes_within (fold_each body l acc) (Str.cat (map g l)).
Proof.
  intros H. induction l as [|x l IH]; intros acc.
  - apply writes_within_ret.
  - change (Str.cat (map g (x :: l))) with (g x ++ Str.cat (map g l)).
    change (fold_each body (x :: l) acc)
      with (bind (body acc x) (fun acc' => fold_each body l acc')).
    apply writes_within_bind; [apply H|exact IH].
Qed.

Lemma cat_map_filter (A : Type) (f : A -> bool) (g : A -> string) (l : list A) :
  Str.cat (map (fun x => if f x then g x else EmptyString) l) = Str.cat (map g (filter f l)).
Proof.
  induction l as [|x l IH]; [reflexivity|].
  change (Str.cat (map (fun x => if f x then g x else EmptyString) (x :: l)))
    with ((if f x then g x else EmptyString)
            ++ Str.cat (map (fun x => if f x then g x else EmptyString) l)).
  rewrite IH. cbn [filter]. destruct (f x); reflexivity.
Qed.

Section TreeText.

Variable E : Env.
Variable root_dir : string.
Variables include_patterns ignore_patterns : list string.

Lemma list_entry_writes dirpath contents name :
  writes_within (list_entry E root_dir include_patterns ignore_patterns dirpath contents name)
                (if listed E root_dir include_patterns ignore_patterns dirpath name
                 then entry_line E dirpath name else EmptyString).
Proof.
  intros s. unfold list_entry, listed, entry_line, passes, passes_b.
  destruct (should_process E (PosixPath.join2 dirpath name) root_dir
                           include_patterns ignore_patterns) as [[|]|e];
    cbv beta iota zeta delta [bind lift ret raise logging negb andb].
  - destruct (stat_entry E (PosixPath.join2 dirpath name)) as [[permissions owner]|e].
    + cbv beta iota delta [write]. cbn [fst snd output_txt].
      eexists. exists EmptyString. split; [reflexivity|].
      split; [now rewrite append_nil_r|reflexivity].
    + exists EmptyString, EmptyString.
      destruct (exn_kind_of e); cbn [fst snd output_txt];
        (split; [now rewrite append_nil_r|]; split; reflexivity).
  - exists EmptyString, EmptyString. cbn [fst snd output_txt].
    split; [now rewrite append_nil_r|]. split; reflexivity.
  - exists EmptyString, EmptyString. cbn [fst snd output_txt].
    split; [now rewrite append_nil_r|]. split; reflexivity.
Qed.

Lemma tree_body_writes dirpath dirnames filenames :
  should_process E dirpath root_dir include_patterns ignore_patterns = Ok true ->
  writes_within (tree_body E root_dir include_patterns ignore_patterns
                           dirpath dirnames filenames)
                (section_text E root_dir include_patterns ignore_patterns
                              dirpath (dirnames ++ filenames)%list).
Proof.
  intros Hd. unfold tree_body, passes. rewrite Hd.
  apply writes_within_bind_ok. cbn [negb].
  eapply writes_within_ext; [intros s; reflexivity| |].
  2:{ apply writes_within_bind; [apply writes_within_write|]. intros _.
      apply writes_within_bind; [apply writes_within_write|]. intros _.
      apply writes_within_bind.
      - apply writes_within_fold_each. intros acc x. apply list_entry_writes.
      - intros contents. apply writes_within_append_data. }
  unfold section_text, directory_header.
  rewrite cat_map_filter, append_nil_r, append_assoc. reflexivity.
Qed.

Lemma os_walk_tree_writes :
  writes_within (os_walk E root_dir include_patterns ignore_patterns
                         (tree_body E root_dir include_patterns ignore_patterns))
                (tree_text_under directories_first E root_dir
                                 include_patterns ignore_patterns).
Proof.
  unfold os_walk, tree_text_under.
  destruct (scandir_tree E root_dir) as [entries|]; [|apply writes_within_ret].
  destruct (String.eqb_spec root_dir EmptyString) as [->|Hne].
  - (* an empty root: the first test of the root raises *)
    intros s. eexists EmptyString, _. rewrite append_nil_r.
    simpl. unfold bind, passes. rewrite filterM_lift.
    destruct (filter_pure _ _) as [dirnames|e]; simpl.
    + unfold tree_body, passes, bind. simpl.
      split; [reflexivity|]. split; [reflexivity|]. intros a H. discriminate H.
    + split; [reflexivity|]. split; [reflexivity|]. intros a H. discriminate H.
  - eapply writes_within_ext.
    + intros s. apply walk_as_loop. exact Hne.
    + symmetry. apply visited_text.
    + apply writes_within_for_each. intros t Ht. apply tree_body_writes.
      eapply visited_dirpaths_pass; [|exact Ht]. now apply should_process_root.
Qed.

End TreeText.

(** C4, as the code has it: when the tree report runs to its end, its text
    is, for each visited directory in turn, the header with the path of the
    directory followed by one line per child that passes the matcher and
    whose status and owner can be looked up, the child directories first and
    the files after them, each group in the order of the enumeration.  When
    an exception ends the report before that, the text written so far is the
    beginning of this text. *)
Theorem tree_sections_directories_first :
  forall E root_dir include_patterns ignore_patterns,
    (rep_raised (generate_tree_view E root_dir include_patterns ignore_patterns) = None ->
     rep_text (generate_tree_view E root_dir include_patterns ignore_patterns)
     = Some (tree_text_under directories_first E root_dir include_patterns ignore_patterns))
    /\ (forall text,
           rep_text (generate_tree_view E root_dir include_patterns ignore_patterns)
           = Some text ->
           exists rest,
             tree_text_under directories_first E root_dir include_patterns ignore_patterns
             = text ++ rest).
Proof.
  intros E root_dir inc ign.
  pose proof (@os_walk_tree_writes E root_dir inc ign initial_state) as Hw.
  destruct Hw as (t & rest & Hout & Hfull & Hok).
  cbn [initial_state output_txt] in Hout.
  change (EmptyString ++ t) with t in Hout.
  unfold generate_tree_view, run_report.
  destruct (open_write E _) as [[]|e].
  2:{ destruct (Py.is_OSError e); cbn [rep_raised rep_text];
        (split; [intros H; discriminate H|intros text H; discriminate H]). }
  destruct (os_walk E root_dir inc ign (tree_body E root_dir inc ign) initial_state)
    as [[[]|e] s]; cbn [fst snd] in Hout, Hok.
  - rewrite (Hok tt eq_refl), append_nil_r in Hfull.
    assert (Htext : Some (output_txt s)
                    = Some (tree_text_under directories_first E root_dir inc ign))
      by now rewrite Hout, Hfull.
    destruct (open_write E _) as [[]|e]; [|destruct (Py.is_OSError e)];
      cbn [rep_raised rep_text];
      (split; [intros _; exact Htext|]);
      intros text H; injection H as <-; exists EmptyString;
      now rewrite append_nil_r, Hout, Hfull.
  - destruct (Py.is_OSError e); cbn [rep_raised rep_text];
      (split; [intros H; discriminate H|]);
      intros text H; injection H as <-; exists rest; now rewrite Hout.
Qed.

Lemma tree_sections_directories_first_witness :
  rep_text (generate_tree_view (demo_env demo_tree no_network no_vars) "proj" []
                               default_ignore_patterns)
  = Some (tree_text_under directories_first (demo_env demo_tree no_network no_vars) "proj" []
                          default_ignore_patterns)
  /\ exists rest,
      tree_text_under directories_first
                      (unknown_owners (demo_env [File "a.py"; Dir "b" []] no_network no_vars))
                      "proj" [] default_ignore_patterns
      = (nl ++ "Directory: proj" ++ nl ++ "===============" ++ nl) ++ rest.
Proof.
  split.
  - apply (proj1 (@tree_sections_directories_first
                    (demo_env demo_tree no_network no_vars) "proj" []
                    default_ignore_patterns)).
    reflexivity.
  - apply (proj2 (@tree_sections_directories_first
                    (unknown_owners (demo_env [File "a.py"; Dir "b" []] no_network no_vars))
                    "proj" [] default_ignore_patterns)).
    vm_compute. reflexivity.
Defined.

(** C4, as the specification states it, fails: in [demo_tree] the file
    [a.py] is enumerated before the directory [b], and the section of the
    root lists [b] first. *)
Lemma tree_sections_not_in_enumeration_order :
  rep_raised (generate_tree_view (demo_env demo_tree no_network no_vars) "proj" []
                                 default_ignore_patterns) = None
  /\ rep_text (generate_tree_view (demo_env demo_tree no_network no_vars) "proj" []
                                  default_ignore_patterns)
     <> Some (tree_text_under enumeration_order (demo_env demo_tree no_network no_vars) "proj" []
                              default_ignore_patterns).
Proof.
  split; [reflexivity|]. vm_compute. intros H. discriminate H.
Qed.

(** ** Pruning *)

Lemma length_append (a b : string) :
  String.length (a ++ b) = String.length a + String.length b.
Proof. induction a as [|x a IH]; simpl; [reflexivity|now rewrite IH]. Qed.

Lemma append_inj_l (a x y : string) : a ++ x = a ++ y -> x = y.
Proof.
  induction a as [|c a IH]; simpl; intros H; [exact H|].
  injection H as H. now apply IH.
Qed.

Lemma valid_name_nonempty name : valid_name name = true -> name <> EmptyString.
Proof. destruct name; [discriminate|discriminate]. Qed.

Lemma valid_name_no_sep name : valid_name name = true -> has_sep name = false.
Proof.
  unfold valid_name. intros H. apply andb_true_iff in H. destruct H as [_ H].
  now apply negb_true_iff in H.
Qed.

Lemma valid_name_startswith name :
  valid_name name = true -> Str.startswith name "/" = false.
Proof.
  intros H. pose proof (valid_name_no_sep _ H) as Hs.
  destruct name as [|c name]; [reflexivity|].
  simpl in Hs. apply orb_false_iff in Hs. destruct Hs as [Hc _].
  unfold Str.startswith.
  change (String.prefix "/" (String c name))
    with (if ascii_dec "/"%char c then String.prefix EmptyString name else false).
  destruct (ascii_dec "/" c) as [<-|Hne]; [discriminate Hc|reflexivity].
Qed.

(** A string that ends in a valid name does not end in the separator. *)
Lemma endswith_valid (x name : string) :
  valid_name name = true -> Str.endswith (x ++ name) "/" = false.
Proof.
  intros H. pose proof (valid_name_no_sep _ H) as Hs.
  pose proof (valid_name_nonempty H) as Hne. clear H.
  assert (Hn : forall n, n <> EmptyString -> has_sep n = false -> Str.endswith n "/" = false).
  { induction n as [|c n IH]; intros Hn Hsep; [now elim Hn|].
    simpl in Hsep. apply orb_false_iff in Hsep. destruct Hsep as [Hc Hsep].
    cbn [Str.endswith].
    destruct (String.eqb_spec (String c n) "/") as [Heq|_].
    - injection Heq as -> _. discriminate Hc.
    - destruct n as [|c' n']; [reflexivity|]. apply IH; [discriminate|exact Hsep]. }
  induction x as [|c x IH].
  - now apply Hn.
  - change (String c x ++ name) with (String c (x ++ name)). cbn [Str.endswith].
    destruct (String.eqb_spec (String c (x ++ name)) "/") as [Heq|_]; [|exact IH].
    injection Heq as _ Heq. destruct x; simpl in Heq; [now elim Hne|discriminate].
Qed.

(** The join of a path that does not end in the separator with valid names
    appends them, each after a separator. *)
Lemma join_valid_names (names : list string) :
  forall path,
    path <> EmptyString -> Str.endswith path "/" = false ->
    Forall (fun n => valid_name n = true) names ->
    PosixPath.join path names = path ++ Str.cat (map (String.append "/") names).
Proof.
  induction names as [|n names IH]; intros path Hne He Hv; simpl.
  - now rewrite append_nil_r.
  - inversion Hv as [|? ? Hn Hns]; subst.
    unfold PosixPath.join in *. simpl.
    assert (Hstep : PosixPath.join_step path n = path ++ "/" ++ n).
    { unfold PosixPath.join_step. rewrite (valid_name_startswith _ Hn), He.
      unfold Str.truthy. destruct (String.eqb_spec path EmptyString); [contradiction|reflexivity]. }
    rewrite Hstep, IH; [now rewrite append_assoc| | |exact Hns].
    + destruct path; [now elim Hne|discriminate].
    + rewrite <- append_assoc. now apply endswith_valid.
Qed.

(** The separator [os.path.join] puts after the root. *)
Lemma join_root_names root_dir n names :
  root_dir <> EmptyString ->
  Forall (fun n => valid_name n = true) (n :: names) ->
  PosixPath.join root_dir (n :: names)
  = (root_dir ++ (if Str.endswith root_dir "/" then EmptyString else "/") ++ n)
      ++ Str.cat (map (String.append "/") names).
Proof.
  intros Hne Hv. inversion Hv as [|? ? Hn Hns]; subst.
  assert (Hstep : PosixPath.join_step root_dir n
                  = root_dir ++ (if Str.endswith root_dir "/" then EmptyString else "/") ++ n).
  { unfold PosixPath.join_step. rewrite (valid_name_startswith _ Hn).
    unfold Str.truthy. destruct (String.eqb_spec root_dir EmptyString); [contradiction|].
    simpl. now destruct (Str.endswith root_dir "/"). }
  unfold PosixPath.join. simpl. rewrite Hstep.
  apply join_valid_names; [| |exact Hns].
  - destruct root_dir; [now elim Hne|discriminate].
  - rewrite <- append_assoc. now apply endswith_valid.
Qed.

Lemma no_sep_split (n : string) :
  forall m x y,
    has_sep n = false -> has_sep m = false ->
    starts_with_sep_or_empty x -> starts_with_sep_or_empty y ->
    n ++ x = m ++ y -> n = m /\ x = y.
Proof.
  induction n as [|a n IH]; intros m x y Hn Hm Hx Hy H.
  - destruct m as [|c m]; [now split|]. simpl in H.
    simpl in Hm. apply orb_false_iff in Hm. destruct Hm as [Hc _].
    destruct Hx as [->|[x' ->]]; [discriminate H|].
    injection H as <- _. discriminate Hc.
  - simpl in Hn. apply orb_false_iff in Hn. destruct Hn as [Ha Hn].
    destruct m as [|c m].
    + simpl in H. destruct Hy as [->|[y' ->]]; [discriminate H|].
      injection H as -> _. discriminate Ha.
    + simpl in H, Hm. apply orb_false_iff in Hm. destruct Hm as [_ Hm].
      injection H as <- H.
      destruct (IH m x y Hn Hm Hx Hy H) as [-> ->]. now split.
Qed.

Lemma cat_slash_form (names : list string) :
  starts_with_sep_or_empty (Str.cat (map (String.append "/") names)).
Proof.
  destruct names as [|n names]; [now left|].
  right. simpl. eexists. reflexivity.
Qed.

Lemma cat_slash_inj (ns : list string) :
  forall ms,
    Forall (fun n => valid_name n = true) ns ->
    Forall (fun n => valid_name n = true) ms ->
    Str.cat (map (String.append "/") ns) = Str.cat (map (String.append "/") ms) ->
    ns = ms.
Proof.
  induction ns as [|n ns IH]; intros ms Hns Hms H.
  - destruct ms; [reflexivity|discriminate H].
  - destruct ms as [|m ms]; [discriminate H|].
    inversion Hns as [|? ? Hn Hns']; inversion Hms as [|? ? Hm Hms']; subst.
    simpl in H. injection H as H.
    destruct (no_sep_split n m (valid_name_no_sep _ Hn) (valid_name_no_sep _ Hm)
                           (cat_slash_form ns) (cat_slash_form ms) H) as [-> H'].
    f_equal. now apply IH.
Qed.

(** Joining the root with two different lists of valid names gives two
    different paths. *)
Lemma join_inj root_dir (ns ms : list string) :
  root_dir <> EmptyString ->
  Forall (fun n => valid_name n = true) ns ->
  Forall (fun n => valid_name n = true) ms ->
  PosixPath.join root_dir ns = PosixPath.join root_dir ms ->
  ns = ms.
Proof.
  intros Hne Hns Hms H.
  assert (Hlen : forall n names,
             Forall (fun n => valid_name n = true) (n :: names) ->
             root_dir <> PosixPath.join root_dir (n :: names)).
  { intros n names Hv Heq. rewrite (join_root_names Hne Hv) in Heq.
    apply (f_equal String.length) in Heq. rewrite !length_append in Heq.
    inversion Hv as [|? ? Hn _]; subst.
    destruct n; [discriminate Hn|]. simpl in Heq. lia. }
  destruct ns as [|n ns], ms as [|m ms].
  - reflexivity.
  - exfalso. exact (Hlen _ _ Hms H).
  - exfalso. exact (Hlen _ _ Hns (eq_sym H)).
  - rewrite (join_root_names Hne Hns), (join_root_names Hne Hms) in H.
    rewrite !append_assoc in H. apply append_inj_l in H. apply append_inj_l in H.
    inversion Hns as [|? ? Hn Hns']; inversion Hms as [|? ? Hm Hms']; subst.
    destruct (no_sep_split n m (valid_name_no_sep _ Hn) (valid_name_no_sep _ Hm)
                           (cat_slash_form ns) (cat_slash_form ms) H) as [-> H'].
    f_equal. now apply cat_slash_inj.
Qed.

Lemma join_app a (l1 l2 : list string) :
  PosixPath.join a (l1 ++ l2)%list = PosixPath.join (PosixPath.join a l1) l2.
Proof. unfold PosixPath.join. apply fold_left_app. Qed.

Lemma join_cons a n (l : list string) :
  PosixPath.join a (n :: l) = PosixPath.join (PosixPath.join2 a n) l.
Proof. reflexivity. Qed.

Lemma valid_names_children name children :
  valid_names (Dir name children) = true ->
  forall c, In c children -> valid_name (node_name c) = true /\ valid_names c = true.
Proof.
  simpl. intros H c Hc. rewrite forallb_forall in H.
  now apply andb_true_iff, H.
Qed.

Lemma subdirs_names (top : node) :
  forall dirpath P d,
    valid_names top = true ->
    In (P, d) (subdirs dirpath top) ->
    exists ns, ns <> [] /\ Forall (fun n => valid_name n = true) ns
               /\ P = PosixPath.join dirpath ns /\ valid_names d = true.
Proof.
  induction top as [name|name children IH|name] using node_ind'; intros dirpath P d Hv Hin;
    [destruct Hin| |destruct Hin].
  - simpl in Hin. apply in_flat_map in Hin. destruct Hin as [c [Hc Hin]].
    destruct (valid_names_children _ _ Hv c Hc) as [Hn Hvc].
    destruct (is_dir c); [|destruct Hin]. destruct Hin as [Heq|Hin].
    + injection Heq as <- <-. exists [node_name c].
      split; [discriminate|]. split; [now constructor|]. split; [reflexivity|exact Hvc].
    + rewrite Forall_forall in IH.
      destruct (IH c Hc _ _ _ Hvc Hin) as (ns & _ & Hns & -> & Hd).
      exists (node_name c :: ns). split; [discriminate|]. split; [now constructor|].
      split; [reflexivity|exact Hd].
Qed.

Lemma paths_below_names (top : node) :
  forall dirpath q,
    valid_names top = true ->
    In q (paths_below dirpath top) ->
    exists ms, ms <> [] /\ Forall (fun n => valid_name n = true) ms
               /\ q = PosixPath.join dirpath ms.
Proof.
  induction top as [name|name children IH|name] using node_ind'; intros dirpath q Hv Hin;
    [destruct Hin| |destruct Hin].
  - simpl in Hin. apply in_flat_map in Hin. destruct Hin as [c [Hc Hin]].
    destruct (valid_names_children _ _ Hv c Hc) as [Hn Hvc].
    destruct Hin as [<-|Hin].
    + exists [node_name c]. split; [discriminate|]. split; [now constructor|reflexivity].
    + rewrite Forall_forall in IH.
      destruct (IH c Hc _ _ Hvc Hin) as (ms & _ & Hms & ->).
      exists (node_name c :: ms). split; [discriminate|]. split; [now constructor|reflexivity].
Qed.

Section Pruning.

Variable E : Env.
Variable root_dir : string.
Variables include_patterns ignore_patterns : list string.

Lemma valid_entry_names name children :
  valid_names (Dir name children) = true ->
  valid (dirs_of children) /\ valid (nondirs_of children).
Proof.
  intros Hv. unfold valid, dirs_of, nondirs_of.
  split; apply Forall_forall; intros n Hn; apply in_map_iff in Hn;
    destruct Hn as [c [<- Hc]]; apply filter_In in Hc; destruct Hc as [Hc _];
    now apply (valid_names_children _ _ Hv c Hc).
Qed.

Lemma visited_reached (top : node) :
  forall dirpath t,
    valid_names top = true ->
    In t (visited E root_dir include_patterns ignore_patterns dirpath top) ->
    exists ns, valid ns /\ fst (fst t) = PosixPath.join dirpath ns /\ all_pass E root_dir include_patterns ignore_patterns dirpath ns
               /\ valid (snd (fst t)) /\ valid (snd t).
Proof.
  induction top as [name|name children IH|name] using node_ind'; intros dirpath t Hv Hin;
    [destruct Hin| |destruct Hin].
  - simpl in Hin. destruct Hin as [<-|Hin].
    + exists []. split; [constructor|]. split; [reflexivity|]. split.
      * intros pre suf Heq Hpre. symmetry in Heq. apply app_eq_nil in Heq.
        destruct Heq as [-> _]. now elim Hpre.
      * destruct (valid_entry_names _ _ Hv) as [Hd Hf]. simpl. split; [|exact Hf].
        unfold valid in *. rewrite Forall_forall in *. intros n Hn.
        apply filter_In in Hn. now apply Hd.
    + apply in_flat_map in Hin. destruct Hin as [c [Hc Hin]].
      destruct (valid_names_children _ _ Hv c Hc) as [Hn Hvc].
      destruct (existsb _ _) eqn:Hex; [|destruct Hin].
      apply existsb_exists in Hex. destruct Hex as [d [Hd Heq]].
      apply String.eqb_eq in Heq. subst d.
      apply filter_In in Hd. destruct Hd as [_ Hp].
      rewrite Forall_forall in IH.
      destruct (IH c Hc _ _ Hvc Hin) as (ns & Hns & Hpath & Hpass & Hdn & Hfn).
      exists (node_name c :: ns). split; [now constructor|].
      split; [exact Hpath|]. split; [|now split].
      intros pre suf Heq Hpre. destruct pre as [|p pre]; [now elim Hpre|].
      injection Heq as <- Heq. rewrite join_cons.
      destruct pre as [|p' pre].
      * simpl. unfold passes_b in Hp.
        destruct (should_process E (PosixPath.join2 dirpath (node_name c)) root_dir
                                 include_patterns ignore_patterns) as [[|]|e];
          [reflexivity|discriminate|discriminate].
      * apply (Hpass _ _ Heq). discriminate.
Qed.

(** A path below a rejected directory is neither a visited directory nor a
    child of one. *)
Lemma pruned_not_reached (nsP ms ns : list string) :
  root_dir <> EmptyString ->
  valid nsP -> nsP <> [] ->
  should_process E (PosixPath.join root_dir nsP) root_dir include_patterns ignore_patterns
  = Ok false ->
  valid ms -> ms <> [] ->
  valid ns -> all_pass E root_dir include_patterns ignore_patterns root_dir ns ->
  PosixPath.join root_dir (nsP ++ ms)%list <> PosixPath.join root_dir ns
  /\ forall n, valid_name n = true ->
               PosixPath.join root_dir (nsP ++ ms)%list
               <> PosixPath.join2 (PosixPath.join root_dir ns) n.
Proof.
  intros Hne HvP HnP Hrej Hvm Hnm Hvn Hpass.
  assert (Hprefix : forall rest, ns = (nsP ++ rest)%list -> False).
  { intros rest Heq. rewrite (Hpass _ _ Heq HnP) in Hrej. discriminate Hrej. }
  split.
  - intros Heq. apply join_inj in Heq; [|exact Hne|now apply Forall_app|exact Hvn].
    exact (Hprefix ms (eq_sym Heq)).
  - intros n Hn Heq.
    change (PosixPath.join2 (PosixPath.join root_dir ns) n)
      with (PosixPath.join (PosixPath.join root_dir ns) [n]) in Heq.
    rewrite <- join_app in Heq.
    apply join_inj in Heq; [|exact Hne|now apply Forall_app|].
    2:{ apply Forall_app. split; [exact Hvn|now constructor]. }
    destruct (exists_last Hnm) as (ms' & x & ->).
    rewrite app_assoc in Heq. apply app_inj_tail in Heq. destruct Heq as [Heq _].
    exact (Hprefix ms' (eq_sym Heq)).
Qed.

End Pruning.

Lemma content_paths_visited E root_dir inc ign api pp q :
  In q (content_paths (process_all_python_files E root_dir inc ign api pp)) ->
  exists t f, In t (visits E root_dir inc ign) /\ In f (snd t)
              /\ q = PosixPath.join2 (fst (fst t)) f.
Proof.
  unfold content_paths. intros H. apply in_flat_map in H. destruct H as [record [Hr Hq]].
  apply records_cases in Hr. unfold all_file_records in Hr.
  apply in_flat_map in Hr. destruct Hr as [t [Ht Hr]].
  apply in_flat_map in Hr. destruct Hr as [f [Hf Hr]].
  apply file_records_shape in Hr. destruct Hr as (_ & Hp & _).
  rewrite Hp in Hq. destruct Hq as [<-|[]]. now exists t, f.
Qed.

Lemma tree_record_paths_directory E root_dir inc ign dirpath names q :
  In q (tree_record_paths (directory_record E root_dir inc ign dirpath names)) ->
  q = dirpath \/ exists n, In n names /\ q = PosixPath.join2 dirpath n.
Proof.
  unfold directory_record. cbn [tree_record_paths Py.assoc String.eqb Ascii.eqb Bool.eqb].
  intros [<-|H]; [now left|]. right.
  apply in_flat_map in H. destruct H as [item [Hi Hq]].
  apply in_map_iff in Hi. destruct Hi as [n [<- Hn]].
  apply filter_In in Hn. destruct Hn as [Hn _]. exists n. split; [exact Hn|].
  unfold entry_record in Hq.
  destruct (stat_entry E (PosixPath.join2 dirpath n)) as [[permissions owner]|e].
  - destruct Hq as [<-|[]]. reflexivity.
  - destruct Hq.
Qed.

Lemma tree_paths_visited E root_dir inc ign q :
  In q (tree_paths (generate_tree_view E root_dir inc ign)) ->
  exists t, In t (visits E root_dir inc ign)
            /\ (q = fst (fst t)
                \/ exists n, In n (snd (fst t) ++ snd t)%list
                             /\ q = PosixPath.join2 (fst (fst t)) n).
Proof.
  unfold tree_paths, records. intros H.
  destruct (cases_generate_tree_view E root_dir inc ign) as [[Hj _]|[Hj _]];
    simpl in Hj; rewrite Hj in H; [destruct H|].
  apply in_flat_map in H. destruct H as [record [Hr Hq]].
  unfold all_directory_records in Hr. apply in_map_iff in Hr.
  destruct Hr as [t [<- Ht]]. exists t. split; [exact Ht|].
  now apply tree_record_paths_directory in Hq.
Qed.

(** C2: in a tree whose entries have the names an enumeration can yield,
    no path below a subdirectory that the matcher rejects appears in the
    JSON document of the content report (as the path of a record) or of the
    tree report (as a directory or as a listed child), whether or not the
    matcher would accept that path; and the loop body never runs for the
    rejected directory or for a directory below it. *)
Theorem pruned_subtree_not_reported :
  forall E root_dir include_patterns ignore_patterns api_key partial_prompt entries P d q,
    root_dir <> EmptyString ->
    scandir_tree E root_dir = Some entries ->
    valid_names (Dir root_dir entries) = true ->
    In (P, d) (subdirs root_dir (Dir root_dir entries)) ->
    should_process E P root_dir include_patterns ignore_patterns = Ok false ->
    In q (paths_below P d) ->
    ~ In q (content_paths (process_all_python_files E root_dir include_patterns ignore_patterns
                                                    api_key partial_prompt))
    /\ ~ In q (tree_paths (generate_tree_view E root_dir include_patterns ignore_patterns))
    /\ ~ In P (visited_dirs E root_dir include_patterns ignore_patterns)
    /\ ~ In q (visited_dirs E root_dir include_patterns ignore_patterns).
Proof.
  intros E root_dir inc ign api pp entries P d q Hne Hscan Hv HP Hrej Hq.
  destruct (subdirs_names _ _ _ _ Hv HP) as (nsP & HnP & HvP & -> & Hvd).
  destruct (paths_below_names _ _ _ Hvd Hq) as (ms & Hnm & Hvm & ->).
  rewrite <- join_app.
  assert (Hvisit : forall t, In t (visits E root_dir inc ign) ->
             PosixPath.join root_dir (nsP ++ ms)%list <> fst (fst t)
             /\ forall n, In n (snd (fst t) ++ snd t)%list ->
                          PosixPath.join root_dir (nsP ++ ms)%list
                          <> PosixPath.join2 (fst (fst t)) n).
  { intros t Ht. unfold visits in Ht. rewrite Hscan in Ht.
    destruct (visited_reached _ _ _ _ _ _ _ Hv Ht) as (ns & Hns & Hpath & Hpass & Hdn & Hfn).
    rewrite Hpath.
    destruct (@pruned_not_reached E root_dir inc ign nsP ms ns
                                  Hne HvP HnP Hrej Hvm Hnm Hns Hpass) as [H1 H2].
    split; [exact H1|]. intros n Hn. apply H2.
    apply in_app_or in Hn. unfold valid in Hdn, Hfn. rewrite Forall_forall in Hdn, Hfn.
    destruct Hn as [Hn|Hn]; [now apply Hdn|now apply Hfn]. }
  repeat split; intros Hin.
  - apply content_paths_visited in Hin. destruct Hin as (t & f & Ht & Hf & Heq).
    destruct (Hvisit t Ht) as [_ H2]. apply (H2 f); [|exact Heq].
    apply in_or_app. now right.
  - apply tree_paths_visited in Hin. destruct Hin as (t & Ht & [Heq|(n & Hn & Heq)]);
      destruct (Hvisit t Ht) as [H1 H2].
    + exact (H1 Heq).
    + exact (H2 n Hn Heq).
  - unfold visited_dirs in Hin. apply in_map_iff in Hin. destruct Hin as (t & Heq & Ht).
    unfold visits in Ht. rewrite Hscan in Ht.
    apply (visited_dirpaths_pass E root_dir inc ign (Dir root_dir entries) root_dir
                                 (should_process_root E inc ign Hne)) in Ht.
    rewrite Heq, Hrej in Ht. discriminate Ht.
  - unfold visited_dirs in Hin. apply in_map_iff in Hin. destruct Hin as (t & Heq & Ht).
    destruct (Hvisit t Ht) as [H1 _]. exact (H1 (eq_sym Heq)).
Qed.

Lemma pruned_subtree_not_reported_witness :
  should_process (demo_env demo_tree no_network no_vars) "proj/venv/lib.py" "proj" []
                 default_ignore_patterns = Ok true
  /\ ~ In "proj/venv/lib.py"
          (content_paths (process_all_python_files (demo_env demo_tree no_network no_vars)
                                                   "proj" [] default_ignore_patterns None None))
  /\ ~ In "proj/venv/lib.py"
          (tree_paths (generate_tree_view (demo_env demo_tree no_network no_vars)
                                          "proj" [] default_ignore_patterns))
  /\ ~ In "proj/venv"
          (visited_dirs (demo_env demo_tree no_network no_vars) "proj" [] default_ignore_patterns)
  /\ ~ In "proj/venv/lib.py"
          (visited_dirs (demo_env demo_tree no_network no_vars) "proj" [] default_ignore_patterns).
Proof.
  split; [reflexivity|].
  apply (@pruned_subtree_not_reported
           (demo_env demo_tree no_network no_vars) "proj" [] default_ignore_patterns None None
           demo_tree "proj/venv" (Dir "venv" [File "lib.py"]) "proj/venv/lib.py").
  - discriminate.
  - reflexivity.
  - reflexivity.
  - simpl. right. right. left. reflexivity.
  - reflexivity.
  - simpl. left. reflexivity.
Defined.

(** ** When the reports run to their end *)

Lemma for_each_runs (A : Type) (body : A -> M unit) (l : list A) :
  (forall x, In x l -> forall s, exists s', body x s = (Ok tt, s')) ->
  forall s, exists s', for_each body l s = (Ok tt, s').
Proof.
  induction l as [|x l IH]; intros H s; simpl.
  - now exists s.
  - unfold bind. destruct (H x (or_introl eq_refl) s) as [s1 ->].
    apply IH. intros y Hy. apply H. now right.
Qed.

Lemma should_process_ok_nonempty E path root_dir inc ign b :
  should_process E path root_dir inc ign = Ok b -> path <> EmptyString.
Proof. intros H ->. discriminate H. Qed.

Section Completion.

Variable E : Env.
Variable root_dir : string.
Variables include_patterns ignore_patterns : list string.

Lemma loop_over_visits_runs (body : string -> list string -> list string -> M unit) :
  (forall dirpath dirnames filenames s,
      should_process E dirpath root_dir include_patterns ignore_patterns = Ok true ->
      exists s', body dirpath dirnames filenames s = (Ok tt, s')) ->
  (root_dir <> EmptyString \/ scandir_tree E root_dir = None) ->
  forall s, exists s',
      os_walk E root_dir include_patterns ignore_patterns body s = (Ok tt, s').
Proof.
  intros Hbody Hroot s. unfold os_walk.
  destruct (scandir_tree E root_dir) as [entries|] eqn:Hscan; [|now exists s].
  destruct Hroot as [Hne|Hnone]; [|discriminate Hnone].
  rewrite walk_as_loop by exact Hne.
  apply for_each_runs. intros t Ht s1. apply Hbody.
  eapply visited_dirpaths_pass; [|exact Ht]. now apply should_process_root.
Qed.

(** Without an API key, and when a file that cannot be read fails with an
    [OSError], the content report writes its JSON document if the two output
    files can be opened. *)
Lemma content_report_completes (api_key partial_prompt : option string) :
  Py.truthy api_key = false ->
  (forall path e, read_text E path = Err e -> Py.is_OSError e = true) ->
  (forall name, open_write E name = Ok tt) ->
  (root_dir <> EmptyString \/ scandir_tree E root_dir = None) ->
  let r := process_all_python_files E root_dir include_patterns ignore_patterns
                                    api_key partial_prompt in
  rep_raised r = None /\ exists items, rep_json r = Some (JArr items).
Proof.
  intros Hkey Hread Hopen Hroot.
  assert (Hfile : forall dirpath filename s,
             dirpath <> EmptyString ->
             exists s', process_file E root_dir include_patterns ignore_patterns
                                     api_key partial_prompt dirpath filename s = (Ok tt, s')).
  { intros dirpath filename s Hne. unfold process_file, passes.
    destruct (should_process_total E root_dir include_patterns ignore_patterns
                                   (join2_nonempty filename Hne)) as [b ->].
    cbv beta iota zeta delta [bind lift ret raise logging].
    destruct b; cbn [negb]; [|eexists; reflexivity].
    destruct (Str.endswith filename ".py"); [|eexists; reflexivity].
    destruct (read_text E _) as [file_content|e] eqn:Hr.
    - destruct api_key as [key|]; [simpl in Hkey; rewrite Hkey|];
        cbv beta iota delta [write append_data]; eexists; reflexivity.
    - rewrite (Hread _ _ Hr). eexists; reflexivity. }
  unfold process_all_python_files, run_report. rewrite !Hopen.
  destruct (loop_over_visits_runs
              (python_body E root_dir include_patterns ignore_patterns api_key partial_prompt))
    with (s := initial_state) as [s' ->].
  - intros dirpath dirnames filenames s Hd. unfold python_body, passes. rewrite Hd.
    cbv beta iota delta [bind lift ret negb].
    apply for_each_runs. intros f _ s1. apply Hfile.
    exact (@should_process_ok_nonempty _ _ _ _ _ _ Hd).
  - exact Hroot.
  - simpl. split; [reflexivity|]. eexists. reflexivity.
Qed.

Lemma fold_each_runs (A B : Type) (body : list B -> A -> M (list B)) (l : list A) :
  (forall acc x s, exists acc' s', body acc x s = (Ok acc', s')) ->
  forall acc s, exists acc' s', fold_each body l acc s = (Ok acc', s').
Proof.
  intros H. induction l as [|x l IH]; intros acc s; simpl.
  - now exists acc, s.
  - unfold bind. destruct (H acc x s) as (acc1 & s1 & ->). apply IH.
Qed.

(** When a status or owner lookup only fails because the entry is gone or
    may not be read, the tree report runs to its end if the two output files
    can be opened. *)
Lemma tree_report_completes :
  (forall path e, stat_entry E path = Err e ->
                  exn_kind_of e = FileNotFoundError \/ exn_kind_of e = PermissionError) ->
  (forall name, open_write E name = Ok tt) ->
  (root_dir <> EmptyString \/ scandir_tree E root_dir = None) ->
  rep_raised (generate_tree_view E root_dir include_patterns ignore_patterns) = None.
Proof.
  intros Hstat Hopen Hroot.
  assert (Hentry : forall dirpath contents name s,
             dirpath <> EmptyString ->
             exists contents' s',
               list_entry E root_dir include_patterns ignore_patterns dirpath contents name s
               = (Ok contents', s')).
  { intros dirpath contents name s Hne. unfold list_entry, passes.
    destruct (should_process_total E root_dir include_patterns ignore_patterns
                                   (join2_nonempty name Hne)) as [b ->].
    cbv beta iota delta [bind lift ret raise logging].
    destruct b; cbn [negb]; [|eexists; eexists; reflexivity].
    destruct (stat_entry E _) as [[permissions owner]|e] eqn:Hs.
    - cbv beta iota delta [write]. eexists; eexists; reflexivity.
    - destruct (Hstat _ _ Hs) as [-> | ->]; eexists; eexists; reflexivity. }
  unfold generate_tree_view, run_report. rewrite !Hopen.
  destruct (loop_over_visits_runs
              (tree_body E root_dir include_patterns ignore_patterns))
    with (s := initial_state) as [s' ->].
  - intros dirpath dirnames filenames s Hd. unfold tree_body, passes. rewrite Hd.
    cbv beta iota delta [bind lift ret negb write].
    match goal with
    | |- context [fold_each ?b0 ?l0 ?a0 ?st0] =>
        destruct (@fold_each_runs _ _ b0 l0) with (acc := a0) (s := st0) as (c & s1 & ->)
    end.
    + intros acc x s0. apply Hentry. exact (@should_process_ok_nonempty _ _ _ _ _ _ Hd).
    + cbv beta iota delta [append_data]. eexists. reflexivity.
  - exact Hroot.
  - reflexivity.
Qed.

End Completion.

(** * Further properties of the code *)

(** ** [should_process] *)

(** X1: for a path other than the scan root, [should_process] returns [True]
    exactly when the include list is empty or one of its patterns matches
    (the relative path or the base name), and no ignore pattern matches; so
    a non-empty include list rejects every path that matches none of its
    patterns. *)
Theorem should_process_accepts_iff :
  forall E path root_dir include_patterns ignore_patterns rel_path,
    PosixPath.relpath (getcwd E) path root_dir = Ok rel_path ->
    rel_path <> "." ->
    (should_process E path root_dir include_patterns ignore_patterns = Ok true <->
     (include_patterns = []
      \/ glob_matches_any E rel_path (PosixPath.basename path) include_patterns)
     /\ ~ glob_matches_any E rel_path (PosixPath.basename path) ignore_patterns)
    /\ (include_patterns <> [] ->
        ~ glob_matches_any E rel_path (PosixPath.basename path) include_patterns ->
        should_process E path root_dir include_patterns ignore_patterns = Ok false).
Proof.
  intros E path root_dir inc ign rel Hrel Hroot.
  unfold should_process. rewrite Hrel.
  destruct (String.eqb_spec rel ".") as [Heq|_]; [contradiction|].
  pose proof (existsb_pattern_hits E rel (PosixPath.basename path) inc) as Hinc.
  pose proof (existsb_pattern_hits E rel (PosixPath.basename path) ign) as Hign.
  assert (Hno : forall patterns,
             existsb (pattern_hits E rel (PosixPath.basename path)) patterns = false ->
             ~ glob_matches_any E rel (PosixPath.basename path) patterns).
  { intros patterns Hf Hg. apply existsb_pattern_hits in Hg. congruence. }
  destruct inc as [|p inc].
  - cbn [existsb andb].
    destruct (existsb _ ign) eqn:Eign.
    + split; [split|].
      * intros H; discriminate H.
      * intros [_ Hn]. exfalso. apply Hn, Hign. reflexivity.
      * intros Hne. now elim Hne.
    + split; [split|].
      * intros _. split; [now left|now apply Hno].
      * reflexivity.
      * intros Hne. now elim Hne.
  - cbn [andb].
    destruct (existsb _ (p :: inc)) eqn:Einc; cbn [negb].
    + assert (Gi : glob_matches_any E rel (PosixPath.basename path) (p :: inc))
        by (apply Hinc; reflexivity).
      destruct (existsb _ ign) eqn:Eign.
      * split; [split|].
        -- intros H; discriminate H.
        -- intros [_ Hn]. exfalso. apply Hn, Hign. reflexivity.
        -- intros _ Hn. reflexivity.
      * split; [split|].
        -- intros _. split; [now right|now apply Hno].
        -- reflexivity.
        -- intros _ Hn. contradiction.
    + split; [split|].
      * intros H; discriminate H.
      * intros [[H|H] _]; [discriminate H|]. exfalso. exact (Hno _ Einc H).
      * reflexivity.
Qed.

Lemma should_process_accepts_iff_witness :
  should_process (demo_env [] no_network no_vars) "proj/src/a.txt" "proj" ["*.py"] [] = Ok false
  /\ should_process (demo_env [] no_network no_vars) "proj/src/a.py" "proj" ["*.py"] ["venv"]
     = Ok true.
Proof.
  split.
  - apply (@should_process_accepts_iff (demo_env [] no_network no_vars)
             "proj/src/a.txt" "proj" ["*.py"] [] "src/a.txt");
      [reflexivity|discriminate|discriminate|].
    intros [p [[<-|[]] [H|H]]]; discriminate H.
  - apply (@should_process_accepts_iff (demo_env [] no_network no_vars)
             "proj/src/a.py" "proj" ["*.py"] ["venv"] "src/a.py");
      [reflexivity|discriminate|].
    split.
    + right. exists "*.py". split; [left; reflexivity|left; reflexivity].
    + intros [p [[<-|[]] [H|H]]]; discriminate H.
Defined.

(** X2: [should_process] raises, a [ValueError], exactly when the path is the
    empty string; on every other path it returns a truth value, whatever the
    root and the patterns. *)
Theorem should_process_raises_iff_empty :
  forall E path root_dir include_patterns ignore_patterns,
    (path = EmptyString ->
     should_process E path root_dir include_patterns ignore_patterns
     = Err (Exn ValueError "no path specified"))
    /\ (path <> EmptyString ->
        exists b, should_process E path root_dir include_patterns ignore_patterns = Ok b).
Proof.
  intros E path root_dir inc ign. split.
  - intros ->. reflexivity.
  - apply should_process_total.
Qed.

Lemma should_process_raises_iff_empty_witness :
  should_process (demo_env [] no_network no_vars) EmptyString "proj" [] default_ignore_patterns
  = Err (Exn ValueError "no path specified")
  /\ exists b, should_process (demo_env [] no_network no_vars) "proj/a.py" "proj" ["*.py"]
                              default_ignore_patterns = Ok b.
Proof.
  split.
  - apply (proj1 (@should_process_raises_iff_empty
                    (demo_env [] no_network no_vars) EmptyString "proj" []
                    default_ignore_patterns)).
    reflexivity.
  - apply (proj2 (@should_process_raises_iff_empty
                    (demo_env [] no_network no_vars) "proj/a.py" "proj" ["*.py"]
                    default_ignore_patterns)).
    discriminate.
Defined.

(** X3: more ignore patterns never accept more, and more include patterns
    added to an include list that is not empty never accept less. *)
Theorem should_process_monotone :
  forall E path root_dir include_patterns ignore_patterns more,
    (should_process E path root_dir include_patterns (ignore_patterns ++ more)%list = Ok true ->
     should_process E path root_dir include_patterns ignore_patterns = Ok true)
    /\ (include_patterns <> [] ->
        should_process E path root_dir include_patterns ignore_patterns = Ok true ->
        should_process E path root_dir (include_patterns ++ more)%list ignore_patterns = Ok true).
Proof.
  intros E path root_dir inc ign more. unfold should_process.
  destruct (PosixPath.relpath (getcwd E) path root_dir) as [rel|e];
    [|split; [|intros _]; intros H; discriminate H].
  destruct (String.eqb rel "."); [split; [|intros _]; intros _; reflexivity|].
  rewrite !existsb_app. split.
  - destruct (match inc with [] => false | _ => true end && _); [intros H; discriminate H|].
    destruct (existsb _ ign); [|reflexivity].
    intros H; discriminate H.
  - intros Hne. destruct inc as [|p inc]; [now elim Hne|]. cbn [app andb].
    destruct (existsb _ (p :: inc)); cbn [negb orb]; [trivial|].
    intros H; discriminate H.
Qed.

Lemma should_process_monotone_witness :
  should_process (demo_env [] no_network no_vars) "proj/a.py" "proj" ["*.py"] [".*"] = Ok true
  /\ should_process (demo_env [] no_network no_vars) "proj/a.py" "proj" ["*.py"; "src"] [".*"; "venv"]
     = Ok true.
Proof.
  assert (H : should_process (demo_env [] no_network no_vars) "proj/a.py" "proj"
                             ["*.py"] ([".*"] ++ ["venv"]) = Ok true) by reflexivity.
  split.
  - exact (proj1 (@should_process_monotone (demo_env [] no_network no_vars) "proj/a.py" "proj"
                                           ["*.py"] [".*"] ["venv"]) H).
  - apply (proj2 (@should_process_monotone (demo_env [] no_network no_vars) "proj/a.py" "proj"
                                           ["*.py"] [".*"; "venv"] ["src"]));
      [discriminate|reflexivity].
Defined.

(** ** [get_file_description] *)

Lemma rstrip_idempotent (s : string) : Str.rstrip (Str.rstrip s) = Str.rstrip s.
Proof.
  induction s as [|a s IH]; [reflexivity|].
  cbn [Str.rstrip]. destruct (Str.rstrip s) as [|b r] eqn:Hr.
  - destruct (Str.isspace a) eqn:Ha; [reflexivity|].
    cbn [Str.rstrip]. now rewrite Ha.
  - change (Str.rstrip (String a (String b r)))
      with (match Str.rstrip (String b r) with
            | EmptyString => if Str.isspace a then EmptyString else String a EmptyString
            | String c r' => String a (String c r')
            end).
    now rewrite IH.
Qed.

Lemma lstrip_head (s : string) :
  Str.lstrip s = EmptyString
  \/ exists a t, Str.lstrip s = String a t /\ Str.isspace a = false.
Proof.
  induction s as [|a s IH]; [now left|].
  cbn [Str.lstrip]. destruct (Str.isspace a) eqn:Ha; [exact IH|].
  right. now exists a, s.
Qed.

Lemma rstrip_keeps_head (a : ascii) (t : string) :
  Str.isspace a = false -> exists r, Str.rstrip (String a t) = String a r.
Proof.
  intros Ha. cbn [Str.rstrip]. destruct (Str.rstrip t) as [|b r].
  - rewrite Ha. now exists EmptyString.
  - now exists (String b r).
Qed.

(** [s.strip().strip() == s.strip()] *)
Lemma strip_idempotent (s : string) : Str.strip (Str.strip s) = Str.strip s.
Proof.
  unfold Str.strip. destruct (lstrip_head s) as [->|(a & t & -> & Ha)]; [reflexivity|].
  destruct (@rstrip_keeps_head a t Ha) as [r Hr].
  assert (Hl : Str.lstrip (Str.rstrip (String a t)) = Str.rstrip (String a t)).
  { rewrite Hr. cbn [Str.lstrip]. now rewrite Ha. }
  rewrite Hl. apply rstrip_idempotent.
Qed.

Lemma fetch_description_shape E req d u :
  fetch_description E req = Ok (d, u) ->
  Str.strip d = d /\ keys u = usage_keys.
Proof.
  unfold fetch_description, result_bind.
  destruct (requests_post E req) as [resp|e]; [|discriminate].
  destruct (Requests.raise_for_status (req_url req) resp) as [[]|e]; [|discriminate].
  destruct (response_json resp) as [data|e]; [|discriminate].
  destruct (Py.getitem data "choices") as [choices|e]; [|discriminate].
  destruct (Py.getindex choices 0) as [choice|e]; [|discriminate].
  destruct (Py.getitem choice "message") as [message|e]; [|discriminate].
  destruct (Py.getitem message "content") as [content|e]; [|discriminate].
  destruct (Py.strip content) as [description|e] eqn:Hs; [|discriminate].
  destruct (Py.get data "usage" (JObj [])) as [usage|e]; [|discriminate].
  destruct (Py.get usage "prompt_tokens" (JInt 0)) as [p|e]; [|discriminate].
  destruct (Py.get usage "completion_tokens" (JInt 0)) as [c|e]; [|discriminate].
  destruct (Py.get usage "total_tokens" (JInt 0)) as [t|e]; [|discriminate].
  intros H. injection H as <- <-. split; [|reflexivity].
  destruct content; try discriminate Hs. injection Hs as <-. apply strip_idempotent.
Qed.

(** X4: [get_file_description] never touches the transcript or the records.
    When it returns, the description has no white space around it, and
    either the usage has exactly the three token counts and nothing was
    logged, or the description is the fallback, the usage is empty and one
    ERROR record was logged.  When it raises, the exception is one no
    [except] clause names and nothing was logged. *)
Theorem get_file_description_outcome :
  forall E file_content key partial_prompt s,
    match get_file_description E file_content key partial_prompt s with
    | (Ok (description, usage), s') =>
        output_txt s' = output_txt s /\ data s' = data s
        /\ Str.strip description = description
        /\ ((keys usage = usage_keys /\ log s' = log s)
            \/ (description = fallback_description /\ usage = JObj []
                /\ exists msg, log s' = (log s ++ [(ERROR, msg)])%list))
    | (Err e, s') => s' = s /\ handled_by_description e = false
    end.
Proof.
  intros E file_content key partial_prompt s. unfold get_file_description.
  destruct (fetch_description E _) as [[d u]|e] eqn:Hf.
  - apply fetch_description_shape in Hf. destruct Hf as [Hd Hu].
    cbn. repeat split; auto.
  - unfold handled_by_description.
    destruct (exn_kind_of e) eqn:Hk;
      cbv beta iota zeta delta [bind ret raise logging];
      try (rewrite Hk; split; reflexivity);
      (split; [reflexivity|]; split; [reflexivity|]; split; [reflexivity|];
       right; split; [reflexivity|]; split; [reflexivity|]; eexists; reflexivity).
Qed.

(** X5: an answer with a status from 400 to 599 gives the fallback
    description and one ERROR record that starts with "HTTP error", whatever
    the body of the answer is; the body is not read. *)
Theorem http_error_status_gives_fallback :
  forall E file_content key partial_prompt resp s,
    requests_post E (description_request file_content key partial_prompt) = Ok resp ->
    400 <= status_code resp < 600 ->
    exists text,
      let message := "HTTP error occurred while fetching description: " ++ text in
      get_file_description E file_content key partial_prompt s
      = (Ok (fallback_description, JObj []),
         {| log := (log s ++ [(ERROR, message)])%list;
            output_txt := output_txt s;
            data := data s |}).
Proof.
  intros E file_content key partial_prompt resp s Hpost [Hlo Hhi].
  unfold get_file_description, fetch_description, result_bind. rewrite Hpost.
  unfold Requests.raise_for_status.
  destruct (Nat.leb 400 (status_code resp) && Nat.ltb (status_code resp) 500) eqn:H4.
  - eexists. reflexivity.
  - assert (H5 : Nat.leb 500 (status_code resp) && Nat.ltb (status_code resp) 600 = true).
    { apply andb_false_iff in H4. apply andb_true_iff. split.
      - apply Nat.leb_le. destruct H4 as [H4|H4].
        + apply Nat.leb_gt in H4. lia.
        + apply Nat.ltb_ge in H4. exact H4.
      - now apply Nat.ltb_lt. }
    rewrite H5. eexists. reflexivity.
Qed.

Lemma http_error_status_gives_fallback_witness :
  fst (get_file_description
         (demo_env [] (answering_status 503 "Service Unavailable" (described_as "never read")) no_vars)
         "x=1" "sk-test" None initial_state)
  = Ok (fallback_description, JObj []).
Proof.
  destruct (@http_error_status_gives_fallback
              (demo_env [] (answering_status 503 "Service Unavailable" (described_as "never read")) no_vars)
              "x=1" "sk-test" None
              {| status_code := 503; reason := "Service Unavailable";
                 response_json := Ok (described_as "never read") |}
              initial_state eq_refl) as [text H].
  - cbn [status_code]. lia.
  - rewrite H. reflexivity.
Defined.

Lemma raise_for_status_ok url resp :
  status_code resp < 400 \/ 600 <= status_code resp ->
  Requests.raise_for_status url resp = Ok tt.
Proof.
  intros H. unfold Requests.raise_for_status.
  assert (H4 : Nat.leb 400 (status_code resp) && Nat.ltb (status_code resp) 500 = false).
  { apply andb_false_iff. destruct H as [H|H].
    - left. apply Nat.leb_gt. exact H.
    - right. apply Nat.ltb_ge. lia. }
  assert (H5 : Nat.leb 500 (status_code resp) && Nat.ltb (status_code resp) 600 = false).
  { apply andb_false_iff. destruct H as [H|H].
    - left. apply Nat.leb_gt. lia.
    - right. apply Nat.ltb_ge. exact H. }
  cbv zeta. rewrite H4, H5. reflexivity.
Qed.

Lemma fetch_description_answer E req resp fields d :
  requests_post E req = Ok resp ->
  status_code resp < 400 \/ 600 <= status_code resp ->
  response_json resp = Ok (JObj fields) ->
  extract_description (JObj fields) = Ok d ->
  fetch_description E req
  = let? usage := Py.get (JObj fields) "usage" (JObj []) in
    let? prompt_tokens := Py.get usage "prompt_tokens" (JInt 0) in
    let? completion_tokens := Py.get usage "completion_tokens" (JInt 0) in
    let? total_tokens := Py.get usage "total_tokens" (JInt 0) in
    Ok (d, JObj [("prompt_tokens", prompt_tokens);
                 ("completion_tokens", completion_tokens);
                 ("total_tokens", total_tokens)]).
Proof.
  intros Hpost Hstatus Hjson Hd. unfold fetch_description.
  rewrite Hpost. unfold result_bind at 1.
  rewrite (@raise_for_status_ok _ _ Hstatus). unfold result_bind at 1.
  rewrite Hjson. unfold result_bind at 1.
  revert Hd. unfold extract_description, result_bind.
  destruct (Py.getitem (JObj fields) "choices") as [choices|e]; [|discriminate].
  destruct (Py.getindex choices 0) as [choice|e]; [|discriminate].
  destruct (Py.getitem choice "message") as [message|e]; [|discriminate].
  destruct (Py.getitem message "content") as [content|e]; [|discriminate].
  intros ->. reflexivity.
Qed.

(** X6: the token usage of a well-formed answer.  Without a "usage" field
    the three counts are 0; with a "usage" object each count is the value
    under its key, or 0 when the key is missing; a "usage" that is no object
    makes [get_file_description] raise an AttributeError, which no [except]
    clause catches. *)
Theorem usage_of_answer :
  forall E file_content key partial_prompt resp fields d s,
    requests_post E (description_request file_content key partial_prompt) = Ok resp ->
    status_code resp < 400 \/ 600 <= status_code resp ->
    response_json resp = Ok (JObj fields) ->
    extract_description (JObj fields) = Ok d ->
    match Py.assoc "usage" fields with
    | None =>
        get_file_description E file_content key partial_prompt s
        = (Ok (d, JObj [("prompt_tokens", JInt 0);
                        ("completion_tokens", JInt 0);
                        ("total_tokens", JInt 0)]), s)
    | Some (JObj usage) =>
        get_file_description E file_content key partial_prompt s
        = (Ok (d, JObj [("prompt_tokens", usage_count usage "prompt_tokens");
                        ("completion_tokens", usage_count usage "completion_tokens");
                        ("total_tokens", usage_count usage "total_tokens")]), s)
    | Some _ =>
        exists e,
          get_file_description E file_content key partial_prompt s = (Err e, s)
          /\ exn_kind_of e = AttributeError
    end.
Proof.
  intros E file_content key partial_prompt resp fields d s Hpost Hstatus Hjson Hd.
  unfold get_file_description.
  rewrite (@fetch_description_answer _ _ _ _ _ Hpost Hstatus Hjson Hd).
  change (Py.get (JObj fields) "usage" (JObj []))
    with (match Py.assoc "usage" fields with Some v => Ok v | None => Ok (JObj []) end).
  destruct (Py.assoc "usage" fields) as [usage|]; [|reflexivity].
  destruct usage as [| | | | | |usage];
    try (eexists; split; reflexivity).
  unfold Py.get, result_bind, usage_count.
  destruct (Py.assoc "prompt_tokens" usage);
    destruct (Py.assoc "completion_tokens" usage);
    destruct (Py.assoc "total_tokens" usage); reflexivity.
Qed.

Lemma usage_of_answer_witness :
  get_file_description
    (demo_env [] (answering_status 200 "OK" (described_as " A module. ")) no_vars)
    "x=1" "sk-test" None initial_state
  = (Ok ("A module.", JObj [("prompt_tokens", JInt 0);
                           ("completion_tokens", JInt 0);
                           ("total_tokens", JInt 0)]), initial_state).
Proof.
  apply (@usage_of_answer
           (demo_env [] (answering_status 200 "OK" (described_as " A module. ")) no_vars)
           "x=1" "sk-test" None
           {| status_code := 200; reason := "OK";
              response_json := Ok (described_as " A module. ") |}
           [("choices", JArr [JObj [("message", JObj [("content", JStr " A module. ")])]])]
           "A module." initial_state).
  - reflexivity.
  - left. cbn [status_code]. lia.
  - reflexivity.
  - reflexivity.
Defined.

(** ** The content report *)

Lemma first_failure_map (A B : Type) (failure : B -> option exn) (h : A -> B) (l : list A) :
  first_failure failure (map h l) = first_failure (fun x => failure (h x)) l.
Proof.
  induction l as [|x l IH]; [reflexivity|].
  cbn [map first_failure]. now rewrite IH.
Qed.

Lemma first_failure_app (A : Type) (failure : A -> option exn) (l1 l2 : list A) :
  first_failure failure (l1 ++ l2)%list
  = match first_failure failure l1 with
    | Some e => Some e
    | None => first_failure failure l2
    end.
Proof.
  induction l1 as [|x l1 IH]; [reflexivity|].
  cbn [app first_failure]. destruct (failure x); [reflexivity|exact IH].
Qed.

Lemma first_failure_flat_map (A B : Type) (failure : B -> option exn) (h : A -> list B)
      (l : list A) :
  first_failure failure (flat_map h l)
  = first_failure (fun x => first_failure failure (h x)) l.
Proof.
  induction l as [|x l IH]; [reflexivity|].
  cbn [flat_map first_failure]. rewrite first_failure_app, IH. reflexivity.
Qed.

Lemma first_failure_none (A : Type) (failure : A -> option exn) (l : list A) :
  first_failure failure l = None <-> forall x, In x l -> failure x = None.
Proof.
  induction l as [|x l IH]; cbn [first_failure].
  - split; [intros _ x []|reflexivity].
  - destruct (failure x) eqn:Hx.
    + split; [discriminate|]. intros H. rewrite <- Hx. apply H. now left.
    + rewrite IH. split.
      * intros H y [<-|Hy]; [exact Hx|now apply H].
      * intros H y Hy. apply H. now right.
Qed.

(** The result of a loop whose body gives a result that does not depend on
    the state. *)
Lemma for_each_first_failure (A : Type) (body : A -> M unit) (failure : A -> option exn)
      (l : list A) :
  (forall x, In x l -> forall s,
        fst (body x s) = match failure x with Some e => Err e | None => Ok tt end) ->
  forall s, fst (for_each body l s)
            = match first_failure failure l with Some e => Err e | None => Ok tt end.
Proof.
  induction l as [|x l IH]; intros H s; [reflexivity|].
  cbn [for_each first_failure]. unfold bind.
  pose proof (H x (or_introl eq_refl) s) as Hx.
  destruct (body x s) as [[[]|e] s1]; destruct (failure x); cbn [fst] in Hx;
    try discriminate Hx.
  - apply IH. intros y Hy. apply H. now right.
  - exact Hx.
Qed.

Lemma fetch_description_usage E req d u :
  fetch_description E req = Ok (d, u) ->
  exists p c t, u = JObj [("prompt_tokens", p); ("completion_tokens", c); ("total_tokens", t)].
Proof.
  unfold fetch_description, result_bind.
  destruct (requests_post E req) as [resp|e]; [|discriminate].
  destruct (Requests.raise_for_status (req_url req) resp) as [[]|e]; [|discriminate].
  destruct (response_json resp) as [data|e]; [|discriminate].
  destruct (Py.getitem data "choices") as [choices|e]; [|discriminate].
  destruct (Py.getindex choices 0) as [choice|e]; [|discriminate].
  destruct (Py.getitem choice "message") as [message|e]; [|discriminate].
  destruct (Py.getitem message "content") as [content|e]; [|discriminate].
  destruct (Py.strip content) as [description|e]; [|discriminate].
  destruct (Py.get data "usage" (JObj [])) as [usage|e]; [|discriminate].
  destruct (Py.get usage "prompt_tokens" (JInt 0)) as [p|e]; [|discriminate].
  destruct (Py.get usage "completion_tokens" (JInt 0)) as [c|e]; [|discriminate].
  destruct (Py.get usage "total_tokens" (JInt 0)) as [t|e]; [|discriminate].
  intros H. injection H as <- <-. now exists p, c, t.
Qed.

Section ContentOutcome.

Variable E : Env.
Variable root_dir : string.
Variables include_patterns ignore_patterns : list string.
Variables api_key partial_prompt : option string.

Lemma process_file_outcome dirpath filename s :
  fst (process_file E root_dir include_patterns ignore_patterns api_key partial_prompt
                    dirpath filename s)
  = match file_failure E root_dir include_patterns ignore_patterns api_key partial_prompt
                       dirpath filename with
    | Some e => Err e
    | None => Ok tt
    end.
Proof.
  unfold process_file, file_failure, passes.
  destruct (should_process E (PosixPath.join2 dirpath filename) root_dir
                           include_patterns ignore_patterns) as [[|]|e];
    cbv beta iota zeta delta [bind lift ret raise logging negb]; try reflexivity.
  destruct (Str.endswith filename ".py"); [|reflexivity].
  destruct (read_text E (PosixPath.join2 dirpath filename)) as [file_content|e].
  2:{ destruct (Py.is_OSError e); reflexivity. }
  destruct api_key as [key|]; [|reflexivity].
  destruct (Str.truthy key); [|reflexivity].
  unfold get_file_description.
  destruct (fetch_description E (description_request file_content key partial_prompt))
    as [[d u]|e] eqn:Hf.
  - destruct (fetch_description_usage _ _ Hf) as (p & c & t & ->). reflexivity.
  - unfold handled_by_description. destruct (exn_kind_of e); reflexivity.
Qed.

Lemma content_loop_outcome s :
  root_dir <> EmptyString ->
  fst (os_walk E root_dir include_patterns ignore_patterns
               (python_body E root_dir include_patterns ignore_patterns api_key partial_prompt) s)
  = match first_failure
            (fun c => file_failure E root_dir include_patterns ignore_patterns
                                   api_key partial_prompt (fst c) (snd c))
            (candidate_files E root_dir include_patterns ignore_patterns) with
    | Some e => Err e
    | None => Ok tt
    end.
Proof.
  intros Hne. unfold os_walk, candidate_files, visits.
  destruct (scandir_tree E root_dir) as [entries|]; [|reflexivity].
  rewrite walk_as_loop by exact Hne.
  rewrite first_failure_flat_map.
  apply for_each_first_failure. intros t Ht s1.
  assert (Hd : should_process E (fst (fst t)) root_dir include_patterns ignore_patterns = Ok true).
  { eapply visited_dirpaths_pass; [|exact Ht]. now apply should_process_root. }
  unfold python_body, passes. rewrite Hd.
  cbv beta iota delta [bind lift ret negb].
  rewrite first_failure_map. cbn [fst snd].
  apply for_each_first_failure. intros f _ s2. apply process_file_outcome.
Qed.

End ContentOutcome.

Lemma content_report_cases E root_dir include_patterns ignore_patterns
      api_key partial_prompt :
  root_dir <> EmptyString ->
  let r := process_all_python_files E root_dir include_patterns ignore_patterns
                                    api_key partial_prompt in
  (rep_json r = None /\ rep_raised r <> None)
  \/ (rep_json r = Some (JArr (all_file_records E root_dir include_patterns ignore_patterns
                                                 api_key partial_prompt))
      /\ first_failure
           (fun c => file_failure E root_dir include_patterns ignore_patterns
                                  api_key partial_prompt (fst c) (snd c))
           (candidate_files E root_dir include_patterns ignore_patterns) = None).
Proof.
  intros Hne r.
  pose proof (@content_loop_outcome E root_dir include_patterns ignore_patterns
                                    api_key partial_prompt initial_state Hne) as Hw.
  subst r. unfold process_all_python_files, run_report.
  destruct (open_write E _) as [[]|e0].
  2:{ left. destruct (Py.is_OSError e0); split; cbn; congruence. }
  destruct (os_walk E root_dir include_patterns ignore_patterns
                    (python_body E root_dir include_patterns ignore_patterns
                                 api_key partial_prompt) initial_state)
    as [[[]|e1] s] eqn:Hrun; cbn [fst] in Hw.
  2:{ left. destruct (Py.is_OSError e1); split; cbn; congruence. }
  destruct (first_failure _ _) as [e'|]; [discriminate Hw|].
  destruct (open_write E _) as [[]|e2].
  2:{ left. destruct (Py.is_OSError e2); split; cbn; congruence. }
  right. apply os_walk_python_ok in Hrun. destruct Hrun as [Hd _].
  cbn [rep_json]. split; [now rewrite Hd|reflexivity].
Qed.

(** X7: the failures that end the content report.  When a file the loop
    comes to gives an exception of [should_process], a failure to read it
    that is no [OSError], or an exception of the description request that
    [get_file_description] does not handle, no JSON document is written and
    an exception leaves the function.  So when the JSON document is written,
    no file the loop came to gave such a failure, and the document holds the
    records of all of them. *)
Theorem content_report_failures :
  forall E root_dir include_patterns ignore_patterns api_key partial_prompt,
    root_dir <> EmptyString ->
    let r := process_all_python_files E root_dir include_patterns ignore_patterns
                                      api_key partial_prompt in
    (forall dirpath filename e,
        In (dirpath, filename) (candidate_files E root_dir include_patterns ignore_patterns) ->
        file_failure E root_dir include_patterns ignore_patterns api_key partial_prompt
                     dirpath filename = Some e ->
        rep_json r = None /\ rep_raised r <> None)
    /\ (forall items,
           rep_json r = Some (JArr items) ->
           items = all_file_records E root_dir include_patterns ignore_patterns
                                    api_key partial_prompt
           /\ forall dirpath filename,
               In (dirpath, filename)
                  (candidate_files E root_dir include_patterns ignore_patterns) ->
               file_failure E root_dir include_patterns ignore_patterns api_key partial_prompt
                            dirpath filename = None).
Proof.
  intros E root_dir inc ign api pp Hne r.
  destruct (@content_report_cases E root_dir inc ign api pp Hne) as [[Hj Hr]|[Hj Hff]];
    fold r in Hj |- *.
  - split.
    + intros dirpath filename e _ _. now split.
    + intros items H. rewrite Hj in H. discriminate H.
  - fold r in Hff. rewrite first_failure_none in Hff. split.
    + intros dirpath filename e Hin Hfail.
      specialize (Hff (dirpath, filename) Hin). cbn [fst snd] in Hff.
      rewrite Hfail in Hff. discriminate Hff.
    + intros items H. rewrite Hj in H. injection H as <-. split; [reflexivity|].
      intros dirpath filename Hin. exact (Hff (dirpath, filename) Hin).
Qed.

Lemma content_report_failures_witness :
  (rep_json (process_all_python_files
               (undecodable (demo_env demo_tree no_network no_vars) "proj/b/c.py")
               "proj" [] default_ignore_patterns None None) = None
   /\ rep_raised (process_all_python_files
                    (undecodable (demo_env demo_tree no_network no_vars) "proj/b/c.py")
                    "proj" [] default_ignore_patterns None None) <> None)
  /\ file_failure (demo_env demo_tree no_network no_vars) "proj" [] default_ignore_patterns
                  None None "proj/b" "c.py" = None.
Proof.
  split.
  - apply (proj1 (@content_report_failures
                    (undecodable (demo_env demo_tree no_network no_vars) "proj/b/c.py")
                    "proj" [] default_ignore_patterns None None ltac:(discriminate))
                 "proj/b" "c.py"
                 (Exn UnicodeDecodeError
                      "'utf-8' codec can't decode byte 0xff in position 0: invalid start byte")).
    + vm_compute. repeat (first [left; reflexivity | right]).
    + vm_compute. reflexivity.
  - apply (proj2 (@content_report_failures
                    (demo_env demo_tree no_network no_vars)
                    "proj" [] default_ignore_patterns None None ltac:(discriminate))
                 [file_entry_plain "a.py" "proj/a.py" "x=1";
                  file_entry_plain "c.py" "proj/b/c.py" "x=1"]).
    + vm_compute. reflexivity.
    + vm_compute. repeat (first [left; reflexivity | right]).
Defined.

(** X8: a source file that passes the matcher and cannot be read for a
    reason that is no [OSError], such as a file that is not valid UTF-8,
    ends the content report: no JSON document is written and an exception
    leaves the function. *)
Theorem undecodable_file_aborts_content_report :
  forall E root_dir include_patterns ignore_patterns api_key partial_prompt
         dirpath dirnames filenames filename e,
    root_dir <> EmptyString ->
    In (dirpath, dirnames, filenames) (visits E root_dir include_patterns ignore_patterns) ->
    In filename filenames ->
    should_process E (PosixPath.join2 dirpath filename) root_dir
                   include_patterns ignore_patterns = Ok true ->
    Str.endswith filename ".py" = true ->
    read_text E (PosixPath.join2 dirpath filename) = Err e ->
    Py.is_OSError e = false ->
    let r := process_all_python_files E root_dir include_patterns ignore_patterns
                                      api_key partial_prompt in
    rep_json r = None /\ rep_raised r <> None.
Proof.
  intros E root_dir inc ign api pp dirpath dirnames filenames filename e
         Hne Hvisit Hfile Hpass Hpy Hread Hos r.
  assert (Hff : first_failure
                  (fun c => file_failure E root_dir inc ign api pp (fst c) (snd c))
                  (candidate_files E root_dir inc ign) <> None).
  { intros Hnone. rewrite first_failure_none in Hnone.
    specialize (Hnone (dirpath, filename)).
    assert (Hin : In (dirpath, filename) (candidate_files E root_dir inc ign)).
    { unfold candidate_files. apply in_flat_map.
      exists (dirpath, dirnames, filenames). split; [exact Hvisit|].
      cbn [fst snd]. now apply in_map. }
    specialize (Hnone Hin). unfold file_failure in Hnone. cbn [fst snd] in Hnone.
    rewrite Hpass, Hpy, Hread, Hos in Hnone. discriminate Hnone. }
  pose proof (@content_loop_outcome E root_dir inc ign api pp initial_state Hne) as Hw.
  subst r. unfold process_all_python_files, run_report.
  destruct (open_write E _) as [[]|e0].
  2:{ destruct (Py.is_OSError e0); split; cbn; congruence. }
  destruct (os_walk E root_dir inc ign (python_body E root_dir inc ign api pp) initial_state)
    as [[[]|e1] s] eqn:Hrun; cbn [fst] in Hw.
  - destruct (first_failure _ _); [discriminate Hw|now elim Hff].
  - destruct (Py.is_OSError e1); split; cbn; congruence.
Qed.

Lemma undecodable_file_aborts_content_report_witness :
  rep_json (process_all_python_files
              (undecodable (demo_env demo_tree no_network no_vars) "proj/b/c.py")
              "proj" [] default_ignore_patterns None None) = None.
Proof.
  apply (@undecodable_file_aborts_content_report
           (undecodable (demo_env demo_tree no_network no_vars) "proj/b/c.py")
           "proj" [] default_ignore_patterns None None
           "proj/b" [] ["c.py"; "d.txt"] "c.py"
           (Exn UnicodeDecodeError
                "'utf-8' codec can't decode byte 0xff in position 0: invalid start byte")).
  - discriminate.
  - vm_compute. right. left. reflexivity.
  - left. reflexivity.
  - vm_compute. reflexivity.
  - vm_compute. reflexivity.
  - vm_compute. reflexivity.
  - reflexivity.
Defined.

(** X9: every record of the content report stands for a file of a visited
    directory: the file name ends in [.py], the path is the directory's path
    joined with the name, the path passes the matcher, and the content is
    what reading the file gave. *)
Theorem content_records_faithful :
  forall E root_dir include_patterns ignore_patterns api_key partial_prompt record,
    In record (records (process_all_python_files E root_dir include_patterns ignore_patterns
                                                 api_key partial_prompt)) ->
    exists dirpath dirnames filenames filename file_content,
      In (dirpath, dirnames, filenames) (visits E root_dir include_patterns ignore_patterns)
      /\ In filename filenames
      /\ Str.endswith filename ".py" = true
      /\ should_process E (PosixPath.join2 dirpath filename) root_dir
                        include_patterns ignore_patterns = Ok true
      /\ read_text E (PosixPath.join2 dirpath filename) = Ok file_content
      /\ field "filename" record = Some filename
      /\ field "filepath" record = Some (PosixPath.join2 dirpath filename)
      /\ field "content" record = Some file_content.
Proof.
  intros E root_dir inc ign api pp record Hin.
  apply records_cases in Hin. unfold all_file_records in Hin.
  apply in_flat_map in Hin. destruct Hin as [[[dirpath dirnames] filenames] [Hvisit Hin]].
  cbn [fst snd] in Hin. apply in_flat_map in Hin. destruct Hin as [filename [Hfile Hin]].
  exists dirpath, dirnames, filenames, filename.
  unfold file_records, passes_b in Hin.
  destruct (should_process E (PosixPath.join2 dirpath filename) root_dir inc ign)
    as [[|]|e0]; cbn [andb] in Hin; try (now elim Hin).
  destruct (Str.endswith filename ".py"); [|now elim Hin].
  destruct (read_text E (PosixPath.join2 dirpath filename)) as [file_content|e0];
    [|now elim Hin].
  exists file_content.
  assert (Hplain : record = file_entry_plain filename (PosixPath.join2 dirpath filename)
                                             file_content ->
                   field "filename" record = Some filename
                   /\ field "filepath" record = Some (PosixPath.join2 dirpath filename)
                   /\ field "content" record = Some file_content).
  { intros ->. repeat split; reflexivity. }
  repeat (split; [assumption || reflexivity|]).
  destruct api as [key|]; [destruct (Str.truthy key)|];
    destruct Hin as [<-|[]]; try (apply Hplain; reflexivity).
  repeat split; reflexivity.
Qed.

Lemma content_records_faithful_witness :
  exists dirpath dirnames filenames filename file_content,
    In (dirpath, dirnames, filenames)
       (visits (demo_env demo_tree no_network no_vars) "proj" [] default_ignore_patterns)
    /\ In filename filenames
    /\ Str.endswith filename ".py" = true
    /\ should_process (demo_env demo_tree no_network no_vars)
                      (PosixPath.join2 dirpath filename) "proj" [] default_ignore_patterns
       = Ok true
    /\ read_text (demo_env demo_tree no_network no_vars) (PosixPath.join2 dirpath filename)
       = Ok file_content
    /\ field "filename" (file_entry_plain "c.py" "proj/b/c.py" "x=1") = Some filename
    /\ field "filepath" (file_entry_plain "c.py" "proj/b/c.py" "x=1")
       = Some (PosixPath.join2 dirpath filename)
    /\ field "content" (file_entry_plain "c.py" "proj/b/c.py" "x=1") = Some file_content.
Proof.
  apply (@content_records_faithful (demo_env demo_tree no_network no_vars) "proj" []
                                   default_ignore_patterns None None).
  vm_compute. right. left. reflexivity.
Defined.

(** ** A root that cannot be listed *)

(** X10: when the root directory cannot be listed (it does not exist, or it
    is no directory), both reports are written and are empty: nothing is
    logged and nothing is raised. *)
Theorem unlistable_root_gives_empty_reports :
  forall E root_dir include_patterns ignore_patterns api_key partial_prompt,
    scandir_tree E root_dir = None ->
    (forall name, open_write E name = Ok tt) ->
    let empty := {| rep_text := Some EmptyString; rep_json := Some (JArr []);
                    rep_log := []; rep_raised := None |} in
    process_all_python_files E root_dir include_patterns ignore_patterns
                             api_key partial_prompt = empty
    /\ generate_tree_view E root_dir include_patterns ignore_patterns = empty.
Proof.
  intros E root_dir inc ign api pp Hscan Hopen empty. subst empty.
  unfold process_all_python_files, generate_tree_view, run_report, os_walk.
  rewrite !Hopen, Hscan. split; reflexivity.
Qed.

Lemma unlistable_root_gives_empty_reports_witness :
  rep_json (generate_tree_view (demo_env demo_tree no_network no_vars) "elsewhere" []
                               default_ignore_patterns) = Some (JArr []).
Proof.
  rewrite (proj2 (@unlistable_root_gives_empty_reports
                    (demo_env demo_tree no_network no_vars) "elsewhere" []
                    default_ignore_patterns None None eq_refl (fun _ => eq_refl))).
  reflexivity.
Defined.

(** ** The tree report *)

Lemma fold_each_first_failure (A B : Type) (body : list B -> A -> M (list B))
      (failure : A -> option exn) (l : list A) :
  (forall x, In x l -> forall acc s,
        match failure x with
        | Some e => fst (body acc x s) = Err e
        | None => exists acc', fst (body acc x s) = Ok acc'
        end) ->
  forall acc s,
    match first_failure failure l with
    | Some e => fst (fold_each body l acc s) = Err e
    | None => exists acc', fst (fold_each body l acc s) = Ok acc'
    end.
Proof.
  induction l as [|x l IH]; intros H acc s.
  - cbn. now exists acc.
  - cbn [fold_each first_failure]. unfold bind.
    pose proof (H x (or_introl eq_refl) acc s) as Hx.
    destruct (failure x) as [e|].
    + destruct (body acc x s) as [[acc1|e1] s1]; cbn [fst] in Hx; [discriminate Hx|exact Hx].
    + destruct Hx as [acc' Hx].
      destruct (body acc x s) as [[acc1|e1] s1]; cbn [fst] in Hx; [|discriminate Hx].
      apply IH. intros y Hy. apply H. now right.
Qed.

Section TreeOutcome.

Variable E : Env.
Variable root_dir : string.
Variables include_patterns ignore_patterns : list string.

Lemma list_entry_outcome dirpath contents name s :
  match entry_failure E root_dir include_patterns ignore_patterns dirpath name with
  | Some e =>
      fst (list_entry E root_dir include_patterns ignore_patterns dirpath contents name s) = Err e
  | None =>
      exists contents',
        fst (list_entry E root_dir include_patterns ignore_patterns dirpath contents name s)
        = Ok contents'
  end.
Proof.
  unfold list_entry, entry_failure, passes.
  destruct (should_process E (PosixPath.join2 dirpath name) root_dir
                           include_patterns ignore_patterns) as [[|]|e];
    cbv beta iota zeta delta [bind lift ret raise logging negb];
    try reflexivity; try (eexists; reflexivity).
  destruct (stat_entry E (PosixPath.join2 dirpath name)) as [[permissions owner]|e].
  - eexists. reflexivity.
  - destruct (exn_kind_of e); try reflexivity; eexists; reflexivity.
Qed.

Lemma tree_body_outcome dirpath dirnames filenames s :
  should_process E dirpath root_dir include_patterns ignore_patterns = Ok true ->
  fst (tree_body E root_dir include_patterns ignore_patterns dirpath dirnames filenames s)
  = match first_failure (entry_failure E root_dir include_patterns ignore_patterns dirpath)
                        (dirnames ++ filenames)%list with
    | Some e => Err e
    | None => Ok tt
    end.
Proof.
  intros Hd. unfold tree_body, passes. rewrite Hd.
  cbv beta iota delta [bind lift ret negb write].
  match goal with
  | |- context [fold_each ?body ?l ?acc ?s0] =>
      pose proof (@fold_each_first_failure _ _ body
                    (entry_failure E root_dir include_patterns ignore_patterns dirpath) l
                    (fun x _ acc1 s1 => list_entry_outcome dirpath acc1 x s1) acc s0) as H;
      destruct (fold_each body l acc s0) as [[contents|e] s1]
  end;
    destruct (first_failure _ _) as [e'|]; cbn [fst] in H.
  - discriminate H.
  - reflexivity.
  - injection H as <-. reflexivity.
  - destruct H as [acc' H]. discriminate H.
Qed.

Lemma tree_loop_outcome s :
  root_dir <> EmptyString ->
  fst (os_walk E root_dir include_patterns ignore_patterns
               (tree_body E root_dir include_patterns ignore_patterns) s)
  = match first_failure
            (fun c => entry_failure E root_dir include_patterns ignore_patterns (fst c) (snd c))
            (candidate_entries E root_dir include_patterns ignore_patterns) with
    | Some e => Err e
    | None => Ok tt
    end.
Proof.
  intros Hne. unfold os_walk, candidate_entries, visits.
  destruct (scandir_tree E root_dir) as [entries|]; [|reflexivity].
  rewrite walk_as_loop by exact Hne.
  rewrite first_failure_flat_map.
  apply for_each_first_failure. intros t Ht s1.
  rewrite first_failure_map. cbn [fst snd].
  apply tree_body_outcome.
  eapply visited_dirpaths_pass; [|exact Ht]. now apply should_process_root.
Qed.

End TreeOutcome.

Lemma tree_report_cases E root_dir include_patterns ignore_patterns :
  root_dir <> EmptyString ->
  let r := generate_tree_view E root_dir include_patterns ignore_patterns in
  (rep_json r = None /\ rep_raised r <> None)
  \/ (rep_json r = Some (JArr (all_directory_records E root_dir
                                                      include_patterns ignore_patterns))
      /\ first_failure
           (fun c => entry_failure E root_dir include_patterns ignore_patterns (fst c) (snd c))
           (candidate_entries E root_dir include_patterns ignore_patterns) = None).
Proof.
  intros Hne r.
  pose proof (@tree_loop_outcome E root_dir include_patterns ignore_patterns
                                 initial_state Hne) as Hw.
  subst r. unfold generate_tree_view, run_report.
  destruct (open_write E _) as [[]|e0].
  2:{ left. destruct (Py.is_OSError e0); split; cbn; congruence. }
  destruct (os_walk E root_dir include_patterns ignore_patterns
                    (tree_body E root_dir include_patterns ignore_patterns) initial_state)
    as [[[]|e1] s] eqn:Hrun; cbn [fst] in Hw.
  2:{ left. destruct (Py.is_OSError e1); split; cbn; congruence. }
  destruct (first_failure _ _) as [e'|]; [discriminate Hw|].
  destruct (open_write E _) as [[]|e2].
  2:{ left. destruct (Py.is_OSError e2); split; cbn; congruence. }
  right. apply os_walk_tree_ok in Hrun. destruct Hrun as [Hd _].
  cbn [rep_json]. split; [now rewrite Hd|reflexivity].
Qed.

(** X11: the failures that end the tree report.  When an entry the loop
    comes to gives an exception of [should_process], or a failure of
    [os.stat] or [pwd.getpwuid] other than a [FileNotFoundError] or a
    [PermissionError], no JSON document is written and an exception leaves
    the function.  So when the JSON document is written, no entry the loop
    came to gave such a failure, and the document holds one record per
    visited directory. *)
Theorem tree_report_failures :
  forall E root_dir include_patterns ignore_patterns,
    root_dir <> EmptyString ->
    let r := generate_tree_view E root_dir include_patterns ignore_patterns in
    (forall dirpath name e,
        In (dirpath, name) (candidate_entries E root_dir include_patterns ignore_patterns) ->
        entry_failure E root_dir include_patterns ignore_patterns dirpath name = Some e ->
        rep_json r = None /\ rep_raised r <> None)
    /\ (forall items,
           rep_json r = Some (JArr items) ->
           items = all_directory_records E root_dir include_patterns ignore_patterns
           /\ forall dirpath name,
               In (dirpath, name)
                  (candidate_entries E root_dir include_patterns ignore_patterns) ->
               entry_failure E root_dir include_patterns ignore_patterns dirpath name = None).
Proof.
  intros E root_dir inc ign Hne r.
  destruct (@tree_report_cases E root_dir inc ign Hne) as [[Hj Hr]|[Hj Hff]];
    fold r in Hj |- *.
  - split.
    + intros dirpath name e _ _. now split.
    + intros items H. rewrite Hj in H. discriminate H.
  - fold r in Hff. rewrite first_failure_none in Hff. split.
    + intros dirpath name e Hin Hfail.
      specialize (Hff (dirpath, name) Hin). cbn [fst snd] in Hff.
      rewrite Hfail in Hff. discriminate Hff.
    + intros items H. rewrite Hj in H. injection H as <-. split; [reflexivity|].
      intros dirpath name Hin. exact (Hff (dirpath, name) Hin).
Qed.

Lemma tree_report_failures_witness :
  (rep_json (generate_tree_view (unknown_owners (demo_env demo_tree no_network no_vars))
                                "proj" [] default_ignore_patterns) = None
   /\ rep_raised (generate_tree_view (unknown_owners (demo_env demo_tree no_network no_vars))
                                     "proj" [] default_ignore_patterns) <> None)
  /\ entry_failure (demo_env [File "a.py"] no_network no_vars) "proj" []
                   default_ignore_patterns "proj" "a.py" = None.
Proof.
  split.
  - apply (proj1 (@tree_report_failures
                    (unknown_owners (demo_env demo_tree no_network no_vars))
                    "proj" [] default_ignore_patterns ltac:(discriminate))
                 "proj" "a.py" (Exn KeyError "'getpwuid(): uid not found: 1000'")).
    + vm_compute. repeat (first [left; reflexivity | right]).
    + vm_compute. reflexivity.
  - apply (proj2 (@tree_report_failures
                    (demo_env [File "a.py"] no_network no_vars)
                    "proj" [] default_ignore_patterns ltac:(discriminate))
                 [JObj [("directory", JStr "proj");
                        ("contents", JArr [JObj [("name", JStr "a.py");
                                                 ("permissions", JStr "-rw-r--r--");
                                                 ("owner", JStr "user");
                                                 ("type", JStr "file")]])]]).
    + vm_compute. reflexivity.
    + vm_compute. repeat (first [left; reflexivity | right]).
Defined.

(** X12: an entry that passes the matcher and whose owner has no entry in
    the password database ends the tree report: [pwd.getpwuid] raises a
    [KeyError], which no [except] clause names, so no JSON document is
    written and an exception leaves the function. *)
Theorem unknown_owner_aborts_tree_report :
  forall E root_dir include_patterns ignore_patterns dirpath dirnames filenames name stats e,
    root_dir <> EmptyString ->
    In (dirpath, dirnames, filenames) (visits E root_dir include_patterns ignore_patterns) ->
    In name (dirnames ++ filenames)%list ->
    should_process E (PosixPath.join2 dirpath name) root_dir
                   include_patterns ignore_patterns = Ok true ->
    os_stat E (PosixPath.join2 dirpath name) = Ok stats ->
    getpwuid E (st_uid stats) = Err e ->
    exn_kind_of e = KeyError ->
    let r := generate_tree_view E root_dir include_patterns ignore_patterns in
    rep_json r = None /\ rep_raised r <> None.
Proof.
  intros E root_dir inc ign dirpath dirnames filenames name stats e
         Hne Hvisit Hname Hpass Hstat Howner Hkind r.
  assert (Hff : first_failure
                  (fun c => entry_failure E root_dir inc ign (fst c) (snd c))
                  (candidate_entries E root_dir inc ign) <> None).
  { intros Hnone. rewrite first_failure_none in Hnone.
    specialize (Hnone (dirpath, name)).
    assert (Hin : In (dirpath, name) (candidate_entries E root_dir inc ign)).
    { unfold candidate_entries. apply in_flat_map.
      exists (dirpath, dirnames, filenames). split; [exact Hvisit|].
      cbn [fst snd]. now apply in_map. }
    specialize (Hnone Hin). unfold entry_failure, stat_entry, result_bind in Hnone.
    cbn [fst snd] in Hnone. rewrite Hpass, Hstat, Howner, Hkind in Hnone.
    discriminate Hnone. }
  pose proof (@tree_loop_outcome E root_dir inc ign initial_state Hne) as Hw.
  subst r. unfold generate_tree_view, run_report.
  destruct (open_write E _) as [[]|e0].
  2:{ destruct (Py.is_OSError e0); split; cbn; congruence. }
  destruct (os_walk E root_dir inc ign (tree_body E root_dir inc ign) initial_state)
    as [[[]|e1] s] eqn:Hrun; cbn [fst] in Hw.
  - destruct (first_failure _ _); [discriminate Hw|now elim Hff].
  - destruct (Py.is_OSError e1); split; cbn; congruence.
Qed.

Lemma unknown_owner_aborts_tree_report_witness :
  rep_json (generate_tree_view (unknown_owners (demo_env demo_tree no_network no_vars))
                               "proj" [] default_ignore_patterns) = None.
Proof.
  apply (@unknown_owner_aborts_tree_report
           (unknown_owners (demo_env demo_tree no_network no_vars))
           "proj" [] default_ignore_patterns
           "proj" ["b"] ["a.py"] "b"
           {| st_mode := 33188; st_uid := 1000 |}
           (Exn KeyError "'getpwuid(): uid not found: 1000'")).
  - discriminate.
  - vm_compute. left. reflexivity.
  - left. reflexivity.
  - vm_compute. reflexivity.
  - reflexivity.
  - reflexivity.
  - reflexivity.
Defined.

Section TreeRecords.

Variable E : Env.
Variable root_dir : string.
Variables include_patterns ignore_patterns : list string.

Lemma entry_block_record dirpath name :
  listed E root_dir include_patterns ignore_patterns dirpath name = true ->
  entry_block (entry_record E dirpath name) = entry_line E dirpath name.
Proof.
  unfold listed, entry_record, entry_line.
  destruct (stat_entry E (PosixPath.join2 dirpath name)) as [[permissions owner]|e].
  - reflexivity.
  - now rewrite andb_false_r.
Qed.

Lemma directory_block_record dirpath names :
  directory_block (directory_record E root_dir include_patterns ignore_patterns dirpath names)
  = section_text E root_dir include_patterns ignore_patterns dirpath names.
Proof.
  unfold directory_record, section_text.
  change (directory_block (JObj [("directory", JStr dirpath); ("contents", JArr ?l)]))
    with (directory_header dirpath ++ Str.cat (map entry_block l)).
  f_equal. rewrite map_map. apply cat_map_ext.
  intros name Hin. apply filter_In in Hin. now apply entry_block_record.
Qed.

Lemma tree_document items :
  rep_json (generate_tree_view E root_dir include_patterns ignore_patterns)
  = Some (JArr items) ->
  items = all_directory_records E root_dir include_patterns ignore_patterns
  /\ rep_text (generate_tree_view E root_dir include_patterns ignore_patterns)
     = Some (Str.cat (map (fun t => section_text E root_dir include_patterns ignore_patterns
                                                 (fst (fst t)) (snd (fst t) ++ snd t)%list)
                          (visits E root_dir include_patterns ignore_patterns))).
Proof.
  intros H.
  destruct (cases_generate_tree_view E root_dir include_patterns ignore_patterns)
    as [[Hnone _]|[Hjson Htext]]; cbv zeta in *.
  - rewrite Hnone in H. discriminate H.
  - rewrite Hjson in H. injection H as <-. split; [reflexivity|exact Htext].
Qed.

End TreeRecords.

(** X13: the text of the tree report can be read off its JSON document:
    it is, record by record, the header of the directory followed by one
    line per entry with its permissions, owner and name. *)
Theorem tree_text_follows_records :
  forall E root_dir include_patterns ignore_patterns items,
    rep_json (generate_tree_view E root_dir include_patterns ignore_patterns)
    = Some (JArr items) ->
    rep_text (generate_tree_view E root_dir include_patterns ignore_patterns)
    = Some (Str.cat (map directory_block items)).
Proof.
  intros E root_dir inc ign items H.
  apply tree_document in H. destruct H as [-> ->].
  unfold all_directory_records. rewrite map_map. f_equal.
  apply cat_map_ext. intros t _. symmetry. apply directory_block_record.
Qed.

Lemma tree_text_follows_records_witness :
  rep_text (generate_tree_view (demo_env [File "a.py"] no_network no_vars) "proj" []
                               default_ignore_patterns)
  = Some (nl ++ "Directory: proj" ++ nl ++ "===============" ++ nl
             ++ "-rw-r--r-- user a.py" ++ nl).
Proof.
  rewrite (@tree_text_follows_records
             (demo_env [File "a.py"] no_network no_vars) "proj" [] default_ignore_patterns
             [JObj [("directory", JStr "proj");
                    ("contents", JArr [JObj [("name", JStr "a.py");
                                             ("permissions", JStr "-rw-r--r--");
                                             ("owner", JStr "user");
                                             ("type", JStr "file")]])]]).
  - vm_compute. reflexivity.
  - vm_compute. reflexivity.
Defined.

(** X14: the JSON document of the tree report has one record per visited
    directory, in the order of the visits, also for a directory without
    listed entries.  Every entry of a record has the four fields name,
    permissions, owner and type, stands for a child that passes the matcher,
    and its type is what [os.path.isdir] says of the child's path. *)
Theorem tree_records_structure :
  forall E root_dir include_patterns ignore_patterns items,
    rep_json (generate_tree_view E root_dir include_patterns ignore_patterns)
    = Some (JArr items) ->
    map (field "directory") items
    = map (@Some string) (visited_dirs E root_dir include_patterns ignore_patterns)
    /\ forall record entry,
        In record items -> In entry (contents_of record) ->
        exists dirpath dirnames filenames name,
          In (dirpath, dirnames, filenames)
             (visits E root_dir include_patterns ignore_patterns)
          /\ In name (dirnames ++ filenames)%list
          /\ field "directory" record = Some dirpath
          /\ field "name" entry = Some name
          /\ keys entry = ["name"; "permissions"; "owner"; "type"]
          /\ should_process E (PosixPath.join2 dirpath name) root_dir
                            include_patterns ignore_patterns = Ok true
          /\ field "type" entry
             = Some (if isdir E (PosixPath.join2 dirpath name) then "directory" else "file").
Proof.
  intros E root_dir inc ign items H.
  apply tree_document in H. destruct H as [-> _].
  unfold all_directory_records, visited_dirs. split.
  - rewrite !map_map. apply map_ext. reflexivity.
  - intros record entry Hrec Hent.
    apply in_map_iff in Hrec. destruct Hrec as [[[dirpath dirnames] filenames] [<- Hvisit]].
    cbn [fst snd] in Hent |- *.
    unfold directory_record in Hent.
    change (contents_of (JObj [("directory", JStr dirpath); ("contents", JArr ?l)]))
      with l in Hent.
    apply in_map_iff in Hent. destruct Hent as [name [<- Hname]].
    apply filter_In in Hname. destruct Hname as [Hname Hlisted].
    exists dirpath, dirnames, filenames, name.
    split; [exact Hvisit|]. split; [exact Hname|]. split; [reflexivity|].
    unfold listed, passes_b in Hlisted. unfold entry_record.
    destruct (should_process E (PosixPath.join2 dirpath name) root_dir inc ign)
      as [[|]|e]; cbn [andb] in Hlisted; try discriminate Hlisted.
    destruct (stat_entry E (PosixPath.join2 dirpath name)) as [[permissions owner]|e];
      [|discriminate Hlisted].
    split; [reflexivity|]. split; [reflexivity|]. split; [reflexivity|].
    unfold entry_info, field. cbn [Py.assoc].
    destruct (isdir E (PosixPath.join2 dirpath name)); reflexivity.
Qed.

Lemma tree_records_structure_witness :
  map (field "directory")
      [JObj [("directory", JStr "proj");
             ("contents", JArr [JObj [("name", JStr "a.py");
                                      ("permissions", JStr "-rw-r--r--");
                                      ("owner", JStr "user");
                                      ("type", JStr "file")]])]]
  = map (@Some string)
        (visited_dirs (demo_env [File "a.py"] no_network no_vars) "proj" []
                      default_ignore_patterns).
Proof.
  apply (@tree_records_structure
           (demo_env [File "a.py"] no_network no_vars) "proj" [] default_ignore_patterns).
  vm_compute. reflexivity.
Defined.

(** ** The two [try] blocks of a report *)

(** X15: a report function writes its JSON document exactly when no
    exception leaves it, and then it has written its text file too; the
    text file is missing exactly when it could not be opened. *)
Theorem report_written_iff_nothing_raised :
  forall E output_file_txt output_file_json txt_failure loop,
    let r := run_report E output_file_txt output_file_json txt_failure loop in
    (rep_raised r = None <-> exists items, rep_json r = Some (JArr items))
    /\ (rep_text r = None <-> exists e, open_write E output_file_txt = Err e)
    /\ (rep_text r = None -> rep_json r = None).
Proof.
  intros E txt json msg loop r. subst r. unfold run_report.
  destruct (open_write E txt) as [[]|e].
  2:{ destruct (Py.is_OSError e); cbn [rep_raised rep_json rep_text];
        (split; [split; [discriminate|intros [items H]; discriminate H]|]);
        (split; [split; [intros _; now exists e|reflexivity]|reflexivity]). }
  assert (Hopen : (exists e : exn, @Ok unit tt = Err e) -> False)
    by (intros [e H]; discriminate H).
  destruct (loop initial_state) as [[[]|e] s].
  - destruct (open_write E json) as [[]|e].
    + cbn [rep_raised rep_json rep_text].
      split; [split; [intros _; now exists (data s)|reflexivity]|].
      split; [split; [discriminate|intros H; now elim Hopen]|discriminate].
    + destruct (Py.is_OSError e); cbn [rep_raised rep_json rep_text];
        (split; [split; [discriminate|intros [items H]; discriminate H]|]);
        (split; [split; [discriminate|intros H; now elim Hopen]|discriminate]).
  - destruct (Py.is_OSError e); cbn [rep_raised rep_json rep_text];
      (split; [split; [discriminate|intros [items H]; discriminate H]|]);
      (split; [split; [discriminate|intros H; now elim Hopen]|discriminate]).
Qed.

(** ** [main] *)

Lemma exit_code_after_parse_args :
  forall E a,
    (exit_code (main E a) = 0 \/ exit_code (main E a) = 1)
    /\ (exit_code (main E a) = 0 <->
        (exists key l, determine_api_key E a = (Ok key, l))
        /\ (exists patterns l, collect_ignore_patterns E a = (Ok patterns, l))
        /\ (arg_python a = true ->
            exists r, python_report (main E a) = Some r /\ rep_raised r = None)
        /\ (arg_tree a = true ->
            exists r, tree_report (main E a) = Some r /\ rep_raised r = None)).
Proof.
  intros E a. unfold main.
  destruct (determine_api_key E a) as [[key|e] l1].
  2:{ cbn [exit_code]. split; [now right|].
      split; [discriminate|]. intros [[k [l H]] _]. discriminate H. }
  destruct (collect_ignore_patterns E a) as [[patterns|e] l3].
  2:{ cbn [exit_code]. split; [now right|].
      split; [discriminate|]. intros [_ [[k [l H]] _]]. discriminate H. }
  cbv zeta.
  assert (Hk : exists (k : option string) (l : list log_record), (Ok key, l1) = (Ok k, l))
    by (now exists key, l1).
  assert (Hc : exists (p : list string) (l : list log_record), (Ok patterns, l3) = (Ok p, l))
    by (now exists patterns, l3).
  destruct (arg_python a).
  - destruct (process_all_python_files E (arg_root_dir a) (collect_include_patterns a)
                                       patterns key (arg_d a)) as [pt pj pl [pe|]].
    + cbn [exit_code python_report tree_report]. split; [now right|].
      split; [discriminate|]. intros (_ & _ & Hp & _).
      destruct (Hp eq_refl) as [r [Hr Hn]]. injection Hr as <-. discriminate Hn.
    + destruct (arg_tree a).
      * destruct (generate_tree_view E (arg_root_dir a) (collect_include_patterns a) patterns)
          as [tt tj tl [te|]]; cbn [exit_code python_report tree_report].
        -- split; [now right|]. split; [discriminate|]. intros (_ & _ & _ & Ht).
           destruct (Ht eq_refl) as [r [Hr Hn]]. injection Hr as <-. discriminate Hn.
        -- split; [now left|]. split; [|reflexivity]. intros _.
           split; [exact Hk|]. split; [exact Hc|].
           split; intros _; eexists; (split; [reflexivity|reflexivity]).
      * cbn [exit_code python_report tree_report]. split; [now left|].
        split; [|reflexivity]. intros _.
        split; [exact Hk|]. split; [exact Hc|].
        split; [intros _; eexists; (split; [reflexivity|reflexivity])|discriminate].
  - destruct (arg_tree a).
    + destruct (generate_tree_view E (arg_root_dir a) (collect_include_patterns a) patterns)
        as [tt tj tl [te|]]; cbn [exit_code python_report tree_report].
      * split; [now right|]. split; [discriminate|]. intros (_ & _ & _ & Ht).
        destruct (Ht eq_refl) as [r [Hr Hn]]. injection Hr as <-. discriminate Hn.
      * split; [now left|]. split; [|reflexivity]. intros _.
        split; [exact Hk|]. split; [exact Hc|].
        split; [discriminate|intros _; eexists; (split; [reflexivity|reflexivity])].
    + cbn [exit_code python_report tree_report]. split; [now left|].
      split; [|reflexivity]. intros _.
      split; [exact Hk|]. split; [exact Hc|]. split; discriminate.
Qed.

(** X16: the exit status of [main].  It is 2 exactly when [parse_args]
    rejects the command line, and otherwise 0 or 1.  It is 0 exactly when
    [parse_args] printed the help, or it returned a namespace for which the
    key and the ignore patterns could be determined and every report that
    was asked for ran to its end without an exception. *)
Theorem exit_status_of_main :
  forall E parsed,
    (exit_code (main_on E parsed) = 0 \/ exit_code (main_on E parsed) = 1
     \/ exit_code (main_on E parsed) = 2)
    /\ (exit_code (main_on E parsed) = 2 <-> parsed = UsageError)
    /\ (exit_code (main_on E parsed) = 0 <->
        parsed = HelpShown
        \/ exists a,
            parsed = Namespace a
            /\ (exists key l, determine_api_key E a = (Ok key, l))
            /\ (exists patterns l, collect_ignore_patterns E a = (Ok patterns, l))
            /\ (arg_python a = true ->
                exists r, python_report (main E a) = Some r /\ rep_raised r = None)
            /\ (arg_tree a = true ->
                exists r, tree_report (main E a) = Some r /\ rep_raised r = None)).
Proof.
  intros E [a| |]; cbn [main_on exit_code].
  - destruct (exit_code_after_parse_args E a) as [Hrange Hzero].
    split; [destruct Hrange as [H|H]; [now left|right; now left]|].
    split.
    + split; [|discriminate]. intros H. destruct Hrange as [H'|H']; rewrite H' in H;
        discriminate H.
    + rewrite Hzero. split.
      * intros H. right. now exists a.
      * intros [H|[a' [Heq H]]]; [discriminate H|]. now injection Heq as <-.
  - split; [now left|]. split; [split; discriminate|].
    split; [intros _; now left|reflexivity].
  - split; [right; now right|]. split; [split; reflexivity|].
    split; [discriminate|]. intros [H|[a [H _]]]; discriminate H.
Qed.

(** X17: when the content report ends by an exception, the program stops
    there: the tree report is not started, even if it was asked for, and the
    exit status is 1. *)
Theorem failed_content_report_stops_main :
  forall E a r,
    python_report (main E a) = Some r ->
    rep_raised r <> None ->
    tree_report (main E a) = None /\ exit_code (main E a) = 1.
Proof.
  intros E a r. unfold main.
  destruct (determine_api_key E a) as [[key|e] l1]; [|discriminate].
  destruct (collect_ignore_patterns E a) as [[patterns|e] l3]; [|discriminate].
  cbv zeta.
  destruct (arg_python a).
  - destruct (process_all_python_files E (arg_root_dir a) (collect_include_patterns a)
                                       patterns key (arg_d a)) as [pt pj pl [pe|]].
    + intros _ _. split; reflexivity.
    + cbn [python_report]. intros H Hr. injection H as <-. now elim Hr.
  - cbn [python_report]. discriminate.
Qed.

Lemma failed_content_report_stops_main_witness :
  tree_report (main (unwritable (demo_env demo_tree no_network no_vars) "all_python_files")
                    args_both) = None
  /\ exit_code (main (unwritable (demo_env demo_tree no_network no_vars) "all_python_files")
                     args_both) = 1.
Proof.
  apply (@failed_content_report_stops_main
           (unwritable (demo_env demo_tree no_network no_vars) "all_python_files") args_both
           {| rep_text := None; rep_json := None;
              rep_log := [(CRITICAL,
                           "Failed to write to output file all_python_files_20240101_120000.txt: [Errno 13] Permission denied: 'all_python_files_20240101_120000.txt'")];
              rep_raised := Some sys_exit_1 |}).
  - vm_compute. reflexivity.
  - discriminate.
Defined.

(** X18: without [-description] no description is asked for, whatever
    [-api] and the environment hold: no record of the content report has a
    description field. *)
Theorem api_key_unused_without_description :
  forall E a r record,
    arg_description a = false ->
    python_report (main E a) = Some r ->
    In record (records r) ->
    keys record = ["filename"; "filepath"; "content"].
Proof.
  intros E a r record Hd. unfold main, determine_api_key. rewrite Hd.
  destruct (collect_ignore_patterns E a) as [[patterns|e] l3]; [|discriminate].
  cbv zeta.
  destruct (arg_python a).
  - intros Hr Hin.
    assert (Hrep : r = process_all_python_files E (arg_root_dir a) (collect_include_patterns a)
                                                patterns None (arg_d a)).
    { destruct (process_all_python_files E (arg_root_dir a) (collect_include_patterns a)
                                         patterns None (arg_d a)) as [pt pj pl [pe|]];
        cbn [python_report] in Hr; now injection Hr as <-. }
    subst r. apply records_cases in Hin.
    apply all_file_records_shape in Hin. exact (proj1 Hin).
  - cbn [python_report]. discriminate.
Qed.

Lemma api_key_unused_without_description_witness :
  keys (file_entry_plain "a.py" "proj/a.py" "x=1") = ["filename"; "filepath"; "content"].
Proof.
  apply (@api_key_unused_without_description
           (demo_env demo_tree (answering (described_as "A module.")) some_vars)
           (args_api_only "sk-flag")
           (process_all_python_files
              (demo_env demo_tree (answering (described_as "A module.")) some_vars)
              "proj" [] default_ignore_patterns None None)).
  - reflexivity.
  - vm_compute. reflexivity.
  - vm_compute. left. reflexivity.
Defined.

(** ** The patterns [main] collects *)

Lemma extend_if_given (patterns : list string) (x : option (list string)) :
  extend_if patterns x = (patterns ++ given x)%list.
Proof.
  unfold extend_if, given.
  destruct x as [[|p l]|]; cbn [Py.truthy_list]; now rewrite ?app_nil_r.
Qed.

Lemma collect_ignore_patterns_form E a patterns l :
  collect_ignore_patterns E a = (Ok patterns, l) ->
  patterns = (default_ignore_patterns
                ++ given (arg_ignore_patterns a) ++ given (arg_ignore_dirs a)
                ++ given (arg_ignore_files a) ++ patterns_of_ignore_file E a)%list
  /\ l = [].
Proof.
  unfold collect_ignore_patterns, patterns_of_ignore_file. cbv zeta.
  rewrite !extend_if_given.
  destruct (arg_ignore_file a) as [path|].
  - destruct (Str.truthy path).
    + destruct (read_plain E path) as [text|e]; [|discriminate].
      rewrite add_ignore_lines_spec. intros H. injection H as <- <-.
      now rewrite <- !app_assoc.
    + intros H. injection H as <- <-. now rewrite <- !app_assoc, app_nil_r.
  - intros H. injection H as <- <-. now rewrite <- !app_assoc, app_nil_r.
Qed.

(** X19: the ignore patterns [main] passes on are the five default
    patterns, then the patterns of [--ignore-patterns], [--ignore-dirs] and
    [--ignore-files] in this order, then the patterns of the ignore file;
    a pattern of the ignore file is a line without the white space around
    it, is not empty and does not start with [#]. *)
Theorem collect_ignore_patterns_closed_form :
  forall E a patterns l,
    collect_ignore_patterns E a = (Ok patterns, l) ->
    patterns = (default_ignore_patterns
                  ++ given (arg_ignore_patterns a) ++ given (arg_ignore_dirs a)
                  ++ given (arg_ignore_files a) ++ patterns_of_ignore_file E a)%list
    /\ forall pattern,
        In pattern (patterns_of_ignore_file E a) ->
        pattern <> EmptyString
        /\ Str.strip pattern = pattern
        /\ Str.startswith pattern "#" = false.
Proof.
  intros E a patterns l H. split; [exact (proj1 (collect_ignore_patterns_form _ _ H))|].
  intros pattern Hin. unfold patterns_of_ignore_file in Hin.
  destruct (arg_ignore_file a) as [path|]; [|now elim Hin].
  destruct (Str.truthy path); [|now elim Hin].
  destruct (read_plain E path) as [text|e]; [|now elim Hin].
  apply in_map_iff in Hin. destruct Hin as [line [<- Hline]].
  apply filter_In in Hline. destruct Hline as [_ Hline].
  unfold is_pattern_line in Hline. apply andb_true_iff in Hline.
  destruct Hline as [Ht Hc]. split; [|split].
  - intros Heq. rewrite Heq in Ht. discriminate Ht.
  - apply strip_idempotent.
  - now apply negb_true_iff.
Qed.

Lemma collect_ignore_patterns_closed_form_witness :
  (default_ignore_patterns ++ ["tmp"; "logs"])%list
  = (default_ignore_patterns
       ++ given (arg_ignore_patterns (args_ignore_file false ".myignore"))
       ++ given (arg_ignore_dirs (args_ignore_file false ".myignore"))
       ++ given (arg_ignore_files (args_ignore_file false ".myignore"))
       ++ patterns_of_ignore_file (demo_env [] no_network no_vars)
                                  (args_ignore_file false ".myignore"))%list.
Proof.
  apply (@collect_ignore_patterns_closed_form
           (demo_env [] no_network no_vars) (args_ignore_file false ".myignore")
           (default_ignore_patterns ++ ["tmp"; "logs"])%list []).
  reflexivity.
Defined.

(** *** What the default patterns match *)

Lemma matches_star_all (s : string) : Fnmatch.matches [Fnmatch.STAR] s = true.
Proof.
  induction s as [|c s IH]; [reflexivity|].
  change (Fnmatch.matches [Fnmatch.STAR] (String c s))
    with (Fnmatch.matches [] (String c s) || Fnmatch.matches [Fnmatch.STAR] s).
  rewrite IH. apply orb_true_r.
Qed.

Lemma matches_star_cons (ps : list Fnmatch.piece) (c : ascii) (s : string) :
  Fnmatch.matches (Fnmatch.STAR :: ps) (String c s)
  = Fnmatch.matches ps (String c s) || Fnmatch.matches (Fnmatch.STAR :: ps) s.
Proof. reflexivity. Qed.

Lemma matches_star_nil (ps : list Fnmatch.piece) :
  Fnmatch.matches (Fnmatch.STAR :: ps) EmptyString = Fnmatch.matches ps EmptyString.
Proof. cbn. apply orb_false_r. Qed.

(** A star matches any text before what the rest of the pattern matches. *)
Lemma matches_star_iff (ps : list Fnmatch.piece) (s : string) :
  Fnmatch.matches (Fnmatch.STAR :: ps) s = true
  <-> exists before rest, s = before ++ rest /\ Fnmatch.matches ps rest = true.
Proof.
  induction s as [|c s IH].
  - rewrite matches_star_nil. split.
    + intros H. now exists EmptyString, EmptyString.
    + intros (before & rest & Heq & H).
      destruct before; [|discriminate Heq]. cbn in Heq. now subst rest.
  - rewrite matches_star_cons, orb_true_iff, IH. split.
    + intros [H|(before & rest & -> & H)].
      * now exists EmptyString, (String c s).
      * now exists (String c before), rest.
    + intros (before & rest & Heq & H). destruct before as [|b before].
      * left. cbn in Heq. now subst rest.
      * right. cbn in Heq. injection Heq as _ ->. now exists before, rest.
Qed.

Lemma matches_literal (p name : string) :
  Fnmatch.matches (map Fnmatch.LIT (list_ascii_of_string p)) name = String.eqb name p.
Proof.
  revert name. induction p as [|c p IH]; intros name.
  - reflexivity.
  - destruct name as [|d name]; [reflexivity|].
    cbn [list_ascii_of_string map Fnmatch.matches Fnmatch.piece_matches].
    rewrite IH. reflexivity.
Qed.

Lemma fnmatch_hidden (name : string) :
  Fnmatch.fnmatch name ".*" = true <-> exists rest, name = "." ++ rest.
Proof.
  change (Fnmatch.fnmatch name ".*")
    with (Fnmatch.matches [Fnmatch.LIT "."; Fnmatch.STAR] name).
  destruct name as [|c name].
  - split; [discriminate|]. intros [rest H]. discriminate H.
  - cbn [Fnmatch.matches Fnmatch.piece_matches].
    change ((fix star (s : string) : bool :=
               Fnmatch.matches [] s
               || match s with EmptyString => false | String _ s' => star s' end) name)
      with (Fnmatch.matches [Fnmatch.STAR] name).
    rewrite matches_star_all, andb_true_r. split.
    + intros H. apply Ascii.eqb_eq in H. subst c. now exists name.
    + intros [rest H]. injection H as -> _. apply Ascii.eqb_refl.
Qed.

Lemma fnmatch_dunder (name : string) :
  Fnmatch.fnmatch name "__*__" = true <-> exists middle, name = "__" ++ middle ++ "__".
Proof.
  change (Fnmatch.fnmatch name "__*__")
    with (Fnmatch.matches [Fnmatch.LIT "_"; Fnmatch.LIT "_"; Fnmatch.STAR;
                           Fnmatch.LIT "_"; Fnmatch.LIT "_"] name).
  assert (Htail : forall rest,
             Fnmatch.matches [Fnmatch.LIT "_"; Fnmatch.LIT "_"] rest = true <-> rest = "__").
  { intros rest.
    change [Fnmatch.LIT "_"; Fnmatch.LIT "_"]
      with (map Fnmatch.LIT (list_ascii_of_string "__")).
    rewrite matches_literal. apply String.eqb_eq. }
  destruct name as [|c [|d name]].
  - split; [discriminate|]. intros [middle H]. discriminate H.
  - split.
    + cbn [Fnmatch.matches Fnmatch.piece_matches]. rewrite andb_false_r. discriminate.
    + intros [middle H]. discriminate H.
  - change (Fnmatch.matches [Fnmatch.LIT "_"; Fnmatch.LIT "_"; Fnmatch.STAR;
                             Fnmatch.LIT "_"; Fnmatch.LIT "_"] (String c (String d name)))
      with (Ascii.eqb c "_"
            && (Ascii.eqb d "_"
                && Fnmatch.matches [Fnmatch.STAR; Fnmatch.LIT "_"; Fnmatch.LIT "_"] name)).
    rewrite !andb_true_iff, matches_star_iff, !Ascii.eqb_eq. split.
    + intros (-> & -> & middle & rest & -> & H). apply Htail in H. subst rest.
      now exists middle.
    + intros [middle H]. injection H as -> -> ->.
      split; [reflexivity|]. split; [reflexivity|].
      exists middle, "__". split; [reflexivity|]. now apply Htail.
Qed.

Lemma fnmatch_name (p name : string) :
  Fnmatch.translate p = map Fnmatch.LIT (list_ascii_of_string p) ->
  Fnmatch.fnmatch name p = true <-> name = p.
Proof.
  intros H. unfold Fnmatch.fnmatch, Fnmatch.fnmatchcase. rewrite H, matches_literal.
  apply String.eqb_eq.
Qed.

Lemma default_patterns_match (name : string) :
  existsb (Fnmatch.fnmatch name) default_ignore_patterns = true <-> ignored_by_default name.
Proof.
  unfold default_ignore_patterns, ignored_by_default.
  cbn [existsb]. rewrite orb_false_r, !orb_true_iff.
  rewrite fnmatch_hidden, fnmatch_dunder.
  rewrite (@fnmatch_name "venv" name eq_refl), (@fnmatch_name "env" name eq_refl),
    (@fnmatch_name "__pycache__" name eq_refl).
  tauto.
Qed.

Lemma default_patterns_hit E rel_path base_name :
  fnmatch E = Fnmatch.fnmatch ->
  existsb (pattern_hits E rel_path base_name) default_ignore_patterns = true
  <-> ignored_by_default rel_path \/ ignored_by_default base_name.
Proof.
  intros Hfn. rewrite <- !default_patterns_match.
  unfold pattern_hits. rewrite Hfn.
  induction default_ignore_patterns as [|p l IH]; cbn [existsb].
  - split; [discriminate|]. intros [H|H]; discriminate H.
  - rewrite !orb_true_iff, IH. tauto.
Qed.

(** X20: with [fnmatch] as the matcher and the five default ignore
    patterns alone, a path other than the root is rejected exactly when its
    relative path or its base name starts with a dot, or starts and ends with
    two underscores (four at least), or is [venv], [env] or [__pycache__]. *)
Theorem default_ignore_patterns_meaning :
  forall E path root_dir rel_path,
    fnmatch E = Fnmatch.fnmatch ->
    PosixPath.relpath (getcwd E) path root_dir = Ok rel_path ->
    rel_path <> "." ->
    should_process E path root_dir [] default_ignore_patterns = Ok false
    <-> ignored_by_default rel_path \/ ignored_by_default (PosixPath.basename path).
Proof.
  intros E path root_dir rel Hfn Hrel Hroot.
  rewrite <- (@default_patterns_hit E rel (PosixPath.basename path) Hfn).
  unfold should_process. rewrite Hrel.
  destruct (String.eqb_spec rel ".") as [Heq|_]; [now elim Hroot|].
  cbv zeta. cbn [andb].
  destruct (existsb (pattern_hits E rel (PosixPath.basename path)) default_ignore_patterns).
  - split; reflexivity.
  - split; discriminate.
Qed.

Lemma default_ignore_patterns_meaning_witness :
  should_process (demo_env demo_tree no_network no_vars) "proj/src/__generated__" "proj" []
                 default_ignore_patterns = Ok false.
Proof.
  apply (@default_ignore_patterns_meaning
           (demo_env demo_tree no_network no_vars) "proj/src/__generated__" "proj"
           "src/__generated__" eq_refl).
  - vm_compute. reflexivity.
  - discriminate.
  - right. right. left. exists "generated". vm_compute. reflexivity.
Defined.

(** X21: whatever the command line, a path other than the root whose
    relative path or base name the default patterns stand for is rejected,
    also when it matches an include pattern. *)
Theorem default_ignores_cannot_be_lifted :
  forall E a patterns l include_patterns path rel_path,
    fnmatch E = Fnmatch.fnmatch ->
    collect_ignore_patterns E a = (Ok patterns, l) ->
    PosixPath.relpath (getcwd E) path (arg_root_dir a) = Ok rel_path ->
    rel_path <> "." ->
    ignored_by_default rel_path \/ ignored_by_default (PosixPath.basename path) ->
    should_process E path (arg_root_dir a) include_patterns patterns = Ok false.
Proof.
  intros E a patterns l inc path rel Hfn Hc Hrel Hroot Hname.
  apply collect_ignore_patterns_form in Hc. destruct Hc as [-> _].
  unfold should_process. rewrite Hrel.
  destruct (String.eqb_spec rel ".") as [Heq|_]; [now elim Hroot|].
  cbv zeta.
  destruct (match inc with [] => false | _ :: _ => true end
            && negb (existsb (pattern_hits E rel (PosixPath.basename path)) inc));
    [reflexivity|].
  rewrite existsb_app.
  assert (Hd : existsb (pattern_hits E rel (PosixPath.basename path)) default_ignore_patterns
               = true).
  { now apply (@default_patterns_hit E rel (PosixPath.basename path) Hfn). }
  now rewrite Hd.
Qed.

Lemma default_ignores_cannot_be_lifted_witness :
  should_process (demo_env demo_tree no_network no_vars) "proj/.github/ci.py" "proj"
                 ["*.py"; ".github"] default_ignore_patterns = Ok false.
Proof.
  apply (@default_ignores_cannot_be_lifted
           (demo_env demo_tree no_network no_vars) default_args default_ignore_patterns []
           ["*.py"; ".github"] "proj/.github/ci.py" ".github/ci.py" eq_refl).
  - reflexivity.
  - vm_compute. reflexivity.
  - discriminate.
  - left. left. exists "github/ci.py". reflexivity.
Defined.


(** ** Records at level CRITICAL *)

Lemma quiet_ret (A : Type) (a : A) : quiet (ret a).
Proof. intros s. exists []. split; [now rewrite app_nil_r|reflexivity]. Qed.

Lemma quiet_raise (A : Type) (e : exn) : quiet (@raise A e).
Proof. intros s. exists []. split; [now rewrite app_nil_r|reflexivity]. Qed.

Lemma quiet_lift (A : Type) (r : result A) : quiet (lift r).
Proof. destruct r; [apply quiet_ret|apply quiet_raise]. Qed.

Lemma quiet_bind (A B : Type) (c : M A) (k : A -> M B) :
  quiet c -> (forall a, quiet (k a)) -> quiet (bind c k).
Proof.
  intros Hc Hk s. unfold bind. destruct (Hc s) as (l1 & H1 & Hl1).
  destruct (c s) as [[a|e] s1]; cbn [snd] in H1.
  - destruct (Hk a s1) as (l2 & H2 & Hl2). exists (l1 ++ l2)%list.
    split; [now rewrite H2, H1, app_assoc|].
    now rewrite existsb_app, Hl1, Hl2.
  - now exists l1.
Qed.

Lemma quiet_logging (lvl : level) (msg : string) :
  lvl <> CRITICAL -> quiet (logging lvl msg).
Proof.
  intros Hl s. exists [(lvl, msg)]. split; [reflexivity|].
  cbn. destruct lvl; try reflexivity. now elim Hl.
Qed.

Lemma quiet_write (text : string) : quiet (write text).
Proof. intros s. exists []. split; [cbn; now rewrite app_nil_r|reflexivity]. Qed.

Lemma quiet_append_data (x : json) : quiet (append_data x).
Proof. intros s. exists []. split; [cbn; now rewrite app_nil_r|reflexivity]. Qed.

Lemma quiet_for_each (A : Type) (body : A -> M unit) (l : list A) :
  (forall x, In x l -> quiet (body x)) -> quiet (for_each body l).
Proof.
  induction l as [|x l IH]; intros H; cbn [for_each].
  - apply quiet_ret.
  - apply quiet_bind; [apply H; now left|]. intros _. apply IH.
    intros y Hy. apply H. now right.
Qed.

Lemma quiet_filterM (A : Type) (test : A -> M bool) (l : list A) :
  (forall x, quiet (test x)) -> quiet (filterM test l).
Proof.
  intros H. induction l as [|x l IH]; cbn [filterM].
  - apply quiet_ret.
  - apply quiet_bind; [apply H|]. intros b.
    apply quiet_bind; [exact IH|]. intros kept. apply quiet_ret.
Qed.

Lemma quiet_fold_each (A B : Type) (body : list B -> A -> M (list B)) (l : list A) :
  (forall acc x, quiet (body acc x)) -> forall acc, quiet (fold_each body l acc).
Proof.
  intros H. induction l as [|x l IH]; intros acc; cbn [fold_each].
  - apply quiet_ret.
  - apply quiet_bind; [apply H|]. intros acc'. apply IH.
Qed.

Ltac quiet_log := apply quiet_logging; discriminate.

Section Quiet.

Variable E : Env.
Variable root_dir : string.
Variables include_patterns ignore_patterns : list string.

Lemma quiet_walk (body : string -> list string -> list string -> M unit) :
  (forall dirpath dirnames filenames, quiet (body dirpath dirnames filenames)) ->
  forall top dirpath,
    quiet (walk E root_dir include_patterns ignore_patterns body dirpath top).
Proof.
  intros Hbody top.
  induction top as [name|name children IH|name] using node_ind'; intros dirpath;
    [apply quiet_ret| |apply quiet_ret].
  cbn [walk]. apply quiet_bind.
  - apply quiet_filterM. intros d. apply quiet_lift.
  - intros dirnames. apply quiet_bind; [apply Hbody|]. intros _.
    apply quiet_for_each. intros c Hc. rewrite Forall_forall in IH.
    destruct (existsb (String.eqb (node_name c)) dirnames); [|apply quiet_ret].
    apply (IH c Hc).
Qed.

Lemma quiet_os_walk (body : string -> list string -> list string -> M unit) :
  (forall dirpath dirnames filenames, quiet (body dirpath dirnames filenames)) ->
  quiet (os_walk E root_dir include_patterns ignore_patterns body).
Proof.
  intros Hbody. unfold os_walk.
  destruct (scandir_tree E root_dir); [now apply quiet_walk|apply quiet_ret].
Qed.

Lemma quiet_get_file_description file_content key partial_prompt :
  quiet (get_file_description E file_content key partial_prompt).
Proof.
  unfold get_file_description.
  destruct (fetch_description E _) as [r|e]; [apply quiet_ret|].
  destruct (exn_kind_of e); try apply quiet_raise;
    (apply quiet_bind; [quiet_log|intros _; apply quiet_ret]).
Qed.

Lemma quiet_process_file api_key partial_prompt dirpath filename :
  quiet (process_file E root_dir include_patterns ignore_patterns api_key partial_prompt
                      dirpath filename).
Proof.
  unfold process_file. cbv zeta.
  apply quiet_bind; [apply quiet_lift|]. intros ok.
  destruct (negb ok); [quiet_log|].
  destruct (Str.endswith filename ".py"); [|apply quiet_ret].
  apply quiet_bind; [quiet_log|]. intros _.
  destruct (read_text E _) as [file_content|e].
  2:{ destruct (Py.is_OSError e); [quiet_log|apply quiet_raise]. }
  assert (Hplain : forall a b c x,
             quiet (write a ;; write b ;; write c ;; append_data x)).
  { intros a b c x. repeat (apply quiet_bind; [apply quiet_write|intros _]).
    apply quiet_append_data. }
  destruct api_key as [key|]; [|apply Hplain].
  destruct (Str.truthy key); [|apply Hplain].
  apply quiet_bind; [apply quiet_get_file_description|]. intros [description usage].
  repeat (apply quiet_bind; [apply quiet_write|intros _]).
  apply quiet_bind; [|intros _; apply quiet_append_data].
  destruct (Py.nonempty usage); [|apply quiet_ret].
  repeat (apply quiet_bind; [apply quiet_lift|intros ?]).
  quiet_log.
Qed.

Lemma quiet_python_body api_key partial_prompt dirpath dirnames filenames :
  quiet (python_body E root_dir include_patterns ignore_patterns api_key partial_prompt
                     dirpath dirnames filenames).
Proof.
  unfold python_body. apply quiet_bind; [apply quiet_lift|]. intros ok.
  destruct (negb ok); [quiet_log|].
  apply quiet_for_each. intros f _. apply quiet_process_file.
Qed.

Lemma quiet_list_entry dirpath contents name :
  quiet (list_entry E root_dir include_patterns ignore_patterns dirpath contents name).
Proof.
  unfold list_entry. cbv zeta. apply quiet_bind; [apply quiet_lift|]. intros ok.
  destruct (negb ok).
  - apply quiet_bind; [quiet_log|intros _; apply quiet_ret].
  - destruct (stat_entry E _) as [[permissions owner]|e].
    + apply quiet_bind; [apply quiet_write|intros _; apply quiet_ret].
    + destruct (exn_kind_of e); try apply quiet_raise;
        (apply quiet_bind; [quiet_log|intros _; apply quiet_ret]).
Qed.

Lemma quiet_tree_body dirpath dirnames filenames :
  quiet (tree_body E root_dir include_patterns ignore_patterns dirpath dirnames filenames).
Proof.
  unfold tree_body. apply quiet_bind; [apply quiet_lift|]. intros ok.
  destruct (negb ok); [quiet_log|].
  repeat (apply quiet_bind; [apply quiet_write|intros _]).
  apply quiet_bind; [|intros contents; apply quiet_append_data].
  apply quiet_fold_each. intros acc x. apply quiet_list_entry.
Qed.

End Quiet.

Lemma run_report_critical E output_file_txt output_file_json txt_failure loop :
  quiet loop ->
  existsb (has_level CRITICAL)
          (rep_log (run_report E output_file_txt output_file_json txt_failure loop)) = true ->
  rep_raised (run_report E output_file_txt output_file_json txt_failure loop)
  = Some sys_exit_1.
Proof.
  intros Hq. unfold run_report.
  destruct (open_write E output_file_txt) as [[]|e].
  2:{ destruct (Py.is_OSError e); cbn [rep_log rep_raised]; [reflexivity|discriminate]. }
  destruct (Hq initial_state) as (l & Hl & Hnone). cbn [log initial_state app] in Hl.
  destruct (loop initial_state) as [[[]|e] s]; cbn [snd] in Hl.
  - destruct (open_write E output_file_json) as [[]|e].
    + cbn [rep_log rep_raised]. rewrite Hl, Hnone. discriminate.
    + destruct (Py.is_OSError e); cbn [rep_log rep_raised]; [reflexivity|].
      rewrite Hl, Hnone. discriminate.
  - destruct (Py.is_OSError e); cbn [rep_log rep_raised]; [reflexivity|].
    rewrite Hl, Hnone. discriminate.
Qed.

(** X22: a record at level CRITICAL is only logged on the way to
    [sys.exit(1)]: a run that logs one ends with status 1.  The loops of the
    two reports never log at this level. *)
Theorem critical_record_means_exit_1 :
  forall E a,
    existsb (has_level CRITICAL) (run_log (main E a)) = true ->
    exit_code (main E a) = 1.
Proof.
  intros E a. unfold main.
  destruct (determine_api_key E a) as [[key|e] l1] eqn:Hk; [|reflexivity].
  assert (Hl1 : existsb (has_level CRITICAL) l1 = false).
  { unfold determine_api_key in Hk.
    destruct (arg_description a).
    - destruct (Py.truthy (arg_api a)); [injection Hk as _ <-; reflexivity|].
      destruct (Py.truthy (env_api_key E)); [injection Hk as _ <-; reflexivity|discriminate Hk].
    - injection Hk as _ <-. reflexivity. }
  destruct (collect_ignore_patterns E a) as [[patterns|e] l3] eqn:Hc; [|reflexivity].
  apply collect_ignore_patterns_form in Hc. destruct Hc as [_ ->].
  cbv zeta.
  pose proof (@run_report_critical E
                ("all_python_files_" ++ now_python E ++ ".txt")
                ("all_python_files_" ++ now_python E ++ ".json")
                "Failed to write to output file "
                _ (@quiet_os_walk E (arg_root_dir a) (collect_include_patterns a) patterns _
                     (quiet_python_body E (arg_root_dir a) (collect_include_patterns a)
                                        patterns key (arg_d a)))) as Hp.
  pose proof (@run_report_critical E
                ("directory_tree_" ++ now_tree E ++ ".txt")
                ("directory_tree_" ++ now_tree E ++ ".json")
                "Failed to write to tree output file "
                _ (@quiet_os_walk E (arg_root_dir a) (collect_include_patterns a) patterns _
                     (quiet_tree_body E (arg_root_dir a) (collect_include_patterns a)
                                      patterns))) as Ht.
  fold (process_all_python_files E (arg_root_dir a) (collect_include_patterns a)
                                 patterns key (arg_d a)) in Hp.
  fold (generate_tree_view E (arg_root_dir a) (collect_include_patterns a) patterns) in Ht.
  destruct (arg_python a).
  - destruct (process_all_python_files E (arg_root_dir a) (collect_include_patterns a)
                                       patterns key (arg_d a)) as [pt pj pl [pe|]];
      [reflexivity|].
    cbn [rep_log rep_raised] in Hp.
    assert (Hpl : existsb (has_level CRITICAL) pl = false).
    { destruct (existsb (has_level CRITICAL) pl); [|reflexivity].
      specialize (Hp eq_refl). discriminate Hp. }
    destruct (arg_tree a).
    + destruct (generate_tree_view E (arg_root_dir a) (collect_include_patterns a) patterns)
        as [tt tj tl [te|]]; [reflexivity|].
      cbn [rep_log rep_raised] in Ht.
      assert (Htl : existsb (has_level CRITICAL) tl = false).
      { destruct (existsb (has_level CRITICAL) tl); [|reflexivity].
        specialize (Ht eq_refl). discriminate Ht. }
      cbn [run_log exit_code rep_log].
      rewrite !existsb_app, Hl1, Hpl, Htl. destruct (arg_description a); cbn; discriminate.
    + cbn [run_log exit_code rep_log].
      rewrite !existsb_app, Hl1, Hpl. destruct (arg_description a); cbn; discriminate.
  - destruct (arg_tree a).
    + destruct (generate_tree_view E (arg_root_dir a) (collect_include_patterns a) patterns)
        as [tt tj tl [te|]]; [reflexivity|].
      cbn [rep_log rep_raised] in Ht.
      assert (Htl : existsb (has_level CRITICAL) tl = false).
      { destruct (existsb (has_level CRITICAL) tl); [|reflexivity].
        specialize (Ht eq_refl). discriminate Ht. }
      cbn [run_log exit_code rep_log].
      rewrite !existsb_app, Hl1, Htl. destruct (arg_description a); cbn; discriminate.
    + cbn [run_log exit_code rep_log].
      rewrite !existsb_app, Hl1. destruct (arg_description a); cbn; discriminate.
Qed.

Lemma critical_record_means_exit_1_witness :
  exit_code (main (unwritable (demo_env demo_tree no_network no_vars) "directory_tree")
                  args_both) = 1.
Proof.
  apply (@critical_record_means_exit_1
           (unwritable (demo_env demo_tree no_network no_vars) "directory_tree") args_both).
  vm_compute. reflexivity.
Defined.

(** ** Pattern lists as sets *)

Lemma existsb_same_elements (A : Type) (f : A -> bool) (l l' : list A) :
  (forall x, In x l <-> In x l') -> existsb f l = existsb f l'.
Proof.
  intros H. apply eq_true_iff_eq. rewrite !existsb_exists.
  split; intros [x [Hx Hf]]; exists x; (split; [now apply H|exact Hf]).
Qed.

Lemma filterM_ext (A : Type) (f g : A -> M bool) (l : list A) :
  (forall x s, f x s = g x s) -> forall s, filterM f l s = filterM g l s.
Proof.
  intros H. induction l as [|x l IH]; intros s; [reflexivity|].
  cbn [filterM]. unfold bind. rewrite H.
  destruct (g x s) as [[b|e] s1]; [|reflexivity].
  rewrite IH. reflexivity.
Qed.

Lemma fold_each_ext (A B : Type) (f g : list B -> A -> M (list B)) (l : list A) :
  (forall acc x s, f acc x s = g acc x s) ->
  forall acc s, fold_each f l acc s = fold_each g l acc s.
Proof.
  intros H. induction l as [|x l IH]; intros acc s; [reflexivity|].
  cbn [fold_each]. unfold bind. rewrite H.
  destruct (g acc x s) as [[acc'|e] s1]; [|reflexivity].
  apply IH.
Qed.

Section SamePatterns.

Variable E : Env.
Variable root_dir : string.
Variables inc ign inc' ign' : list string.

Hypothesis Hinc : forall p, In p inc <-> In p inc'.
Hypothesis Hign : forall p, In p ign <-> In p ign'.

Lemma should_process_same_sets path :
  should_process E path root_dir inc ign = should_process E path root_dir inc' ign'.
Proof.
  unfold should_process.
  destruct (PosixPath.relpath (getcwd E) path root_dir) as [rel|e]; [|reflexivity].
  cbv zeta.
  rewrite (@existsb_same_elements _ (pattern_hits E rel (PosixPath.basename path)) _ _ Hinc).
  rewrite (@existsb_same_elements _ (pattern_hits E rel (PosixPath.basename path)) _ _ Hign).
  assert (Hempty : match inc with [] => false | _ :: _ => true end
                   = match inc' with [] => false | _ :: _ => true end).
  { destruct inc as [|p l], inc' as [|p' l']; try reflexivity.
    - destruct (proj2 (Hinc p') (or_introl eq_refl)).
    - destruct (proj1 (Hinc p) (or_introl eq_refl)). }
  now rewrite Hempty.
Qed.

Lemma passes_same_sets path s :
  passes E root_dir inc ign path s = passes E root_dir inc' ign' path s.
Proof. unfold passes. now rewrite should_process_same_sets. Qed.

Lemma walk_same_sets (body body' : string -> list string -> list string -> M unit) :
  (forall dirpath dirnames filenames s,
      body dirpath dirnames filenames s = body' dirpath dirnames filenames s) ->
  forall top dirpath s,
    walk E root_dir inc ign body dirpath top s = walk E root_dir inc' ign' body' dirpath top s.
Proof.
  intros Hbody top.
  induction top as [name|name children IH|name] using node_ind'; intros dirpath s;
    [reflexivity| |reflexivity].
  cbn [walk]. unfold bind at 1 3.
  rewrite (@filterM_ext _ (fun d => passes E root_dir inc ign (PosixPath.join2 dirpath d))
                        (fun d => passes E root_dir inc' ign' (PosixPath.join2 dirpath d))
                        (dirs_of children)
                        (fun d s0 => passes_same_sets (PosixPath.join2 dirpath d) s0)).
  destruct (filterM _ (dirs_of children) s) as [[dirnames|e] s1]; [|reflexivity].
  unfold bind. rewrite Hbody.
  destruct (body' dirpath dirnames (nondirs_of children) s1) as [[[]|e] s2]; [|reflexivity].
  apply for_each_ext. intros c Hc s3. rewrite Forall_forall in IH.
  destruct (existsb (String.eqb (node_name c)) dirnames); [|reflexivity].
  apply (IH c Hc).
Qed.

Lemma os_walk_same_sets (body body' : string -> list string -> list string -> M unit) :
  (forall dirpath dirnames filenames s,
      body dirpath dirnames filenames s = body' dirpath dirnames filenames s) ->
  forall s, os_walk E root_dir inc ign body s = os_walk E root_dir inc' ign' body' s.
Proof.
  intros Hbody s. unfold os_walk.
  destruct (scandir_tree E root_dir); [now apply walk_same_sets|reflexivity].
Qed.

Lemma python_body_same_sets api_key partial_prompt dirpath dirnames filenames s :
  python_body E root_dir inc ign api_key partial_prompt dirpath dirnames filenames s
  = python_body E root_dir inc' ign' api_key partial_prompt dirpath dirnames filenames s.
Proof.
  unfold python_body, bind. rewrite passes_same_sets.
  destruct (passes E root_dir inc' ign' dirpath s) as [[ok|e] s1]; [|reflexivity].
  destruct (negb ok); [reflexivity|].
  apply for_each_ext. intros f _ s2.
  unfold process_file, passes. now rewrite should_process_same_sets.
Qed.

Lemma tree_body_same_sets dirpath dirnames filenames s :
  tree_body E root_dir inc ign dirpath dirnames filenames s
  = tree_body E root_dir inc' ign' dirpath dirnames filenames s.
Proof.
  unfold tree_body, bind. rewrite passes_same_sets.
  destruct (passes E root_dir inc' ign' dirpath s) as [[ok|e] s1]; [|reflexivity].
  destruct (negb ok); [reflexivity|].
  destruct (write _ s1) as [[[]|e] s2]; [|reflexivity].
  destruct (write _ s2) as [[[]|e] s3]; [|reflexivity].
  rewrite (@fold_each_ext _ _ (list_entry E root_dir inc ign dirpath)
                          (list_entry E root_dir inc' ign' dirpath)).
  - reflexivity.
  - intros acc x s4. unfold list_entry, passes. now rewrite should_process_same_sets.
Qed.

End SamePatterns.

(** X23: the two reports depend on the include and ignore patterns only
    as sets: the order of the patterns and repeated patterns change nothing,
    in the text, in the JSON document, in the log or in the outcome. *)
Theorem reports_depend_on_pattern_sets :
  forall E root_dir inc ign inc' ign' api_key partial_prompt,
    (forall p, In p inc <-> In p inc') ->
    (forall p, In p ign <-> In p ign') ->
    process_all_python_files E root_dir inc ign api_key partial_prompt
    = process_all_python_files E root_dir inc' ign' api_key partial_prompt
    /\ generate_tree_view E root_dir inc ign = generate_tree_view E root_dir inc' ign'.
Proof.
  intros E root_dir inc ign inc' ign' api pp Hinc Hign.
  unfold process_all_python_files, generate_tree_view, run_report. split.
  - rewrite (@os_walk_same_sets E root_dir inc ign inc' ign' Hinc Hign
               (python_body E root_dir inc ign api pp)
               (python_body E root_dir inc' ign' api pp)
               (@python_body_same_sets E root_dir inc ign inc' ign' Hinc Hign api pp)).
    reflexivity.
  - rewrite (@os_walk_same_sets E root_dir inc ign inc' ign' Hinc Hign
               (tree_body E root_dir inc ign) (tree_body E root_dir inc' ign')
               (@tree_body_same_sets E root_dir inc ign inc' ign' Hinc Hign)).
    reflexivity.
Qed.

Lemma reports_depend_on_pattern_sets_witness :
  generate_tree_view (demo_env demo_tree no_network no_vars) "proj" [] ["venv"; ".*"]
  = generate_tree_view (demo_env demo_tree no_network no_vars) "proj" [] [".*"; "venv"; ".*"].
Proof.
  apply (@reports_depend_on_pattern_sets
           (demo_env demo_tree no_network no_vars) "proj" [] ["venv"; ".*"]
           [] [".*"; "venv"; ".*"] None None).
  - intros p. split; intros H; exact H.
  - intros p. cbn [In]. tauto.
Defined.
